(** * snap_ai document pipeline: a shallow embedding and its properties

    The development follows the Python sources:
    - [src/snap_ai/core/processor.py]   (class [Processor]),
    - [src/snap_ai/services/document_service.py] and [file_service.py],
    - [src/snap_ai/models/document.py]  (the pydantic models),
    - [backend/src/core/prompt_loader.py] and [textract_core.py].

    Conventions.
    - A Python [str] is a [string]: one [ascii] per character.  The few
      characters of the source literals that lie outside Latin-1 (the bullet
      and the cross mark) are spelled by their UTF-8 bytes.
    - A Python [float] is idealised as an exact rational ([Q]); equalities
      between scores are stated with [==].
    - A [Dict[str, Any]] handled by the pipeline is a [gmap string json].
      An object nested inside a JSON value keeps its insertion order (an
      association list), which [str()] shows.
    - A call that may raise returns an [outcome]. *)

From Stdlib Require Import Ascii String QArith Qminmax Lqa.
From stdpp Require Import gmap strings list pretty.

Set Warnings "-register-all".
Local Open Scope string_scope.

(** ** Exceptions *)

Inductive exn_kind :=
  | RuntimeError | ValueError | KeyError | IndexError | AttributeError
  | TypeError | ValidationError | HTTPException (status : nat)
  | OtherError
  | OutsideModel.

Record exn := mk_exn { exn_kind_of : exn_kind; exn_message : string }.

Inductive outcome (A : Type) :=
  | Returned (a : A)
  | Raised (e : exn).
Arguments Returned {A} a.
Arguments Raised {A} e.

Definition obind {A B} (m : outcome A) (k : A -> outcome B) : outcome B :=
  match m with
  | Returned a => k a
  | Raised e => Raised e
  end.

Definition returns {A} (m : outcome A) : Prop := exists a, m = Returned a.

(** ** Python string operations used by the sources *)

Module Str.

Definition char_in (c : ascii) (chars : string) : bool :=
  bool_decide (c ∈ list_ascii_of_string chars).

Fixpoint find_from (sub s : string) (i : nat) : option nat :=
  if String.prefix sub s then Some i
  else match s with
       | EmptyString => None
       | String _ s' => find_from sub s' (S i)
       end.

Fixpoint rfind_from (sub s : string) (i : nat) : option nat :=
  match s with
  | EmptyString => if String.prefix sub s then Some i else None
  | String _ s' =>
      match rfind_from sub s' (S i) with
      | Some j => Some j
      | None => if String.prefix sub s then Some i else None
      end
  end.

Definition index_or_minus1 (o : option nat) : Z :=
  match o with Some i => Z.of_nat i | None => (-1)%Z end.

(** [s.find(sub)] and [s.rfind(sub)]: -1 when [sub] does not occur. *)
Definition find (sub s : string) : Z := index_or_minus1 (find_from sub s 0).
Definition rfind (sub s : string) : Z := index_or_minus1 (rfind_from sub s 0).

(** [sub in s] *)
Definition contains (sub s : string) : bool :=
  match find_from sub s 0 with Some _ => true | None => false end.

Fixpoint take (n : nat) (s : string) : string :=
  match n, s with
  | S k, String c s' => String c (take k s')
  | _, _ => EmptyString
  end.

Fixpoint drop (n : nat) (s : string) : string :=
  match n, s with
  | S k, String _ s' => drop k s'
  | _, _ => s
  end.

(** A slice bound, as Python clips it. *)
Definition clip (len : nat) (i : Z) : nat :=
  if (i <? 0)%Z then Z.to_nat (Z.max 0 (i + Z.of_nat len))
  else Nat.min (Z.to_nat i) len.

(** [s[i:j]] *)
Definition slice (i j : Z) (s : string) : string :=
  let a := clip (String.length s) i in
  let b := clip (String.length s) j in
  take (b - a) (drop a s).

Definition startswith (p s : string) : bool := String.prefix p s.

Definition endswith (p s : string) : bool :=
  (String.length p <=? String.length s)%nat
  && String.eqb (drop (String.length s - String.length p) s) p.

Fixpoint lstrip (chars s : string) : string :=
  match s with
  | EmptyString => EmptyString
  | String c s' => if char_in c chars then lstrip chars s' else s
  end.

Fixpoint rstrip (chars s : string) : string :=
  match s with
  | EmptyString => EmptyString
  | String c s' =>
      match rstrip chars s' with
      | EmptyString => if char_in c chars then EmptyString else String c EmptyString
      | r => String c r
      end
  end.

(** [s.strip(chars)] *)
Definition strip_chars (chars s : string) : string :=
  rstrip chars (lstrip chars s).

(** The characters [str.isspace] accepts, below code point 256. *)
Definition is_space (c : ascii) : bool :=
  let n := nat_of_ascii c in
  ((9 <=? n) && (n <=? 13) || (28 <=? n) && (n <=? 32)
   || (n =? 133) || (n =? 160))%nat.

Fixpoint lstrip_space (s : string) : string :=
  match s with
  | EmptyString => EmptyString
  | String c s' => if is_space c then lstrip_space s' else s
  end.

Fixpoint rstrip_space (s : string) : string :=
  match s with
  | EmptyString => EmptyString
  | String c s' =>
      match rstrip_space s' with
      | EmptyString => if is_space c then EmptyString else String c EmptyString
      | r => String c r
      end
  end.

(** [s.strip()] *)
Definition strip (s : string) : string := rstrip_space (lstrip_space s).

Fixpoint replace_go (old new : string) (skip : nat) (s : string) : string :=
  match s with
  | EmptyString => EmptyString
  | String c s' =>
      match skip with
      | S k => replace_go old new k s'
      | O =>
          if String.prefix old s
          then new ++ replace_go old new (String.length old - 1) s'
          else String c (replace_go old new 0 s')
      end
  end.

Fixpoint interleave (new s : string) : string :=
  match s with
  | EmptyString => new
  | String c s' => new ++ String c (interleave new s')
  end.

(** [s.replace(old, new)]: every occurrence, left to right, without
    overlap. *)
Definition replace (old new s : string) : string :=
  match old with
  | EmptyString => interleave new s
  | _ => replace_go old new 0 s
  end.

(** [s.split(sep)] for a one-character separator. *)
Fixpoint split (sep : ascii) (s : string) : list string :=
  match s with
  | EmptyString => [EmptyString]
  | String c s' =>
      if Ascii.eqb c sep then EmptyString :: split sep s'
      else match split sep s' with
           | h :: t => String c h :: t
           | [] => [String c EmptyString]
           end
  end.

(** [sep.join(parts)] *)
Definition join (sep : string) (parts : list string) : string :=
  String.concat sep parts.

Definition lower_char (c : ascii) : ascii :=
  let n := nat_of_ascii c in
  if ((65 <=? n) && (n <=? 90))%nat then ascii_of_nat (n + 32) else c.

Fixpoint lower (s : string) : string :=
  match s with
  | EmptyString => EmptyString
  | String c s' => String (lower_char c) (lower s')
  end.

Definition is_digit (c : ascii) : bool :=
  let n := nat_of_ascii c in ((48 <=? n) && (n <=? 57))%nat.

End Str.

(** ** JSON values, as [json.loads] builds them *)

(** A float is kept as the decimal number its literal denotes:
    [FDecimal neg m e] stands for (-1)^neg * m * 10^e. *)
Inductive pyfloat :=
  | FDecimal (negative : bool) (m : N) (e : Z)
  | FInfinity (negative : bool)
  | FNaN.

Inductive json :=
  | JNull
  | JBool (b : bool)
  | JInt (z : Z)
  | JFloat (f : pyfloat)
  | JStr (s : string)
  | JList (l : list json)
  | JDict (d : list (string * json)).

Definition float_truthy (f : pyfloat) : bool :=
  match f with
  | FDecimal _ m _ => negb (m =? 0)%N
  | _ => true
  end.

(** Python truth value of a JSON value ([if v]). *)
Definition truthy (v : json) : bool :=
  match v with
  | JNull => false
  | JBool b => b
  | JInt z => negb (z =? 0)%Z
  | JFloat f => float_truthy f
  | JStr s => negb (String.eqb s "")
  | JList l => match l with [] => false | _ => true end
  | JDict d => match d with [] => false | _ => true end
  end.

(** [d.get(key, default)] on a nested object. *)
Fixpoint dict_get (key : string) (d : list (string * json)) : option json :=
  match d with
  | [] => None
  | (k, v) :: d' => if String.eqb k key then Some v else dict_get key d'
  end.

(** [d[key] = value] on a nested object: an existing key keeps its place. *)
Fixpoint dict_set (key : string) (value : json) (d : list (string * json))
    : list (string * json) :=
  match d with
  | [] => [(key, value)]
  | (k, v) :: d' =>
      if String.eqb k key then (k, value) :: d'
      else (k, v) :: dict_set key value d'
  end.

(** ** The [json] library: [json.loads]

    A model of the decoder for the JSON grammar that Python accepts, the
    constants [NaN] and [Infinity] included.  [None] stands for
    [json.JSONDecodeError].  A float literal is kept exactly (no rounding to
    binary64, no overflow to infinity). *)

Module JsonDecoder.

Inductive parsed (A : Type) :=
  | Ok (a : A) (rest : string)
  | DecodeError
  | OutOfFuel.
Arguments Ok {A} a rest.
Arguments DecodeError {A}.
Arguments OutOfFuel {A}.

Definition dquote : ascii := ascii_of_nat 34.
Definition backslash : ascii := ascii_of_nat 92.

Definition is_ws (c : ascii) : bool :=
  let n := nat_of_ascii c in
  ((n =? 32) || (n =? 9) || (n =? 10) || (n =? 13))%nat.

Fixpoint skip_ws (s : string) : string :=
  match s with
  | EmptyString => EmptyString
  | String c s' => if is_ws c then skip_ws s' else s
  end.

Fixpoint take_digits (s : string) : string * string :=
  match s with
  | EmptyString => (EmptyString, EmptyString)
  | String c s' =>
      if Str.is_digit c
      then let '(ds, r) := take_digits s' in (String c ds, r)
      else (EmptyString, s)
  end.

Definition digit_value (c : ascii) : N := N_of_ascii c - 48.

Fixpoint digits_value_go (acc : N) (ds : string) : N :=
  match ds with
  | EmptyString => acc
  | String c ds' => digits_value_go (acc * 10 + digit_value c) ds'
  end.

Definition digits_value (ds : string) : N := digits_value_go 0 ds.

(** The integer part of a number, a lone 0 or a digit string without a
    leading 0, and what follows it. *)
Definition scan_int_part (s : string) : option (string * string) :=
  match s with
  | EmptyString => None
  | String c s' =>
      if Ascii.eqb c "0" then Some ("0", s')
      else if Str.is_digit c then Some (take_digits s)
      else None
  end.

(** An optional fraction: a point and at least one digit. *)
Definition scan_frac (s : string) : string * string :=
  match s with
  | String c s' =>
      if Ascii.eqb c "." then
        match take_digits s' with
        | (EmptyString, _) => (EmptyString, s)
        | (ds, r) => (ds, r)
        end
      else (EmptyString, s)
  | EmptyString => (EmptyString, s)
  end.

(** An optional exponent: e or E, an optional sign, at least one digit. *)
Definition scan_exp (s : string) : option Z * string :=
  match s with
  | String c s' =>
      if Ascii.eqb c "e" || Ascii.eqb c "E" then
        let '(neg, s1) :=
          match s' with
          | String sg s'' =>
              if Ascii.eqb sg "-" then (true, s'')
              else if Ascii.eqb sg "+" then (false, s'')
              else (false, s')
          | EmptyString => (false, s')
          end in
        match take_digits s1 with
        | (EmptyString, _) => (None, s)
        | (ds, r) =>
            let v := Z.of_N (digits_value ds) in
            (Some (if neg then (- v)%Z else v), r)
        end
      else (None, s)
  | EmptyString => (None, s)
  end.

Definition parse_number (s : string) : option (json * string) :=
  let '(neg, s0) :=
    match s with
    | String c s' => if Ascii.eqb c "-" then (true, s') else (false, s)
    | EmptyString => (false, s)
    end in
  match scan_int_part s0 with
  | None => None
  | Some (ip, r1) =>
      let '(fp, r2) := scan_frac r1 in
      let '(ex, r3) := scan_exp r2 in
      match fp, ex with
      | EmptyString, None =>
          let v := Z.of_N (digits_value ip) in
          Some (JInt (if neg then (- v)%Z else v), r3)
      | _, _ =>
          let e := (default 0%Z ex - Z.of_nat (String.length fp))%Z in
          Some (JFloat (FDecimal neg (digits_value (ip ++ fp)) e), r3)
      end
  end.

Definition hex_value (c : ascii) : option N :=
  let n := N_of_ascii c in
  if ((48 <=? n) && (n <=? 57))%N then Some (n - 48)%N
  else if ((65 <=? n) && (n <=? 70))%N then Some (n - 55)%N
  else if ((97 <=? n) && (n <=? 102))%N then Some (n - 87)%N
  else None.

(** The four hexadecimal digits of a [\uXXXX] escape. *)
Definition scan_hex4 (s : string) : option (N * string) :=
  match s with
  | String a (String b (String c (String d r))) =>
      match hex_value a, hex_value b, hex_value c, hex_value d with
      | Some x, Some y, Some z, Some w =>
          Some (((x * 16 + y) * 16 + z) * 16 + w, r)%N
      | _, _, _, _ => None
      end
  | _ => None
  end.

Definition byte (n : N) : ascii := ascii_of_N n.

(** A code point as characters of the model: itself below 256, its UTF-8
    bytes above. *)
Definition chars_of_codepoint (cp : N) : string :=
  if (cp <? 256)%N then String (byte cp) EmptyString
  else if (cp <? 2048)%N then
    String (byte (192 + cp / 64)) (String (byte (128 + cp mod 64)) EmptyString)
  else if (cp <? 65536)%N then
    String (byte (224 + cp / 4096))
      (String (byte (128 + (cp / 64) mod 64))
         (String (byte (128 + cp mod 64)) EmptyString))
  else
    String (byte (240 + cp / 262144))
      (String (byte (128 + (cp / 4096) mod 64))
         (String (byte (128 + (cp / 64) mod 64))
            (String (byte (128 + cp mod 64)) EmptyString))).

Definition simple_escape (c : ascii) : option ascii :=
  if Ascii.eqb c dquote then Some dquote
  else if Ascii.eqb c backslash then Some backslash
  else if Ascii.eqb c "/" then Some "/"%char
  else if Ascii.eqb c "b" then Some (ascii_of_nat 8)
  else if Ascii.eqb c "f" then Some (ascii_of_nat 12)
  else if Ascii.eqb c "n" then Some (ascii_of_nat 10)
  else if Ascii.eqb c "r" then Some (ascii_of_nat 13)
  else if Ascii.eqb c "t" then Some (ascii_of_nat 9)
  else None.

(** A low surrogate escape right after a high surrogate. *)
Definition scan_low_surrogate (s : string) : option (N * string) :=
  match s with
  | String b (String u r) =>
      if Ascii.eqb b backslash && Ascii.eqb u "u" then
        match scan_hex4 r with
        | Some (lo, r') =>
            if ((56320 <=? lo) && (lo <=? 57343))%N then Some (lo, r') else None
        | None => None
        end
      else None
  | _ => None
  end.

(** The body of a string literal, after its opening quote (strict mode:
    a raw control character is an error).  [fuel] bounds the number of
    characters and escapes read. *)
Fixpoint scan_string (fuel : nat) (s : string) : option (string * string) :=
  match fuel with
  | O => None
  | S n =>
      match s with
      | EmptyString => None
      | String c s' =>
          if Ascii.eqb c dquote then Some (EmptyString, s')
          else if Ascii.eqb c backslash then
            match s' with
            | EmptyString => None
            | String e s'' =>
                if Ascii.eqb e "u" then
                  match scan_hex4 s'' with
                  | None => None
                  | Some (cp, r) =>
                      let '(cp', r') :=
                        if ((55296 <=? cp) && (cp <=? 56319))%N then
                          match scan_low_surrogate r with
                          | Some (lo, r2) =>
                              ((65536 + (cp - 55296) * 1024 + (lo - 56320))%N, r2)
                          | None => (cp, r)
                          end
                        else (cp, r) in
                      match scan_string n r' with
                      | Some (str, rest) => Some (chars_of_codepoint cp' ++ str, rest)
                      | None => None
                      end
                  end
                else
                  match simple_escape e with
                  | None => None
                  | Some x =>
                      match scan_string n s'' with
                      | Some (str, rest) => Some (String x str, rest)
                      | None => None
                      end
                  end
            end
          else if (nat_of_ascii c <? 32)%nat then None
          else
            match scan_string n s' with
            | Some (str, rest) => Some (String c str, rest)
            | None => None
            end
      end
  end.

Definition parse_string (s : string) : option (string * string) :=
  scan_string (S (String.length s)) s.

(** [null], [true], [false], a number, or one of the float constants. *)
Definition parse_atom (s : string) : parsed json :=
  if String.prefix "null" s then Ok JNull (Str.drop 4 s)
  else if String.prefix "true" s then Ok (JBool true) (Str.drop 4 s)
  else if String.prefix "false" s then Ok (JBool false) (Str.drop 5 s)
  else match parse_number s with
       | Some (v, r) => Ok v r
       | None =>
           if String.prefix "NaN" s then Ok (JFloat FNaN) (Str.drop 3 s)
           else if String.prefix "Infinity" s
           then Ok (JFloat (FInfinity false)) (Str.drop 8 s)
           else if String.prefix "-Infinity" s
           then Ok (JFloat (FInfinity true)) (Str.drop 9 s)
           else DecodeError
       end.

Fixpoint parse_value (fuel : nat) (s : string) : parsed json :=
  match fuel with
  | O => OutOfFuel
  | S n =>
      match s with
      | String c r =>
          if Ascii.eqb c dquote then
            match parse_string r with
            | Some (str, r') => Ok (JStr str) r'
            | None => DecodeError
            end
          else if Ascii.eqb c "{" then
            match skip_ws r with
            | String c' r' =>
                if Ascii.eqb c' "}" then Ok (JDict []) r'
                else parse_members n (String c' r') []
            | EmptyString => DecodeError
            end
          else if Ascii.eqb c "[" then
            match skip_ws r with
            | String c' r' =>
                if Ascii.eqb c' "]" then Ok (JList []) r'
                else parse_elements n (String c' r') []
            | EmptyString => DecodeError
            end
          else parse_atom s
      | EmptyString => DecodeError
      end
  end
with parse_elements (fuel : nat) (s : string) (acc : list json) : parsed json :=
  match fuel with
  | O => OutOfFuel
  | S n =>
      match parse_value n s with
      | Ok v r =>
          match skip_ws r with
          | String c r' =>
              if Ascii.eqb c "]" then Ok (JList (rev (v :: acc))) r'
              else if Ascii.eqb c "," then parse_elements n (skip_ws r') (v :: acc)
              else DecodeError
          | EmptyString => DecodeError
          end
      | DecodeError => DecodeError
      | OutOfFuel => OutOfFuel
      end
  end
with parse_members (fuel : nat) (s : string) (acc : list (string * json))
    : parsed json :=
  match fuel with
  | O => OutOfFuel
  | S n =>
      match s with
      | String q r =>
          if Ascii.eqb q dquote then
            match parse_string r with
            | Some (key, r1) =>
                match skip_ws r1 with
                | String c r2 =>
                    if Ascii.eqb c ":" then
                      match parse_value n (skip_ws r2) with
                      | Ok v r3 =>
                          match skip_ws r3 with
                          | String c' r4 =>
                              if Ascii.eqb c' "}"
                              then Ok (JDict (dict_set key v acc)) r4
                              else if Ascii.eqb c' ","
                              then parse_members n (skip_ws r4) (dict_set key v acc)
                              else DecodeError
                          | EmptyString => DecodeError
                          end
                      | DecodeError => DecodeError
                      | OutOfFuel => OutOfFuel
                      end
                    else DecodeError
                | EmptyString => DecodeError
                end
            | None => DecodeError
            end
          else DecodeError
      | EmptyString => DecodeError
      end
  end.

(** [json.loads(s)]: one value, white space around it, nothing else.  The
    fuel allows two calls for each character of the input. *)
Definition json_loads (s : string) : option json :=
  match parse_value (2 * String.length s + 2) (skip_ws s) with
  | Ok v r =>
      match skip_ws r with
      | EmptyString => Some v
      | _ => None
      end
  | _ => None
  end.

End JsonDecoder.

(** ** Python's [str()] and [repr()] on JSON values *)

Module PyRepr.

Definition nl : string := String (ascii_of_nat 10) EmptyString.

Fixpoint zeros (n : nat) : string :=
  match n with O => EmptyString | S k => String "0" (zeros k) end.

(** [repr] of a float: the shortest decimal that reads back to it, which
    for a literal of at most 15 significant digits in the normal range is
    the literal's own value without trailing zeros. *)
Definition float_repr (f : pyfloat) : string :=
  match f with
  | FNaN => "nan"
  | FInfinity neg => if neg then "-inf" else "inf"
  | FDecimal neg m e =>
      (if neg then "-" else "") ++
      (if (m =? 0)%N then "0.0"
       else
         let ds0 := pretty m in
         let ds := Str.rstrip "0" ds0 in
         let n := String.length ds in
         let pt := (Z.of_nat (String.length ds0) + e)%Z in
         if ((-4 <? pt) && (pt <=? 16))%Z then
           if (pt <=? 0)%Z then "0." ++ zeros (Z.to_nat (- pt)) ++ ds
           else if (Z.of_nat n <=? pt)%Z
           then ds ++ zeros (Z.to_nat pt - n) ++ ".0"
           else Str.take (Z.to_nat pt) ds ++ "." ++ Str.drop (Z.to_nat pt) ds
         else
           let x := (pt - 1)%Z in
           let xs := pretty (Z.abs x) in
           Str.take 1 ds
           ++ (if (n =? 1)%nat then "" else "." ++ Str.drop 1 ds)
           ++ "e" ++ (if (x <? 0)%Z then "-" else "+")
           ++ (if (String.length xs <? 2)%nat then "0" ++ xs else xs))
  end.

Definition hex_digit (n : nat) : ascii :=
  if (n <? 10)%nat then ascii_of_nat (48 + n) else ascii_of_nat (87 + n).

Definition escape_char (quote : ascii) (c : ascii) : string :=
  let n := nat_of_ascii c in
  let bs := JsonDecoder.backslash in
  if Ascii.eqb c bs then String bs (String bs EmptyString)
  else if Ascii.eqb c quote then String bs (String quote EmptyString)
  else if (n =? 10)%nat then String bs "n"
  else if (n =? 13)%nat then String bs "r"
  else if (n =? 9)%nat then String bs "t"
  else if ((n <? 32) || (n =? 127) || (128 <=? n) && (n <=? 160) || (n =? 173))%nat
  then String bs (String "x" (String (hex_digit (n / 16))
                                (String (hex_digit (n mod 16)) EmptyString)))
  else String c EmptyString.

Fixpoint escape_all (quote : ascii) (s : string) : string :=
  match s with
  | EmptyString => EmptyString
  | String c s' => escape_char quote c ++ escape_all quote s'
  end.

(** [repr(s)] for a string: single quotes, unless the string holds a
    single quote and no double quote. *)
Definition str_repr (s : string) : string :=
  let dq := JsonDecoder.dquote in
  let quote :=
    if Str.char_in "'" s && negb (Str.char_in dq s) then dq else "'"%char in
  String quote (escape_all quote s) ++ String quote EmptyString.

Fixpoint py_repr (v : json) : string :=
  match v with
  | JNull => "None"
  | JBool b => if b then "True" else "False"
  | JInt z => pretty z
  | JFloat f => float_repr f
  | JStr s => str_repr s
  | JList l => "[" ++ Str.join ", " (map py_repr l) ++ "]"
  | JDict d =>
      "{" ++ Str.join ", "
               (map (fun kv => match kv with
                               | (k, x) => str_repr k ++ ": " ++ py_repr x
                               end) d)
      ++ "}"
  end.

(** [str(v)], which an f-string applies to these values. *)
Definition py_str (v : json) : string :=
  match v with
  | JStr s => s
  | _ => py_repr v
  end.

End PyRepr.

(** ** The pattern of [re.search(r'\[.*\]', s)]

    The first opening bracket that has a closing bracket after it on the
    same line, up to the last closing bracket of that line (the dot matches
    no newline, the star is greedy). *)

Module Regex.

Fixpoint line_of (s : string) : string :=
  match s with
  | EmptyString => EmptyString
  | String c s' =>
      if (nat_of_ascii c =? 10)%nat then EmptyString else String c (line_of s')
  end.

Definition upto_last_close (line : string) : option string :=
  match Str.rfind_from "]" line 0 with
  | Some j => Some (Str.take (S j) line)
  | None => None
  end.

Fixpoint search_bracketed (s : string) : option string :=
  match s with
  | EmptyString => None
  | String c s' =>
      if Ascii.eqb c "[" then
        match upto_last_close (line_of s') with
        | Some body => Some (String c body)
        | None => search_bracketed s'
        end
      else search_bracketed s'
  end.

End Regex.

(** ** [str.format] with keyword arguments that are strings

    A model of [template.format] applied to keyword arguments.  The scanning of the template
    (literal text, doubled braces, the extent of a replacement field) and the
    look-up of a field's name follow CPython.  A field that names a supplied
    argument and then goes on with an attribute or index access, a
    conversion other than [!s] and [!r], or a non-empty format specification
    lies outside the model and is reported with the kind [OutsideModel]. *)

Module Format.

Definition kwargs := list (string * string).

Fixpoint lookup_kw (name : string) (kw : kwargs) : option string :=
  match kw with
  | [] => None
  | (k, v) :: kw' => if String.eqb k name then Some v else lookup_kw name kw'
  end.

Definition raise {A} (k : exn_kind) (msg : string) : outcome A :=
  Raised (mk_exn k msg).

(** The characters of a field up to the brace, colon or bang that ends its
    name; a bracket skips to its closing bracket. *)
Fixpoint scan_field_name (in_bracket : bool) (s : string)
    : outcome (string * option ascii * string) :=
  match s with
  | EmptyString => Returned (EmptyString, None, EmptyString)
  | String c s' =>
      if in_bracket then
        if Ascii.eqb c "]"
        then obind (scan_field_name false s')
               (fun '(n, t, r) => Returned (String c n, t, r))
        else obind (scan_field_name true s')
               (fun '(n, t, r) => Returned (String c n, t, r))
      else if Ascii.eqb c "{"
      then raise ValueError "unexpected '{' in field name"
      else if Ascii.eqb c "}" || Ascii.eqb c ":" || Ascii.eqb c "!"
      then Returned (EmptyString, Some c, s')
      else if Ascii.eqb c "["
      then
        match s' with
        | EmptyString => Returned (String c EmptyString, None, EmptyString)
        | String c2 _ =>
            obind (scan_field_name (negb (Ascii.eqb c2 "]")) s')
              (fun '(n, t, r) => Returned (String c n, t, r))
        end
      else obind (scan_field_name false s')
             (fun '(n, t, r) => Returned (String c n, t, r))
  end.

(** The format specification, up to the brace that closes the field. *)
Fixpoint scan_format_spec (count : nat) (s : string) : outcome (string * string) :=
  match s with
  | EmptyString => raise ValueError "unmatched '{' in format spec"
  | String c s' =>
      if Ascii.eqb c "{" then
        obind (scan_format_spec (S count) s')
          (fun '(sp, r) => Returned (String c sp, r))
      else if Ascii.eqb c "}" then
        match count with
        | 1 => Returned (EmptyString, s')
        | _ => obind (scan_format_spec (count - 1) s')
                 (fun '(sp, r) => Returned (String c sp, r))
        end
      else obind (scan_format_spec count s')
             (fun '(sp, r) => Returned (String c sp, r))
  end.

Record field := mk_field {
  field_name : string;
  conversion : option ascii;
  format_spec : string;
}.

(** [parse_field]: the text after an opening brace. *)
Definition parse_field (s : string) : outcome (field * string) :=
  obind (scan_field_name false s) (fun '(name, term, r) =>
    match term with
    | None => raise ValueError "expected '}' before end of string"
    | Some c =>
        if Ascii.eqb c "}" then Returned (mk_field name None EmptyString, r)
        else if Ascii.eqb c "!" then
          match r with
          | EmptyString =>
              raise ValueError "end of string while looking for conversion specifier"
          | String conv r1 =>
              match r1 with
              | EmptyString => raise ValueError "unmatched '{' in format spec"
              | String c1 r2 =>
                  if Ascii.eqb c1 "}"
                  then Returned (mk_field name (Some conv) EmptyString, r2)
                  else if Ascii.eqb c1 ":"
                  then obind (scan_format_spec 1 r2) (fun '(sp, r3) =>
                         Returned (mk_field name (Some conv) sp, r3))
                  else raise ValueError "expected ':' after conversion specifier"
              end
          end
        else obind (scan_format_spec 1 r) (fun '(sp, r1) =>
               Returned (mk_field name None sp, r1))
    end).

(** The part of a field name before its first dot or bracket, and the
    accessors after it. *)
Fixpoint split_first (name : string) : string * string :=
  match name with
  | EmptyString => (EmptyString, EmptyString)
  | String c name' =>
      if Ascii.eqb c "." || Ascii.eqb c "["
      then (EmptyString, name)
      else let '(f, r) := split_first name' in (String c f, r)
  end.

Fixpoint all_digits (s : string) : bool :=
  match s with
  | EmptyString => true
  | String c s' => Str.is_digit c && all_digits s'
  end.

(** The value a field stands for. *)
Definition render_field (f : field) (kw : kwargs) : outcome string :=
  let '(first, rest) := split_first (field_name f) in
  if all_digits first then
    if (9223372036854775807 <? JsonDecoder.digits_value first)%N
    then raise ValueError "Too many decimal digits in format string"
    else raise IndexError
           "Replacement index out of range for positional args tuple"
  else
    match lookup_kw first kw with
    | None => raise KeyError first
    | Some v =>
        match rest, format_spec f with
        | EmptyString, EmptyString =>
            match conversion f with
            | None => Returned v
            | Some c =>
                if Ascii.eqb c "s" then Returned v
                else if Ascii.eqb c "r" then Returned (PyRepr.str_repr v)
                else if Ascii.eqb c "a" then raise OutsideModel "conversion"
                else raise ValueError "Unknown conversion specifier"
            end
        | _, _ => raise OutsideModel "accessor or format specification"
        end
    end.

(** One step of the scan for each character of the template at most. *)
Fixpoint format_go (fuel : nat) (s : string) (kw : kwargs) : outcome string :=
  match fuel with
  | O => raise OutsideModel "fuel"
  | S n =>
      match s with
      | EmptyString => Returned EmptyString
      | String c s' =>
          if Ascii.eqb c "}" then
            match s' with
            | String c2 s'' =>
                if Ascii.eqb c2 "}"
                then obind (format_go n s'' kw) (fun r => Returned (String c r))
                else raise ValueError "Single '}' encountered in format string"
            | EmptyString =>
                raise ValueError "Single '}' encountered in format string"
            end
          else if Ascii.eqb c "{" then
            match s' with
            | EmptyString =>
                raise ValueError "Single '{' encountered in format string"
            | String c2 s'' =>
                if Ascii.eqb c2 "{"
                then obind (format_go n s'' kw) (fun r => Returned (String c r))
                else
                  obind (parse_field s') (fun '(f, rest) =>
                  obind (render_field f kw) (fun v =>
                  obind (format_go n rest kw) (fun r => Returned (v ++ r))))
            end
          else obind (format_go n s' kw) (fun r => Returned (String c r))
      end
  end.

Definition py_format (template : string) (kw : kwargs) : outcome string :=
  format_go (S (String.length template)) template kw.

End Format.

(** ** models/document.py *)

Inductive DocumentType := INVOICE | CONTRACT | FORM | RECEIPT | UNKNOWN.
Inductive ConfidenceLevel := HIGH | MEDIUM | LOW.
Inductive ExtractionMethod := OLLAMA | HUGGINGFACE | OPENAI.

Definition ConfidenceLevel_value (l : ConfidenceLevel) : string :=
  match l with HIGH => "high" | MEDIUM => "medium" | LOW => "low" end.

Definition ExtractionMethod_value (m : ExtractionMethod) : string :=
  match m with
  | OLLAMA => "ollama" | HUGGINGFACE => "huggingface" | OPENAI => "openai"
  end.

Definition DocumentType_value (t : DocumentType) : string :=
  match t with
  | INVOICE => "invoice" | CONTRACT => "contract" | FORM => "form"
  | RECEIPT => "receipt" | UNKNOWN => "unknown"
  end.

(** ** backend/src/core/prompt_loader.py *)

Module PromptLoader.

(** The loaded catalog ([self.prompts]): the two top-level keys, each of
    which may be absent. *)
Record catalog := mk_catalog {
  document_types : option (gmap string (gmap string string));
  default_prompts : option (gmap string string);
}.

Definition nl : string := PyRepr.nl.

Definition _get_default_prompts : catalog :=
  {| document_types := Some {[
       "invoice" := {[
         "ollama" := "Extract invoice information from: {text}" ++ nl ++ "Return JSON:";
         "openai" := "Extract invoice information from: {text}" ++ nl ++ "Return JSON:";
         "huggingface" := "Extract invoice from: {text_preview}..." ++ nl ++ "JSON:" ]} ]};
     default_prompts := Some {[
       "ollama" := "Extract information from: {text}" ++ nl ++ "Return JSON:";
       "openai" := "Extract information from: {text}" ++ nl ++ "Return JSON:";
       "huggingface" := "Extract from: {text_preview}..." ++ nl ++ "JSON:" ]} |}.

(** The last resort of [get_prompt]. *)
Definition fallback_prompt (doc_type : string) : string :=
  "Extract " ++ doc_type ++ " information from: {text}" ++ nl ++ "Return JSON:".

Definition get_prompt (prompts : catalog) (doc_type method : string) : string :=
  let by_default :=
    match default (∅ : gmap string string) (default_prompts prompts) !! method with
    | Some t => t
    | None => fallback_prompt doc_type
    end in
  match default (∅ : gmap string (gmap string string)) (document_types prompts)
          !! doc_type with
  | Some doc_prompts =>
      match doc_prompts !! method with
      | Some t => t
      | None => by_default
      end
  | None => by_default
  end.

(** The preview: [text[:300] if len(text) > 300 else text]. *)
Definition text_preview (text : string) : string :=
  if (300 <? String.length text)%nat then Str.slice 0 300 text else text.

Definition format_vars (text : string) : Format.kwargs :=
  [("text", text); ("text_preview", text_preview text)].

Section WithFormatter.
(** [str.format], applied to a template and keyword arguments. *)
Variable str_format : string -> Format.kwargs -> outcome string.

Definition format_prompt (prompts : catalog) (doc_type method text : string)
    : outcome string :=
  let prompt_template := get_prompt prompts doc_type method in
  match str_format prompt_template (format_vars text) with
  | Returned s => Returned s
  | Raised e =>
      match exn_kind_of e with
      | KeyError =>
          Returned
            (Str.replace "{text_preview}" (Str.slice 0 300 text)
               (Str.replace "{text}" text prompt_template))
      | _ => Raised e
      end
  end.
End WithFormatter.

(** The two catalog entries the specification names. *)
Definition exact_entry (prompts : catalog) (doc_type method : string)
    : option string :=
  match default (∅ : gmap string (gmap string string)) (document_types prompts)
          !! doc_type with
  | Some doc_prompts => doc_prompts !! method
  | None => None
  end.

Definition default_entry (prompts : catalog) (method : string) : option string :=
  default (∅ : gmap string string) (default_prompts prompts) !! method.

(** Filling a template with a given full text and a given preview, in the
    words of the specification: by formatting, or by literal replacement of
    the two placeholder names when formatting misses a name. *)
Definition fill_placeholders (str_format : string -> Format.kwargs -> outcome string)
    (template full preview : string) : outcome string :=
  match str_format template [("text", full); ("text_preview", preview)] with
  | Returned s => Returned s
  | Raised e =>
      match exn_kind_of e with
      | KeyError =>
          Returned
            (Str.replace "{text_preview}" preview
               (Str.replace "{text}" full template))
      | _ => Raised e
      end
  end.

(** A catalog whose only entry is the default template of one backend. *)
Definition catalog_of (method template : string) : catalog :=
  mk_catalog None (Some {[ method := template ]}).

End PromptLoader.

(** ** backend/src/core/textract_core.py *)

Module Textract.

(** What reading the file as UTF-8 text does. *)
Definition txt_attempt := outcome string.

(** What the PDF reader does: the text of each page, or a failure. *)
Inductive pdf_attempt :=
  | PdfPages (pages : list string)
  | PdfFailure (error_msg : string).

(** What the body of the image branch does up to the OCR call: the
    recognised text, a failed import of pytesseract or PIL, or any other
    exception with its message. *)
Inductive image_attempt :=
  | OcrText (text : string)
  | OcrImportError
  | OcrFailure (error_msg : string).

Record file_env := mk_file_env {
  as_txt : txt_attempt;
  as_pdf : pdf_attempt;
  as_image : image_attempt;
}.

Definition no_text_found : string := "No text found in image".

Definition corrupted_image : string :=
  "This image appears to be corrupted. Please try uploading a different image or retaking the photo.".

Definition image_exts : list string := [".png"; ".jpg"; ".jpeg"].

Definition extract_text_from_file (file : file_env) (file_ext : string)
    : outcome string :=
  if String.eqb file_ext ".txt" then as_txt file
  else if String.eqb file_ext ".pdf" then
    match as_pdf file with
    | PdfPages pages =>
        Returned (fold_left (fun text page => text ++ page ++ PyRepr.nl) pages "")
    | PdfFailure msg =>
        Raised (mk_exn (HTTPException 500) ("PDF processing error: " ++ msg))
    end
  else if bool_decide (file_ext ∈ image_exts) then
    match as_image file with
    | OcrText text =>
        Returned (if negb (String.eqb (Str.strip text) "") then text
                  else no_text_found)
    | OcrImportError =>
        Raised (mk_exn (HTTPException 500)
                  "pytesseract/PIL not installed for image processing")
    | OcrFailure error_msg =>
        if Str.contains "Corrupt JPEG" error_msg
           || Str.contains "premature end" error_msg
        then Returned corrupted_image
        else Returned ("Unable to process this image: " ++ error_msg)
    end
  else
    Raised (mk_exn (HTTPException 400) ("Unsupported file type: " ++ file_ext)).

Definition whitespace_only (text : string) : bool :=
  forallb Str.is_space (list_ascii_of_string text).

Definition corruption_signature (error_msg : string) : bool :=
  Str.contains "Corrupt JPEG" error_msg || Str.contains "premature end" error_msg.

End Textract.

(** ** core/processor.py: the scorer *)

Module Scorer.

Definition values (extracted_data : gmap string json) : list json :=
  (map_to_list extracted_data).*2.

(** [sum(1 for v in extracted_data.values() if v)] *)
Definition non_empty_fields (extracted_data : gmap string json) : nat :=
  length (filter (fun v => truthy v = true) (values extracted_data)).

Definition Qnat (n : nat) : Q := inject_Z (Z.of_nat n).

Definition data_completeness (extracted_data : gmap string json) : Q :=
  if bool_decide (extracted_data ≠ ∅)
     && negb (bool_decide ("error" ∈ dom extracted_data))
  then
    let total_fields := size extracted_data in
    if (0 <? total_fields)%nat
    then (Qnat (non_empty_fields extracted_data) / Qnat total_fields)%Q
    else 0.5%Q
  else 0.5%Q.

Definition _calculate_confidence
    (ml_confidence : Q) (extracted_data : gmap string json) : Q :=
  let overall_confidence :=
    ((ml_confidence * 0.4) + (data_completeness extracted_data * 0.6))%Q in
  Qmin 1 (Qmax 0 overall_confidence).

(** [Config.CONFIDENCE_THRESHOLD] is read from the environment; 0.6 is the
    default. *)
Definition default_threshold : Q := 0.6%Q.

Definition _get_confidence_level (threshold score : Q) : ConfidenceLevel :=
  if Qle_bool 0.8%Q score then HIGH
  else if Qle_bool threshold score then MEDIUM
  else LOW.

(** The completeness of the specification's wording. *)
Definition completeness (extracted_data : gmap string json) : Q :=
  if bool_decide (extracted_data = ∅ ∨ "error" ∈ dom extracted_data)
  then (1 # 2)%Q
  else (Qnat (non_empty_fields extracted_data) / Qnat (size extracted_data))%Q.

Definition clamp01 (x : Q) : Q := Qmin 1 (Qmax 0 x).

End Scorer.

(** ** core/processor.py: construction and backend selection *)

Module Backend.

(** What the outside world answers to the three probes. *)
Record env := mk_env {
  (** status code of GET /api/tags, [None] when the request raises *)
  ollama_tags : option nat;
  (** importing transformers and building the pipeline goes through *)
  hf_pipeline_loads : bool;
  LANGCHAIN_AVAILABLE : bool;
  OPENAI_API_KEY : option string;
  (** the [OpenAI] client constructor returns *)
  openai_client_builds : bool;
  CONFIDENCE_THRESHOLD : Q;
}.

Inductive probe := ProbeOllama | ProbeHuggingface | ProbeOpenai.

(** The fields of [self] the constructor writes, and the probes run so
    far, latest last. *)
Record processor := mk_processor {
  extraction_method : string;
  probes : list probe;
  threshold : Q;
}.

(** State passing over the object under construction. *)
Definition M (A : Type) : Type := processor -> A * processor.

Definition ret {A} (a : A) : M A := fun st => (a, st).
Definition bind {A B} (m : M A) (k : A -> M B) : M B :=
  fun st => let '(a, st') := m st in k a st'.
Definition log (p : probe) : M unit :=
  fun st => (tt, mk_processor (extraction_method st) (probes st ++ [p]) (threshold st)).
Definition set_extraction_method (m : string) : M unit :=
  fun st => (tt, mk_processor m (probes st) (threshold st)).

Notation "x <- m ;; k" := (bind m (fun x => k))
  (at level 100, m at next level, right associativity).
Notation "m ;;; k" := (bind m (fun _ => k))
  (at level 100, right associativity).

(** What each probe returns; an exception inside a probe makes it return
    [False]. *)
Definition ollama_answer (e : env) : bool :=
  match ollama_tags e with
  | Some status_code => (status_code =? 200)%nat
  | None => false
  end.

Definition huggingface_answer (e : env) : bool := hf_pipeline_loads e.

Definition openai_answer (e : env) : bool :=
  if LANGCHAIN_AVAILABLE e
     && match OPENAI_API_KEY e with
        | Some key => negb (String.eqb key "")
        | None => false
        end
  then openai_client_builds e
  else false.

Definition _init_ollama (e : env) : M bool :=
  log ProbeOllama ;;; ret (ollama_answer e).

Definition _init_huggingface (e : env) : M bool :=
  log ProbeHuggingface ;;; ret (huggingface_answer e).

Definition _init_openai (e : env) : M bool :=
  log ProbeOpenai ;;; ret (openai_answer e).

Definition no_method_message : string := "❌ No AI extraction method available!".

(** [Processor.__init__], from the assignment of ["none"] on. *)
Definition init_steps (e : env) : M (outcome unit) :=
  set_extraction_method "none" ;;;
  ok1 <- _init_ollama e ;;
  if ok1 then set_extraction_method "ollama" ;;; ret (Returned tt)
  else
    ok2 <- _init_huggingface e ;;
    if ok2 then set_extraction_method "huggingface" ;;; ret (Returned tt)
    else
      ok3 <- _init_openai e ;;
      if ok3 then set_extraction_method "openai" ;;; ret (Returned tt)
      else ret (Raised (mk_exn RuntimeError no_method_message)).

Definition blank (e : env) : processor :=
  mk_processor "" [] (CONFIDENCE_THRESHOLD e).

Definition __init__ (e : env) : outcome processor :=
  let '(r, st) := init_steps e (blank e) in
  match r with
  | Returned _ => Returned st
  | Raised x => Raised x
  end.

(** The first backend that answers, in the order of the probes, with the
    probes run up to it. *)
Definition first_answering (e : env) : option (string * list probe) :=
  if ollama_answer e then Some ("ollama", [ProbeOllama])
  else if huggingface_answer e
  then Some ("huggingface", [ProbeOllama; ProbeHuggingface])
  else if openai_answer e
  then Some ("openai", [ProbeOllama; ProbeHuggingface; ProbeOpenai])
  else None.

End Backend.

(** ** core/processor.py: the response parser *)

Module ResponseParser.

Section WithDecoder.
(** [json.loads]; [None] stands for [json.JSONDecodeError]. *)
Variable loads : string -> option json.

Definition raw_response (response : string) : json :=
  JDict [("raw_response", JStr response)].

Definition _parse_json_response (response : string) : json :=
  let start := Str.find "{" response in
  let end_ := (Str.rfind "}" response + 1)%Z in
  if negb (start =? -1)%Z && negb (end_ =? 0)%Z then
    let json_str := Str.slice start end_ response in
    match loads json_str with
    | Some v => v
    | None => raw_response response
    end
  else raw_response response.
End WithDecoder.

(** Positions of a character, in the words of the specification. *)
Definition first_at (c : ascii) (s : string) (i : nat) : Prop :=
  String.get i s = Some c /\ forall k, (k < i)%nat -> String.get k s <> Some c.

Definition last_at (c : ascii) (s : string) (j : nat) : Prop :=
  String.get j s = Some c /\ forall k, (j < k)%nat -> String.get k s <> Some c.

Definition absent (c : ascii) (s : string) : Prop :=
  forall k, String.get k s <> Some c.

Definition dq : string := String JsonDecoder.dquote EmptyString.

(** The model output of the specification's scenario. *)
Definition scenario_response : string :=
  "Here you go: {" ++ dq ++ "vendor_name" ++ dq ++ ": " ++ dq ++ "Acme" ++ dq
  ++ "} thanks".

End ResponseParser.

(** ** core/processor.py: post-processing of the extracted data *)

Module PostProcess.

Definition item_fields : list string :=
  ["items_purchased"; "line_items"; "items"; "products"].

(** The sibling key that keeps the original value of a field. *)
Definition raw_key (field : string) : string := field ++ "_raw".

(** No list-like field is named like the sibling of one. *)
Definition independent (fields : list string) : Prop :=
  forall f g, f ∈ fields -> g ∈ fields -> f ≠ raw_key g.

Definition bullet (item : string) : string := "• " ++ item.

Definition bulleted (items : list string) : json :=
  JStr (Str.join PyRepr.nl (map bullet items)).

(** [item.get(k1, item.get(k2, d))] *)
Definition get2 (item : list (string * json)) (k1 k2 : string) (d : json) : json :=
  default (default d (dict_get k2 item)) (dict_get k1 item).

Definition pow10 (e : Z) : N := Z.to_N (10 ^ e).

(** [v == 1], as Python compares a JSON value with the integer one. *)
Definition equals_one (v : json) : bool :=
  match v with
  | JInt z => (z =? 1)%Z
  | JBool b => b
  | JFloat (FDecimal false m e) =>
      if (0 <=? e)%Z then (m * pow10 e =? 1)%N else (m =? pow10 (- e))%N
  | _ => false
  end.

Section WithLibraries.
Variable loads : string -> option json.
(** [str()], as an f-string applies it. *)
Variable to_str : json -> string.

Definition readable_item (item : json) : string :=
  match item with
  | JDict d =>
      let desc := get2 d "description" "name" (JStr "Item") in
      let qty := get2 d "quantity" "qty" (JInt 1) in
      let price := get2 d "unit_price" "price" (JStr "") in
      let total := get2 d "total" "amount" (JStr "") in
      to_str desc
      ++ (if truthy qty && negb (equals_one qty)
          then " (Qty: " ++ to_str qty ++ ")" else "")
      ++ (if truthy price then " @ " ++ to_str price else "")
      ++ (if truthy total then " = " ++ to_str total else "")
  | _ => to_str item
  end.

(** The [except] branch: the naive clean-up of a bracketed string. *)
Definition simple_cleanup (field raw_value : string)
    (extracted_data : gmap string json) : gmap string json :=
  if Str.startswith "[" raw_value && Str.endswith "]" raw_value then
    let cleaned :=
      Str.replace (String JsonDecoder.dquote "") ""
        (Str.replace "'" "" (Str.strip_chars "[]" raw_value)) in
    let items :=
      map Str.strip
        (filter (fun item => Str.strip item ≠ "") (Str.split "," cleaned)) in
    if (length items <=? 5)%nat
    then <[field := bulleted (firstn 5 items)]> extracted_data
    else extracted_data
  else extracted_data.

(** One turn of the loop over [item_fields]. *)
Definition process_field (extracted_data : gmap string json) (field : string)
    : gmap string json :=
  match extracted_data !! field with
  | Some (JStr raw_value) =>
      match Regex.search_bracketed raw_value with
      | Some matched =>
          match loads matched with
          | Some (JList (item :: items)) =>
              <[raw_key field := JStr raw_value]>
                (<[field := bulleted (map readable_item (item :: items))]>
                   extracted_data)
          | Some _ => extracted_data
          | None => simple_cleanup field raw_value extracted_data
          end
      | None => extracted_data
      end
  | _ => extracted_data
  end.

Definition _post_process_extracted_data (extracted_data : gmap string json)
    : gmap string json :=
  fold_left process_field item_fields extracted_data.

(** The field holds a string with an embedded JSON array that decodes to a
    list with at least one element. *)
Definition holds_array (extracted_data : gmap string json) (field : string)
    : Prop :=
  exists raw_value matched item items,
    extracted_data !! field = Some (JStr raw_value)
    /\ Regex.search_bracketed raw_value = Some matched
    /\ loads matched = Some (JList (item :: items)).
End WithLibraries.

End PostProcess.

(** ** core/processor.py: the pipeline *)

Module Pipeline.

(** The dictionary [process_document] returns, without the wall-clock
    [processing_time] and the display name of the model. *)
Record raw_result := mk_raw_result {
  document_type : string;
  ml_confidence : Q;
  overall_confidence : Q;
  confidence_level : string;
  needs_human_review : bool;
  extracted_data : gmap string json;
  extraction_method : string;
  raw_text : string;
}.

Definition ConfidenceLevel_eqb (a b : ConfidenceLevel) : bool :=
  match a, b with
  | HIGH, HIGH | MEDIUM, MEDIUM | LOW, LOW => true
  | _, _ => false
  end.

Section WithCollaborators.
(** The trained classifier: a label and the largest class probability. *)
Variable _classify_document : string -> string * Q.
(** The three adapters, each from the text and the document type. *)
Variable _extract_with_ollama : string -> string -> gmap string json.
Variable _extract_with_huggingface : string -> string -> gmap string json.
Variable _extract_with_gpt4 : string -> string -> gmap string json.
Variable loads : string -> option json.
Variable to_str : json -> string.

Definition process_document (self : Backend.processor) (text : string)
    : raw_result :=
  let '(doc_type, ml_confidence) := _classify_document text in
  let extracted_data :=
    if String.eqb (Backend.extraction_method self) "ollama"
    then _extract_with_ollama text doc_type
    else if String.eqb (Backend.extraction_method self) "huggingface"
    then _extract_with_huggingface text doc_type
    else if String.eqb (Backend.extraction_method self) "openai"
    then _extract_with_gpt4 text doc_type
    else {[ "error" := JStr "No extraction method available" ]} in
  let extracted_data :=
    PostProcess._post_process_extracted_data loads to_str extracted_data in
  let overall_confidence :=
    Scorer._calculate_confidence ml_confidence extracted_data in
  let confidence_level :=
    Scorer._get_confidence_level (Backend.threshold self) overall_confidence in
  let needs_review := ConfidenceLevel_eqb confidence_level LOW in
  {| document_type := doc_type;
     ml_confidence := ml_confidence;
     overall_confidence := overall_confidence;
     confidence_level := ConfidenceLevel_value confidence_level;
     needs_human_review := needs_review;
     extracted_data := extracted_data;
     extraction_method := Backend.extraction_method self;
     raw_text := text |}.
End WithCollaborators.

End Pipeline.

(** ** services/file_service.py *)

Module FileService.

Definition ALLOWED_TYPES : list string := [".txt"; ".pdf"; ".png"; ".jpg"; ".jpeg"].
Definition MAX_FILE_SIZE : N := 10 * 1024 * 1024.

(** [Path(filename).suffix]: the name is what follows the last slash; its
    suffix starts at its last dot, unless that dot opens or ends the
    name. *)
Definition suffix (filename : string) : string :=
  let name :=
    match Str.rfind_from "/" filename 0 with
    | Some i => Str.drop (S i) filename
    | None => filename
    end in
  match Str.rfind_from "." name 0 with
  | Some i =>
      if ((0 <? i) && (i <? String.length name - 1))%nat
      then Str.drop i name else ""
  | None => ""
  end.

(** The format [.1f] of a size in bytes counted in MB: the quotient by
    2^20 is exact in binary64, so the rounding to tenths is the exact
    round-half-even. *)
Definition megabytes_1f (file_size : N) : string :=
  let t := (file_size * 10)%N in
  let q := (t / 1048576)%N in
  let r := (t mod 1048576)%N in
  let tenths :=
    if (1048576 <? r * 2)%N || ((r * 2 =? 1048576)%N && N.odd q)
    then (q + 1)%N else q in
  pretty (tenths / 10)%N ++ "." ++ pretty (tenths mod 10)%N.

Definition effective_ext (filename : string) : string :=
  let file_ext := Str.lower (suffix filename) in
  if Str.startswith "captured_image" filename && String.eqb file_ext ""
  then ".jpg" else file_ext.

Definition validate_file (filename : string) (file_size : N) : outcome unit :=
  if String.eqb filename "" then Raised (mk_exn ValueError "No file selected")
  else
    let file_ext := effective_ext filename in
    if negb (bool_decide (file_ext ∈ ALLOWED_TYPES)) then
      Raised (mk_exn ValueError
                ("File type " ++ file_ext ++ " not supported. Use: "
                 ++ Str.join ", " ALLOWED_TYPES))
    else if (MAX_FILE_SIZE <? file_size)%N then
      Raised (mk_exn ValueError
                ("File size " ++ megabytes_1f file_size
                 ++ "MB exceeds limit of 10.0MB"))
    else Returned tt.

Record FileInfo := mk_FileInfo {
  filename_of : string;
  size_bytes : N;
  file_type_of : string;
  is_camera_capture : bool;
}.

Definition analyze_file (file_content filename : string) : outcome FileInfo :=
  let file_size := N.of_nat (String.length file_content) in
  obind (validate_file filename file_size) (fun _ =>
    Returned (mk_FileInfo filename file_size (effective_ext filename)
                (Str.startswith "captured_image" filename))).

End FileService.

(** ** models/document.py: [ProcessingResult] and its validation

    Building a pydantic model validates every field: a string given for an
    enumeration has to be the value of one of its members, and a confidence
    has to lie in the unit interval. *)

Module Models.

Definition DocumentType_of (s : string) : option DocumentType :=
  if String.eqb s "invoice" then Some INVOICE
  else if String.eqb s "contract" then Some CONTRACT
  else if String.eqb s "form" then Some FORM
  else if String.eqb s "receipt" then Some RECEIPT
  else if String.eqb s "unknown" then Some UNKNOWN
  else None.

Definition ConfidenceLevel_of (s : string) : option ConfidenceLevel :=
  if String.eqb s "high" then Some HIGH
  else if String.eqb s "medium" then Some MEDIUM
  else if String.eqb s "low" then Some LOW
  else None.

Definition ExtractionMethod_of (s : string) : option ExtractionMethod :=
  if String.eqb s "ollama" then Some OLLAMA
  else if String.eqb s "huggingface" then Some HUGGINGFACE
  else if String.eqb s "openai" then Some OPENAI
  else None.

Record ProcessingResult := mk_ProcessingResult {
  document_type : DocumentType;
  ml_confidence : Q;
  overall_confidence : Q;
  confidence_level : ConfidenceLevel;
  extraction_method : ExtractionMethod;
  model_display_name : string;
  processing_time : string;
  needs_human_review : bool;
  extracted_data : gmap string json;
  uploaded_file : option string;
  file_size : option N;
  file_type : option string;
  raw_text : option string;
}.

Definition in_unit_interval (x : Q) : bool := Qle_bool 0 x && Qle_bool x 1.

Definition validation_error (field : string) : exn :=
  mk_exn ValidationError ("1 validation error for ProcessingResult: " ++ field).

(** [ProcessingResult(...)], with the enumerations given by value. *)
Definition new_ProcessingResult
    (document_type : DocumentType) (ml_confidence overall_confidence : Q)
    (confidence_level extraction_method model_display_name : string)
    (processing_time : string) (needs_human_review : bool)
    (extracted_data : gmap string json)
    (uploaded_file : option string) (file_size : option N)
    (file_type raw_text : option string) : outcome ProcessingResult :=
  if negb (in_unit_interval ml_confidence)
  then Raised (validation_error "ml_confidence")
  else if negb (in_unit_interval overall_confidence)
  then Raised (validation_error "overall_confidence")
  else
    match ConfidenceLevel_of confidence_level with
    | None => Raised (validation_error "confidence_level")
    | Some level =>
        match ExtractionMethod_of extraction_method with
        | None => Raised (validation_error "extraction_method")
        | Some method =>
            Returned
              (mk_ProcessingResult document_type ml_confidence
                 overall_confidence level method model_display_name
                 processing_time needs_human_review extracted_data
                 uploaded_file file_size file_type raw_text)
        end
    end.

Record BatchProcessingResult := mk_BatchProcessingResult {
  total_documents : nat;
  successful : nat;
  failed : nat;
  results : list ProcessingResult;
}.

End Models.

(** ** services/document_service.py *)

Module DocumentService.

Import Models.

Definition has_error (r : ProcessingResult) : bool :=
  bool_decide ("error" ∈ dom (extracted_data r)).

Section WithCollaborators.
(** Writing the upload to a temporary file. *)
Variable save_temp_file : string -> string -> outcome unit.
(** Text extraction from the saved file, by content and file type. *)
Variable extract_text : string -> string -> outcome string.
(** The processor's pipeline, with the label of the model in use. *)
Variable process_document : string -> Pipeline.raw_result.
Variable model_display_name : string.
Variable processing_time : string.
(** What the model class answers to the assignment of [batch_index], an
    attribute [ProcessingResult] does not declare. *)
Variable assign_batch_index : outcome unit.

Definition _convert_to_processing_result
    (raw_result : Pipeline.raw_result) (file_info : FileService.FileInfo)
    : outcome ProcessingResult :=
  match DocumentType_of (Pipeline.document_type raw_result) with
  | None =>
      Raised (mk_exn ValueError
                (Pipeline.document_type raw_result
                 ++ " is not a valid DocumentType"))
  | Some doc_type =>
      new_ProcessingResult doc_type
        (Pipeline.ml_confidence raw_result)
        (Pipeline.overall_confidence raw_result)
        (Pipeline.confidence_level raw_result)
        (Pipeline.extraction_method raw_result)
        model_display_name processing_time
        (Pipeline.needs_human_review raw_result)
        (Pipeline.extracted_data raw_result)
        (Some (FileService.filename_of file_info))
        (Some (FileService.size_bytes file_info))
        (Some (FileService.file_type_of file_info))
        (Some (Pipeline.raw_text raw_result))
  end.

Definition process_single_document (file_content filename : string)
    : outcome ProcessingResult :=
  obind (FileService.analyze_file file_content filename) (fun file_info =>
  obind (save_temp_file file_content filename) (fun _ =>
  obind (extract_text file_content (FileService.file_type_of file_info))
    (fun text =>
       _convert_to_processing_result (process_document text) file_info))).

(** The result the [except] branch builds. *)
Definition error_result (e : exn) (filename : string) : outcome ProcessingResult :=
  new_ProcessingResult UNKNOWN 0 0 "low" "none" "Error" "0s" true
    {[ "error" := JStr (exn_message e) ]}
    (Some filename) None None None.

Fixpoint batch_loop (i : nat) (files_data : list (string * string))
    (results : list ProcessingResult) : outcome (list ProcessingResult) :=
  match files_data with
  | [] => Returned results
  | (file_content, filename) :: rest =>
      let attempt :=
        obind (process_single_document file_content filename) (fun result =>
        obind assign_batch_index (fun _ => Returned result)) in
      match attempt with
      | Returned result => batch_loop (S i) rest (results ++ [result])
      | Raised e =>
          obind (error_result e filename) (fun failed_result =>
          obind assign_batch_index (fun _ =>
          batch_loop (S i) rest (results ++ [failed_result])))
      end
  end.

Definition process_batch_documents (files_data : list (string * string))
    : outcome BatchProcessingResult :=
  obind (batch_loop 0 files_data []) (fun results =>
    Returned
      {| total_documents := length files_data;
         successful := length (filter (fun r => has_error r = false) results);
         failed := length (filter (fun r => has_error r = true) results);
         results := results |}).
End WithCollaborators.

End DocumentService.


(** ** Sample collaborators

    Answers of the outside world used where a property is shown at work on a
    concrete input. *)

Module Sample.

Definition classifier (text : string) : string * Q := ("invoice", 0.9%Q).

Definition adapter (text doc_type : string) : gmap string json :=
  {[ "vendor_name" := JStr "Acme"; "total" := JInt 12 ]}.

Definition processor : Backend.processor :=
  Backend.mk_processor "ollama" [Backend.ProbeOllama] Scorer.default_threshold.

Definition process_document (text : string) : Pipeline.raw_result :=
  Pipeline.process_document classifier adapter adapter adapter
    JsonDecoder.json_loads PyRepr.py_str processor text.

Definition save_temp_file (file_content filename : string) : outcome unit :=
  Returned tt.

(** Every upload is read as plain text. *)
Definition extract_text (file_content file_type : string) : outcome string :=
  Returned file_content.

Definition long_text : string := PyRepr.zeros 320.

(** Extracted data whose item list already comes with a key named like the
    sibling the post-processing writes. *)
Definition data_with_raw_key : gmap string json :=
  {[ "items" := JStr "[1]"; "items_raw" := JInt 5; "vendor_name" := JStr "Acme" ]}.

(** An image file on a machine without the OCR libraries. *)
Definition image_without_ocr : Textract.file_env :=
  Textract.mk_file_env (Raised (mk_exn OtherError "not text"))
    (Textract.PdfFailure "not a PDF") Textract.OcrImportError.

Definition blank_scan : Textract.file_env :=
  Textract.mk_file_env (Raised (mk_exn OtherError "not text"))
    (Textract.PdfFailure "not a PDF") (Textract.OcrText "   ").

Definition truncated_photo : Textract.file_env :=
  Textract.mk_file_env (Raised (mk_exn OtherError "not text"))
    (Textract.PdfFailure "not a PDF")
    (Textract.OcrFailure "image file is truncated: premature end of data").

(** The batch of the specification's scenario: the second name has an
    extension that is not supported. *)
Definition files_data : list (string * string) :=
  [("Invoice INV-001 Total $1500", "invoice.txt");
   ("meeting notes", "notes.docx");
   ("Receipt Total $15.67", "receipt.txt")].

End Sample.

(** ** src/snap_ai/utils.py: the earlier text extractor

    The same three branches without the handlers of the later version: the
    PDF block and the image block catch ImportError only.  pypdf is imported
    when the module loads, so a failure of the PDF reader is no ImportError
    and leaves the function as it is. *)

Module TextractLegacy.

Import Textract.

Definition extract_text_from_file (file : file_env) (file_ext : string)
    : outcome string :=
  if String.eqb file_ext ".txt" then as_txt file
  else if String.eqb file_ext ".pdf" then
    match as_pdf file with
    | PdfPages pages =>
        Returned (fold_left (fun text page => text ++ page ++ PyRepr.nl) pages "")
    | PdfFailure msg => Raised (mk_exn OtherError msg)
    end
  else if bool_decide (file_ext ∈ image_exts) then
    match as_image file with
    | OcrText text => Returned text
    | OcrImportError =>
        Raised (mk_exn (HTTPException 500)
                  "pytesseract/PIL not installed for image processing")
    | OcrFailure error_msg => Raised (mk_exn OtherError error_msg)
    end
  else
    Raised (mk_exn (HTTPException 400) ("Unsupported file type: " ++ file_ext)).

End TextractLegacy.

(** ** models/document.py: [ProcessingMetadata] and [PipelineData];
    services/document_service.py: [format_for_pipeline] *)

Module PipelineModels.

Record ProcessingMetadata := mk_ProcessingMetadata {
  document_id : string;
  processed_at : string;
  processor_version : string;
  extraction_method : ExtractionMethod;
  processing_time : string;
}.

(** [ProcessingMetadata(...)]: an argument that is not passed is [None]
    here.  [processor_version] has a default; [processing_time] has none, so
    the model class requires it. *)
Definition new_ProcessingMetadata (document_id processed_at : string)
    (processor_version : option string) (extraction_method : ExtractionMethod)
    (processing_time : option string) : outcome ProcessingMetadata :=
  match processing_time with
  | None =>
      Raised (mk_exn ValidationError
                "1 validation error for ProcessingMetadata: processing_time")
  | Some t =>
      Returned (mk_ProcessingMetadata document_id processed_at
                  (default "1.0.0" processor_version) extraction_method t)
  end.

Record PipelineData := mk_PipelineData {
  pd_document_id : string;
  pd_document_type : DocumentType;
  confidence_score : Q;
  pd_needs_human_review : bool;
  pd_extraction_method : ExtractionMethod;
  pd_processing_time : string;
  extracted_fields : gmap string json;
  metadata : ProcessingMetadata;
}.

(** [format_for_pipeline]; the two fresh identifiers and the formatted time
    are given. *)
Definition format_for_pipeline (uuid1 uuid2 now : string)
    (result : Models.ProcessingResult) : outcome PipelineData :=
  obind (new_ProcessingMetadata uuid2 now (Some "1.0.0")
           (Models.extraction_method result) None)
    (fun md =>
       Returned
         (mk_PipelineData uuid1 (Models.document_type result)
            (Models.overall_confidence result)
            (Models.needs_human_review result)
            (Models.extraction_method result)
            (Models.processing_time result)
            (Models.extracted_data result) md)).

End PipelineModels.

(** ** backend/src/core/storage.py and service_manager.py *)

Module ServiceManager.

Record StorageClient := mk_StorageClient { bucket_name : string }.

(** [StorageClient()] *)
Definition new_StorageClient : StorageClient := mk_StorageClient "snap-ai-documents".

Definition upload_file (self : StorageClient) (storage_path : string) : string :=
  "gs://" ++ bucket_name self ++ "/" ++ storage_path.

Definition get_signed_url (self : StorageClient) (storage_path : string) : string :=
  "https://storage.googleapis.com/" ++ bucket_name self ++ "/" ++ storage_path
  ++ "?signed=true".

Section WithProcessor.
(** The class [Processor] the module imports from the package's processor
    module, and what constructing an instance does. *)
Variable Processor : Type.
Variable new_Processor : outcome Processor.

(** The two module-level instances. *)
Record services := mk_services {
  _processor : option Processor;
  _storage_client : option StorageClient;
}.

Definition not_started : services := mk_services None None.

(** [initialize_services]: what it raises or not, and the instances after
    it.  The processor is built first; the handler re-raises what the
    construction raised. *)
Definition initialize_services (st : services) : outcome unit * services :=
  match new_Processor with
  | Returned p => (Returned tt, mk_services (Some p) (Some new_StorageClient))
  | Raised x => (Raised x, st)
  end.

Definition cleanup_services (st : services) : services := mk_services None None.

Definition get_processor (st : services) : outcome Processor :=
  match _processor st with
  | None => Raised (mk_exn (HTTPException 503) "Processor not initialized")
  | Some p => Returned p
  end.

Definition get_storage_client (st : services) : outcome StorageClient :=
  match _storage_client st with
  | None => Raised (mk_exn (HTTPException 503) "Storage client not initialized")
  | Some c => Returned c
  end.

Definition is_healthy (st : services) : bool :=
  match _processor st, _storage_client st with
  | Some _, Some _ => true
  | _, _ => false
  end.
End WithProcessor.

Arguments mk_services {Processor} _ _.
Arguments _processor {Processor} _.
Arguments _storage_client {Processor} _.
Arguments not_started {Processor}.
Arguments initialize_services {Processor} _ _.
Arguments cleanup_services {Processor} _.
Arguments get_processor {Processor} _.
Arguments get_storage_client {Processor} _.
Arguments is_healthy {Processor} _.

End ServiceManager.

(** ** backend/src/services/document_service.py: the batch operations *)

Module BackendDocumentService.

Import Models.

(** An element of the list [batch_document_workflow] builds: the dictionary
    of a stored document, or the dictionary of a failure. *)
Inductive workflow_entry :=
  | StoredEntry (document_id : string) (processing_result : ProcessingResult)
      (storage_location access_url : string) (batch_index : nat)
  | ErrorEntry (batch_index : nat) (filename error : string).

(** ["error" in r] *)
Definition has_error_key (r : workflow_entry) : bool :=
  match r with
  | StoredEntry _ _ _ _ _ => false
  | ErrorEntry _ _ _ => true
  end.

Definition entry_index (r : workflow_entry) : nat :=
  match r with
  | StoredEntry _ _ _ _ i => i
  | ErrorEntry i _ _ => i
  end.

Record batch_summary := mk_batch_summary {
  bs_total_documents : nat;
  bs_successful : nat;
  bs_failed : nat;
  bs_results : list workflow_entry;
}.

Section WithCollaborators.
(** [quick_scan]: validation, text extraction, the pipeline and the
    conversion to a [ProcessingResult]. *)
Variable quick_scan : string -> string -> outcome ProcessingResult.
Variable storage : ServiceManager.StorageClient.
(** The fresh identifier of the n-th document. *)
Variable new_document_id : nat -> string.
(** Whether the result object has an attribute [batch_index], and what
    assigning it does. *)
Variable has_batch_index : bool.
Variable assign_batch_index : outcome unit.

(** [document_workflow], once the document went through the steps of
    [quick_scan]; the mock storage never fails. *)
Definition document_workflow (n : nat) (file_content filename : string)
    : outcome (string * ProcessingResult * string * string) :=
  let document_id := new_document_id n in
  obind (quick_scan file_content filename) (fun processing_result =>
    let storage_path := "documents/" ++ document_id ++ "/" ++ filename in
    Returned (document_id, processing_result,
              ServiceManager.upload_file storage storage_path,
              ServiceManager.get_signed_url storage storage_path)).

Definition tag_batch_index : outcome unit :=
  if has_batch_index then assign_batch_index else Returned tt.

Fixpoint quick_scan_loop (i : nat) (files_data : list (string * string))
    (results : list ProcessingResult) : outcome (list ProcessingResult) :=
  match files_data with
  | [] => Returned results
  | (file_content, filename) :: rest =>
      let attempt :=
        obind (quick_scan file_content filename) (fun result =>
        obind tag_batch_index (fun _ => Returned result)) in
      match attempt with
      | Returned result => quick_scan_loop (S i) rest (results ++ [result])
      | Raised e =>
          obind (new_ProcessingResult UNKNOWN 0 0 "low" "none" "Error" "0s" true
                   {[ "error" := JStr (exn_message e) ]}
                   (Some filename) None None None)
            (fun error_result =>
               obind tag_batch_index (fun _ =>
               quick_scan_loop (S i) rest (results ++ [error_result])))
      end
  end.

Definition batch_quick_scan (files_data : list (string * string))
    : outcome BatchProcessingResult :=
  obind (quick_scan_loop 0 files_data []) (fun results =>
    Returned
      {| total_documents := length files_data;
         successful :=
           length (filter (fun r => DocumentService.has_error r = false) results);
         failed :=
           length (filter (fun r => DocumentService.has_error r = true) results);
         results := results |}).

Fixpoint workflow_loop (i : nat) (files_data : list (string * string))
    (results : list workflow_entry) : list workflow_entry :=
  match files_data with
  | [] => results
  | (file_content, filename) :: rest =>
      let entry :=
        match document_workflow i file_content filename with
        | Returned (document_id, processing_result, location, url) =>
            StoredEntry document_id processing_result location url i
        | Raised e => ErrorEntry i filename (exn_message e)
        end in
      workflow_loop (S i) rest (results ++ [entry])
  end.

Definition batch_document_workflow (files_data : list (string * string))
    : batch_summary :=
  let results := workflow_loop 0 files_data [] in
  {| bs_total_documents := length files_data;
     bs_successful := length (filter (fun r => has_error_key r = false) results);
     bs_failed := length (filter (fun r => has_error_key r = true) results);
     bs_results := results |}.
End WithCollaborators.

End BackendDocumentService.

(** ** backend/src/services/workflow_service.py: workflow tracking *)

Module WorkflowService.

Inductive WorkflowStatus := PENDING | PROCESSING | COMPLETED | FAILED.

Definition WorkflowStatus_value (s : WorkflowStatus) : string :=
  match s with
  | PENDING => "pending" | PROCESSING => "processing"
  | COMPLETED => "completed" | FAILED => "failed"
  end.

(** The response of [process_and_forward]: the payload of the chosen
    workflow and the flag that tells whether the webhook took it. *)
Record response (P : Type) := mk_response {
  workflow_id_of : string;
  payload : P;
  forwarded : bool;
}.
Arguments mk_response {P} _ _ _.
Arguments workflow_id_of {P} _.
Arguments payload {P} _.
Arguments forwarded {P} _.

(** [_forward_to_webhook]: the status of the POST, [None] when it raises. *)
Definition _forward_to_webhook (post_status : option nat) : bool :=
  match post_status with
  | Some status => (status =? 200)%nat
  | None => false
  end.

Section WithPayload.
Variable P : Type.

(** [process_and_forward], for a fresh [workflow_id], over the table
    [active_workflows]; [processing] is what the chosen document operation
    does. *)
Definition process_and_forward (workflow_id : string) (processing : outcome P)
    (webhook_url : option string) (post_status : option nat)
    (active_workflows : gmap string WorkflowStatus)
    : outcome (response P) * gmap string WorkflowStatus :=
  let active := <[workflow_id := PROCESSING]> active_workflows in
  match processing with
  | Returned data =>
      let forwarded :=
        match webhook_url with
        | Some url =>
            if negb (String.eqb url "") then _forward_to_webhook post_status
            else false
        | None => false
        end in
      (Returned (mk_response workflow_id data forwarded),
       <[workflow_id := COMPLETED]> active)
  | Raised e => (Raised e, <[workflow_id := FAILED]> active)
  end.
End WithPayload.

(** [get_workflow_status]: the status dictionary, or [None]. *)
Definition get_workflow_status (active_workflows : gmap string WorkflowStatus)
    (workflow_id : string) : option (string * string * string) :=
  match active_workflows !! workflow_id with
  | Some status =>
      Some (workflow_id, WorkflowStatus_value status, "2025-01-01T00:00:00Z")
  | None => None
  end.

End WorkflowService.

(** ** backend/src/core/prompt_loader.py: what the catalog offers *)

Module PromptCatalog.

Import PromptLoader.

(** [get_available_document_types]; the order of the keys is not kept. *)
Definition get_available_document_types (prompts : catalog) : gset string :=
  dom (default (∅ : gmap string (gmap string string)) (document_types prompts)).

(** [get_available_methods]: a Python set. *)
Definition get_available_methods (prompts : catalog) : gset string :=
  ⋃ (dom <$> (map_to_list
                (default (∅ : gmap string (gmap string string))
                   (document_types prompts))).*2)
  ∪ dom (default (∅ : gmap string string) (default_prompts prompts)).

(** What reading the prompts file does. *)
Inductive load_attempt :=
  | Loaded (prompts : catalog)
  | FileNotFound
  | YamlError
  | LoadFailure (e : exn).

Definition _load_prompts (attempt : load_attempt) : outcome catalog :=
  match attempt with
  | Loaded prompts => Returned prompts
  | FileNotFound | YamlError => Returned _get_default_prompts
  | LoadFailure e => Raised e
  end.

End PromptCatalog.

(** ** core/processor.py: the display name of the model *)

Module DisplayName.

(** [s.split('/')[-1]] *)
Definition last_segment (s : string) : string :=
  match Str.rfind_from "/" s 0 with
  | Some i => Str.drop (S i) s
  | None => s
  end.

Definition ollama_names : list (string * string) :=
  [("llama2", "Llama 2"); ("mistral", "Mistral");
   ("codellama", "Code Llama"); ("llama3", "Llama 3")].

Definition hf_names : list (string * string) :=
  [("DialoGPT-small", "DialoGPT Small"); ("DialoGPT-medium", "DialoGPT Medium");
   ("distilbert-base-uncased", "DistilBERT")].

Definition openai_names : list (string * string) :=
  [("gpt-4", "GPT-4"); ("gpt-3.5-turbo", "GPT-3.5 Turbo");
   ("gpt-4-turbo", "GPT-4 Turbo")].

(** [mapping.get(key, fallback)] *)
Definition get_or (mapping : list (string * string)) (key fallback : string)
    : string :=
  default fallback (Format.lookup_kw key mapping).

Section WithTitle.
(** [str.title] *)
Variable title : string -> string.

(** [_get_model_display_name], and its public copy. *)
Definition _get_model_display_name (extraction_method : string)
    (ollama_model HF_MODEL MODEL_NAME : string) : string :=
  if String.eqb extraction_method "ollama"
  then get_or ollama_names ollama_model (title ollama_model)
  else if String.eqb extraction_method "huggingface"
  then let model_name := last_segment HF_MODEL in
       get_or hf_names model_name model_name
  else if String.eqb extraction_method "openai"
  then get_or openai_names MODEL_NAME MODEL_NAME
  else "Unknown Model".
End WithTitle.

End DisplayName.

(** ** routes/api.py: the two processing endpoints *)

Module ApiRoutes.

Import Models.

(** The handler of both endpoints: [except Exception as e] answers with an
    HTTP error 500 whose detail is [str(e)]. *)
Definition as_http_500 {A} (m : outcome A) : outcome A :=
  match m with
  | Returned a => Returned a
  | Raised e => Raised (mk_exn (HTTPException 500) (exn_message e))
  end.

Section WithService.
(** The collaborators of the document service. *)
Variable save_temp_file : string -> string -> outcome unit.
Variable extract_text : string -> string -> outcome string.
Variable pipeline : string -> Pipeline.raw_result.
Variable model_display_name : string.
Variable processing_time : string.
Variable assign_batch_index : outcome unit.

(** [POST /api/process], once the upload has been read. *)
Definition process_document (file_content filename : string)
    : outcome ProcessingResult :=
  as_http_500
    (DocumentService.process_single_document save_temp_file extract_text
       pipeline model_display_name processing_time file_content filename).

(** [POST /api/batch-process], once the uploads have been read. *)
Definition batch_process (files_data : list (string * string))
    : outcome BatchProcessingResult :=
  as_http_500
    (DocumentService.process_batch_documents save_temp_file extract_text
       pipeline model_display_name processing_time assign_batch_index
       files_data).
End WithService.

End ApiRoutes.

(** ** backend/src/middlewares/auth_middlewares.py *)

Module AuthMiddleware.

Definition skip_paths : list string :=
  ["/ping"; "/info"; "/docs"; "/redoc"; "/openapi.json"; "/static"; "/"].

(** [any(request.url.path.startswith(path) for path in skip_paths)] *)
Definition skips_auth (path : string) : bool :=
  existsb (fun p => Str.startswith p path) skip_paths.

Section WithNext.
Variable R : Type.
(** What the rest of the application answers to the request. *)
Variable call_next : outcome R.

(** [auth_middleware]: the names of the headers it reads and its answer.
    The branch for a request without credentials is [pass]. *)
Definition auth_middleware (path : string) : list string * outcome R :=
  if skips_auth path then ([], call_next)
  else if Str.startswith "/api" path
       then (["X-API-Key"; "Authorization"], call_next)
       else ([], call_next).
End WithNext.

Arguments auth_middleware {R} _ _.

End AuthMiddleware.

(** ** Further sample data *)

Module Fixtures.

(** A file every reader is happy with. *)
Definition readable_file : Textract.file_env :=
  Textract.mk_file_env (Returned "text") (Textract.PdfPages [])
    (Textract.OcrText "text").

(** What an adapter returns when its call raises. *)
Definition failing_adapter (text doc_type : string) : gmap string json :=
  {[ "error" := JStr "Read timed out"; "raw_response" := JStr "" ]}.

(** One backend answers: the local model. *)
Definition only_huggingface : Backend.env :=
  Backend.mk_env None true false None false Scorer.default_threshold.

(** A batch of two plain-text uploads. *)
Definition two_texts : list (string * string) :=
  [("Invoice INV-001 Total $1500", "invoice.txt");
   ("Receipt Total $15.67", "receipt.txt")].

Definition txt_info : FileService.FileInfo :=
  FileService.mk_FileInfo "invoice.txt" 27 ".txt" false.

End Fixtures.

(** * Properties *)

(** Closes a decidable goal about concrete data by evaluation. *)
Ltac by_decision := apply (bool_decide_unpack _); vm_compute; exact I.

(** ** The scorer *)

Section ScorerFacts.
Import Scorer.

Lemma size_pos_of_nonempty (d : gmap string json) : d ≠ ∅ -> (0 < size d)%nat.
Proof.
  intros Hne. destruct (size d) eqn:Hs; [|lia].
  apply map_size_empty_iff in Hs. contradiction.
Qed.

(** The completeness the code computes is the one the specification
    words: the inner test on [total_fields] never fails. *)
Lemma data_completeness_is_completeness (d : gmap string json) :
  (data_completeness d == completeness d)%Q.
Proof.
  unfold data_completeness, completeness.
  destruct (decide (d = ∅)) as [He|Hne].
  - rewrite (bool_decide_eq_false_2 (d ≠ ∅)) by (intros H; exact (H He)).
    rewrite (bool_decide_eq_true_2 (d = ∅ ∨ "error" ∈ dom d)) by (left; exact He).
    reflexivity.
  - rewrite (bool_decide_eq_true_2 (d ≠ ∅)) by exact Hne.
    destruct (decide ("error" ∈ dom d)) as [Hin|Hnin].
    + rewrite (bool_decide_eq_true_2 ("error" ∈ dom d)) by exact Hin.
      rewrite (bool_decide_eq_true_2 (d = ∅ ∨ "error" ∈ dom d)) by (right; exact Hin).
      reflexivity.
    + rewrite (bool_decide_eq_false_2 ("error" ∈ dom d)) by exact Hnin.
      rewrite (bool_decide_eq_false_2 (d = ∅ ∨ "error" ∈ dom d))
        by (intros [?|?]; contradiction).
      simpl. pose proof (size_pos_of_nonempty d Hne) as Hpos.
      apply Nat.ltb_lt in Hpos. rewrite Hpos. reflexivity.
Qed.

Lemma clamp01_compat (x y : Q) : (x == y)%Q -> (clamp01 x == clamp01 y)%Q.
Proof.
  intros H. unfold clamp01.
  apply Q.min_compat; [reflexivity|]. apply Q.max_compat; [reflexivity|exact H].
Qed.

Lemma clamp01_bounds (x : Q) : (0 <= clamp01 x)%Q /\ (clamp01 x <= 1)%Q.
Proof.
  unfold clamp01. split.
  - apply Q.min_glb; [discriminate|]. apply Q.le_max_l.
  - apply Q.le_min_l.
Qed.
End ScorerFacts.

(** C1.  The overall confidence is [0.4 * ml_confidence + 0.6 * completeness]
    clamped to the unit interval, where completeness is one half for an empty
    mapping or one that holds the key "error", and otherwise the number of
    non-empty values (those Python takes as true) over the number of keys.
    For the empty mapping this is [0.4 * ml_confidence + 0.3], clamped. *)
Theorem calculate_confidence_formula :
  (forall (ml_confidence : Q) (extracted_data : gmap string json),
     (Scorer._calculate_confidence ml_confidence extracted_data
      == Scorer.clamp01 (0.4 * ml_confidence
                         + 0.6 * Scorer.completeness extracted_data))%Q)
  /\ (forall (extracted_data : gmap string json),
        (Scorer.completeness extracted_data
         == if bool_decide (extracted_data = ∅ ∨ "error" ∈ dom extracted_data)
            then 0.5
            else Scorer.Qnat (Scorer.non_empty_fields extracted_data)
                 / Scorer.Qnat (size extracted_data))%Q)
  /\ (forall (ml_confidence : Q),
        (Scorer._calculate_confidence ml_confidence ∅
         == Scorer.clamp01 (0.4 * ml_confidence + 0.3))%Q)
  /\ (forall (x : Q),
        (0 <= Scorer.clamp01 x)%Q /\ (Scorer.clamp01 x <= 1)%Q
        /\ ((0 <= x)%Q -> (x <= 1)%Q -> (Scorer.clamp01 x == x)%Q)).
Proof.
  split; [|split; [|split]]; cycle 3.
  { intros x. split; [apply clamp01_bounds|]. split; [apply clamp01_bounds|].
    intros H0 H1. unfold Scorer.clamp01.
    rewrite (Q.max_r 0 x H0). apply Q.min_r. exact H1. }
  - intros ml d. unfold Scorer._calculate_confidence.
    apply clamp01_compat.
    rewrite (data_completeness_is_completeness d). ring.
  - intros d. unfold Scorer.completeness.
    destruct (bool_decide _); reflexivity.
  - intros ml. unfold Scorer._calculate_confidence.
    apply clamp01_compat.
    rewrite (data_completeness_is_completeness ∅).
    unfold Scorer.completeness.
    rewrite bool_decide_eq_true_2 by (left; reflexivity). ring.
Qed.

(** A classifier confidence of 0.9 over two fields, one of them empty: the
    score 0.66 lies in the unit interval and is not clipped. *)
Lemma calculate_confidence_formula_witness :
  (0 <= 0.66)%Q /\ (0.66 <= 1)%Q /\ (Scorer.clamp01 0.66 == 0.66)%Q
  /\ (Scorer._calculate_confidence 0.9
        {[ "vendor_name" := JStr "Acme"; "total" := JStr "" ]} == 0.66)%Q.
Proof.
  assert (H0 : (0 <= 0.66)%Q) by (unfold Qle; simpl; lia).
  assert (H1 : (0.66 <= 1)%Q) by (unfold Qle; simpl; lia).
  split; [exact H0|]. split; [exact H1|]. split.
  - exact (proj2 (proj2 (proj2 (proj2 (proj2 calculate_confidence_formula))
                          0.66%Q)) H0 H1).
  - vm_compute. reflexivity.
Defined.

Section LevelFacts.
Import Scorer.

Lemma level_high (threshold s : Q) :
  (0.8 <= s)%Q -> _get_confidence_level threshold s = HIGH.
Proof.
  intros H. unfold _get_confidence_level.
  apply Qle_bool_iff in H. rewrite H. reflexivity.
Qed.

Lemma level_medium (threshold s : Q) :
  (s < 0.8)%Q -> (threshold <= s)%Q -> _get_confidence_level threshold s = MEDIUM.
Proof.
  intros Hlt Hge. unfold _get_confidence_level.
  destruct (Qle_bool 0.8 s) eqn:E.
  - apply Qle_bool_iff in E. exfalso. exact (Qlt_not_le _ _ Hlt E).
  - apply Qle_bool_iff in Hge. rewrite Hge. reflexivity.
Qed.

Lemma level_low (threshold s : Q) :
  (s < 0.8)%Q -> (s < threshold)%Q -> _get_confidence_level threshold s = LOW.
Proof.
  intros Hlt Hlt'. unfold _get_confidence_level.
  destruct (Qle_bool 0.8 s) eqn:E.
  - apply Qle_bool_iff in E. exfalso. exact (Qlt_not_le _ _ Hlt E).
  - destruct (Qle_bool threshold s) eqn:E'; [|reflexivity].
    apply Qle_bool_iff in E'. exfalso. exact (Qlt_not_le _ _ Hlt' E').
Qed.

Lemma level_value_low (l : ConfidenceLevel) :
  ConfidenceLevel_value l = "low" <-> l = LOW.
Proof. destruct l; simpl; split; intros H; try reflexivity; discriminate. Qed.

Lemma level_eqb_low (l : ConfidenceLevel) :
  Pipeline.ConfidenceLevel_eqb l LOW = true <-> l = LOW.
Proof. destruct l; simpl; split; intros H; try reflexivity; discriminate. Qed.
End LevelFacts.

(** C2.  The level of a score [s] is high when [s >= 0.8], medium when
    [0.8 > s >= threshold] (the configured threshold, 0.6 by default) and low
    otherwise; and the result [process_document] assembles asks for human
    review exactly when its level is low, whatever the classifier and the
    adapters answer. *)
Theorem confidence_level_and_review_gate :
  (forall threshold s : Q,
      ((0.8 <= s)%Q -> Scorer._get_confidence_level threshold s = HIGH)
      /\ ((s < 0.8)%Q -> (threshold <= s)%Q ->
          Scorer._get_confidence_level threshold s = MEDIUM)
      /\ ((s < 0.8)%Q -> (s < threshold)%Q ->
          Scorer._get_confidence_level threshold s = LOW))
  /\ (Scorer.default_threshold == 0.6)%Q
  /\ (forall classify ollama huggingface gpt4 loads to_str self text,
        let result :=
          Pipeline.process_document classify ollama huggingface gpt4 loads
            to_str self text in
        Pipeline.confidence_level result
        = ConfidenceLevel_value
            (Scorer._get_confidence_level (Backend.threshold self)
               (Pipeline.overall_confidence result))
        /\ (Pipeline.needs_human_review result = true
            <-> Pipeline.confidence_level result = "low")).
Proof.
  split; [|split].
  - intros threshold s. split; [|split].
    + apply level_high.
    + apply level_medium.
    + apply level_low.
  - reflexivity.
  - intros classify ollama huggingface gpt4 loads to_str self text.
    unfold Pipeline.process_document.
    destruct (classify text) as [doc_type ml]. simpl.
    split; [reflexivity|].
    rewrite level_eqb_low, level_value_low. reflexivity.
Qed.

(** A score of 0.66 under the default threshold is medium, 0.9 is high and
    0.59 is low. *)
Lemma confidence_level_and_review_gate_witness :
  ((0.8 <= 0.9)%Q /\ Scorer._get_confidence_level Scorer.default_threshold 0.9 = HIGH)
  /\ ((0.66 < 0.8)%Q /\ (Scorer.default_threshold <= 0.66)%Q
      /\ Scorer._get_confidence_level Scorer.default_threshold 0.66 = MEDIUM)
  /\ ((0.59 < 0.8)%Q /\ (0.59 < Scorer.default_threshold)%Q
      /\ Scorer._get_confidence_level Scorer.default_threshold 0.59 = LOW).
Proof.
  pose proof (proj1 confidence_level_and_review_gate) as H.
  assert (H1 : (0.8 <= 0.9)%Q) by (unfold Qle; simpl; lia).
  assert (H2 : (0.66 < 0.8)%Q) by (unfold Qlt; simpl; lia).
  assert (H3 : (Scorer.default_threshold <= 0.66)%Q) by (unfold Qle; simpl; lia).
  assert (H4 : (0.59 < 0.8)%Q) by (unfold Qlt; simpl; lia).
  assert (H5 : (0.59 < Scorer.default_threshold)%Q) by (unfold Qlt; simpl; lia).
  split; [|split].
  - split; [exact H1|]. exact (proj1 (H Scorer.default_threshold 0.9%Q) H1).
  - split; [exact H2|]. split; [exact H3|].
    exact (proj1 (proj2 (H Scorer.default_threshold 0.66%Q)) H2 H3).
  - split; [exact H4|]. split; [exact H5|].
    exact (proj2 (proj2 (H Scorer.default_threshold 0.59%Q)) H4 H5).
Defined.

(** ** Backend selection *)

Section BackendFacts.
Import Backend.

Lemma init_by_cases (e : env) :
  __init__ e =
  match first_answering e with
  | Some (m, ps) => Returned (mk_processor m ps (CONFIDENCE_THRESHOLD e))
  | None => Raised (mk_exn RuntimeError no_method_message)
  end.
Proof.
  unfold __init__, init_steps, first_answering, _init_ollama,
    _init_huggingface, _init_openai, bind, ret, log, set_extraction_method,
    blank; simpl.
  destruct (ollama_answer e); simpl; [reflexivity|].
  destruct (huggingface_answer e); simpl; [reflexivity|].
  destruct (openai_answer e); simpl; reflexivity.
Qed.
End BackendFacts.

(** C3.  Construction probes ollama, then huggingface, then openai, stops at
    the first probe that answers and locks [extraction_method] to it; when
    none answers it raises the RuntimeError "No AI extraction method
    available!".  So a constructed processor has one of the three methods,
    never "none". *)
Theorem init_locks_first_available_backend (e : Backend.env) :
  match Backend.__init__ e with
  | Returned self =>
      (Backend.extraction_method self = "ollama"
       /\ Backend.ollama_answer e = true
       /\ Backend.probes self = [Backend.ProbeOllama]
       \/ Backend.extraction_method self = "huggingface"
          /\ Backend.ollama_answer e = false
          /\ Backend.huggingface_answer e = true
          /\ Backend.probes self = [Backend.ProbeOllama; Backend.ProbeHuggingface]
       \/ Backend.extraction_method self = "openai"
          /\ Backend.ollama_answer e = false
          /\ Backend.huggingface_answer e = false
          /\ Backend.openai_answer e = true
          /\ Backend.probes self
             = [Backend.ProbeOllama; Backend.ProbeHuggingface; Backend.ProbeOpenai])
      /\ Backend.extraction_method self ∈ ["ollama"; "huggingface"; "openai"]
      /\ Backend.extraction_method self ≠ "none"
  | Raised x =>
      Backend.ollama_answer e = false
      /\ Backend.huggingface_answer e = false
      /\ Backend.openai_answer e = false
      /\ exn_kind_of x = RuntimeError
      /\ exn_message x = Backend.no_method_message
  end.
Proof.
  rewrite init_by_cases. unfold Backend.first_answering.
  destruct (Backend.ollama_answer e) eqn:E1.
  { simpl. split; [left; auto|]. split; [set_solver|discriminate]. }
  destruct (Backend.huggingface_answer e) eqn:E2.
  { simpl. split; [right; left; auto|]. split; [set_solver|discriminate]. }
  destruct (Backend.openai_answer e) eqn:E3.
  { simpl. split; [right; right; auto 6|]. split; [set_solver|discriminate]. }
  simpl. auto 6.
Qed.

(** ** Batch processing *)

Section BatchFacts.
Import Models DocumentService.

Variable save_temp_file : string -> string -> outcome unit.
Variable extract_text : string -> string -> outcome string.
Variable process_document : string -> Pipeline.raw_result.
Variable model_display_name processing_time : string.
Variable assign_batch_index : outcome unit.

Let single :=
  process_single_document save_temp_file extract_text process_document
    model_display_name processing_time.
Let loop :=
  batch_loop save_temp_file extract_text process_document
    model_display_name processing_time assign_batch_index.

(** "none" is the value of no member of [ExtractionMethod]. *)
Lemma error_result_is_rejected (e : exn) (filename : string) :
  error_result e filename = Raised (validation_error "extraction_method").
Proof. reflexivity. Qed.

Lemma batch_loop_aborts (files_data : list (string * string)) :
  forall i results,
    Exists (fun cf => ~ returns (single cf.1 cf.2)) files_data ->
    loop i files_data results = Raised (validation_error "extraction_method").
Proof.
  induction files_data as [|[content filename] rest IH]; intros i results Hex.
  - inversion Hex.
  - simpl. fold single.
    destruct (single content filename) as [result|e] eqn:Hs; simpl.
    + destruct assign_batch_index as [[]|e']; simpl; [|reflexivity].
      apply IH. inversion Hex as [? ? Hhd|? ? Htl]; subst; [|exact Htl].
      exfalso. apply Hhd. simpl. rewrite Hs. eexists; reflexivity.
    + reflexivity.
Qed.
End BatchFacts.

(** C4.  What the code does where the specification promises a synthetic
    failed result: as soon as one document of the batch raises, the handler's own
    [ProcessingResult(...)] is rejected (its extraction_method "none" is no
    member of the enumeration) and the whole batch raises that validation
    error. *)
Theorem batch_aborts_when_a_document_fails :
  forall save_temp_file extract_text process_document model_display_name
         processing_time assign_batch_index
         (files_data : list (string * string)),
    Exists (fun cf =>
              ~ returns (DocumentService.process_single_document save_temp_file
                           extract_text process_document model_display_name
                           processing_time cf.1 cf.2)) files_data ->
    DocumentService.process_batch_documents save_temp_file extract_text
      process_document model_display_name processing_time assign_batch_index
      files_data
    = Raised (Models.validation_error "extraction_method").
Proof.
  intros save extract process name time assign files Hex.
  unfold DocumentService.process_batch_documents.
  rewrite (batch_loop_aborts save extract process name time assign files 0 [] Hex).
  reflexivity.
Qed.

(** The three documents of the specification's scenario, the second one
    named notes.docx: the batch raises instead of reporting a total of 3. *)
Lemma batch_aborts_witness :
  Exists (fun cf =>
            ~ returns (DocumentService.process_single_document
                         Sample.save_temp_file Sample.extract_text
                         Sample.process_document "Llama 2" "0.42s" cf.1 cf.2))
    Sample.files_data
  /\ DocumentService.process_batch_documents Sample.save_temp_file
       Sample.extract_text Sample.process_document "Llama 2" "0.42s"
       (Returned tt) Sample.files_data
     = Raised (Models.validation_error "extraction_method").
Proof.
  assert (H : Exists (fun cf =>
            ~ returns (DocumentService.process_single_document
                         Sample.save_temp_file Sample.extract_text
                         Sample.process_document "Llama 2" "0.42s" cf.1 cf.2))
            Sample.files_data).
  { apply Exists_cons_tl, Exists_cons_hd. intros [r Hr]. vm_compute in Hr.
    discriminate Hr. }
  split; [exact H|].
  exact (batch_aborts_when_a_document_fails Sample.save_temp_file
           Sample.extract_text Sample.process_document "Llama 2" "0.42s"
           (Returned tt) Sample.files_data H).
Defined.

(** ** The response parser *)

Section StrFacts.

Lemma prefix_char (c : ascii) (s : string) :
  String.prefix (String c EmptyString) s = true <-> String.get 0 s = Some c.
Proof.
  destruct s as [|a s']; simpl.
  - split; discriminate.
  - destruct (ascii_dec c a) as [->|Hne].
    + destruct s'; split; reflexivity.
    + split; [discriminate|]. intros [= ->]. contradiction.
Qed.

Lemma find_from_char (c : ascii) (s : string) :
  forall n,
    match Str.find_from (String c EmptyString) s n with
    | Some m => exists i, m = (n + i)%nat /\ ResponseParser.first_at c s i
    | None => ResponseParser.absent c s
    end.
Proof.
  induction s as [|a s' IH]; intros n.
  - simpl. intros k. destruct k; discriminate.
  - cbn [Str.find_from].
    destruct (String.prefix (String c EmptyString) (String a s')) eqn:Hp.
    + exists 0%nat. split; [lia|]. split; [apply prefix_char; exact Hp|].
      intros k Hk. lia.
    + assert (Hne : String.get 0 (String a s') <> Some c).
      { intros H. apply prefix_char in H. congruence. }
      specialize (IH (S n)).
      destruct (Str.find_from (String c EmptyString) s' (S n)) as [m|].
      * destruct IH as (i & -> & Hget & Hbefore).
        exists (S i). split; [lia|]. split; [exact Hget|].
        intros k Hk. destruct k; [exact Hne|]. apply Hbefore. lia.
      * intros k. destruct k; [exact Hne|]. apply IH.
Qed.

Lemma rfind_from_char (c : ascii) (s : string) :
  forall n,
    match Str.rfind_from (String c EmptyString) s n with
    | Some m => exists j, m = (n + j)%nat /\ ResponseParser.last_at c s j
    | None => ResponseParser.absent c s
    end.
Proof.
  induction s as [|a s' IH]; intros n.
  - simpl. intros k. destruct k; discriminate.
  - cbn [Str.rfind_from]. specialize (IH (S n)).
    destruct (Str.rfind_from (String c EmptyString) s' (S n)) as [m|].
    + destruct IH as (j & -> & Hget & Hafter).
      exists (S j). split; [lia|]. split; [exact Hget|].
      intros k Hk. destruct k; [lia|]. apply Hafter. lia.
    + destruct (String.prefix (String c EmptyString) (String a s')) eqn:Hp.
      * exists 0%nat. split; [lia|]. split; [apply prefix_char; exact Hp|].
        intros k Hk. destruct k; [lia|]. apply IH.
      * intros k. destruct k; [|apply IH].
        intros H. apply prefix_char in H. congruence.
Qed.

Lemma first_at_unique (c : ascii) (s : string) (i i' : nat) :
  ResponseParser.first_at c s i -> ResponseParser.first_at c s i' -> i = i'.
Proof.
  intros [Hi Hbi] [Hi' Hbi'].
  destruct (Nat.lt_trichotomy i i') as [H|[H|H]]; [|exact H|].
  - exfalso. exact (Hbi' i H Hi).
  - exfalso. exact (Hbi i' H Hi').
Qed.

Lemma last_at_unique (c : ascii) (s : string) (j j' : nat) :
  ResponseParser.last_at c s j -> ResponseParser.last_at c s j' -> j = j'.
Proof.
  intros [Hj Haj] [Hj' Haj'].
  destruct (Nat.lt_trichotomy j j') as [H|[H|H]]; [|exact H|].
  - exfalso. exact (Haj j' H Hj').
  - exfalso. exact (Haj' j H Hj).
Qed.

Lemma find_char_first (c : ascii) (s : string) (i : nat) :
  ResponseParser.first_at c s i -> Str.find (String c EmptyString) s = Z.of_nat i.
Proof.
  intros Hi. unfold Str.find. pose proof (find_from_char c s 0) as H.
  destruct (Str.find_from (String c EmptyString) s 0) as [m|].
  - destruct H as (i' & -> & Hi'). simpl.
    rewrite (first_at_unique c s i i' Hi Hi'). reflexivity.
  - exfalso. exact (H i (proj1 Hi)).
Qed.

Lemma rfind_char_last (c : ascii) (s : string) (j : nat) :
  ResponseParser.last_at c s j -> Str.rfind (String c EmptyString) s = Z.of_nat j.
Proof.
  intros Hj. unfold Str.rfind. pose proof (rfind_from_char c s 0) as H.
  destruct (Str.rfind_from (String c EmptyString) s 0) as [m|].
  - destruct H as (j' & -> & Hj'). simpl.
    rewrite (last_at_unique c s j j' Hj Hj'). reflexivity.
  - exfalso. exact (H j (proj1 Hj)).
Qed.

Lemma find_char_absent (c : ascii) (s : string) :
  ResponseParser.absent c s -> Str.find (String c EmptyString) s = (-1)%Z.
Proof.
  intros Ha. unfold Str.find. pose proof (find_from_char c s 0) as H.
  destruct (Str.find_from (String c EmptyString) s 0) as [m|]; [|reflexivity].
  destruct H as (i & _ & Hi & _). exfalso. exact (Ha i Hi).
Qed.

Lemma rfind_char_absent (c : ascii) (s : string) :
  ResponseParser.absent c s -> Str.rfind (String c EmptyString) s = (-1)%Z.
Proof.
  intros Ha. unfold Str.rfind. pose proof (rfind_from_char c s 0) as H.
  destruct (Str.rfind_from (String c EmptyString) s 0) as [m|]; [|reflexivity].
  destruct H as (j & _ & Hj & _). exfalso. exact (Ha j Hj).
Qed.

Lemma get_Some_lt (s : string) :
  forall k c, String.get k s = Some c -> (k < String.length s)%nat.
Proof.
  induction s as [|a s' IH]; intros k c H.
  - destruct k; discriminate.
  - destruct k; simpl in *; [lia|]. apply IH in H. lia.
Qed.

Lemma take_drop_substring (s : string) :
  forall i n, Str.take n (Str.drop i s) = String.substring i n s.
Proof.
  induction s as [|a s' IH]; intros i n.
  - destruct i, n; reflexivity.
  - destruct i.
    + simpl. destruct n; simpl; [reflexivity|].
      f_equal. apply (IH 0%nat n).
    + simpl. apply IH.
Qed.

(** The slice between two positions of the string is the substring that
    starts at the first and ends with the second. *)
Lemma slice_between (s : string) (i j : nat) :
  (i < String.length s)%nat -> (j < String.length s)%nat ->
  Str.slice (Z.of_nat i) (Z.of_nat j + 1) s = String.substring i (j + 1 - i) s.
Proof.
  intros Hi Hj. unfold Str.slice, Str.clip.
  destruct (Z.ltb_spec (Z.of_nat i) 0); [lia|].
  destruct (Z.ltb_spec (Z.of_nat j + 1) 0); [lia|].
  rewrite Nat2Z.id.
  replace (Z.to_nat (Z.of_nat j + 1)) with (j + 1)%nat by lia.
  rewrite (Nat.min_l i) by lia. rewrite (Nat.min_l (j + 1)) by lia.
  apply take_drop_substring.
Qed.
End StrFacts.

(** C5.  The parser decodes the substring that runs from the first opening
    brace to the last closing brace and returns the decoded value; without an
    opening or a closing brace, or when the substring does not decode, it
    returns the raw text under the key "raw_response".  The scenario of the
    specification yields the object with the single field vendor_name. *)
Theorem parse_json_response_between_braces :
  (forall (loads : string -> option json) (response : string),
      (ResponseParser.absent "{" response \/ ResponseParser.absent "}" response ->
       ResponseParser._parse_json_response loads response
       = ResponseParser.raw_response response)
      /\ (forall i j,
             ResponseParser.first_at "{" response i ->
             ResponseParser.last_at "}" response j ->
             ResponseParser._parse_json_response loads response
             = match loads (String.substring i (j + 1 - i) response) with
               | Some parsed => parsed
               | None => ResponseParser.raw_response response
               end))
  /\ ResponseParser._parse_json_response JsonDecoder.json_loads
       ResponseParser.scenario_response
     = JDict [("vendor_name", JStr "Acme")].
Proof.
  split; [|vm_compute; reflexivity].
  intros loads response. split.
  - intros Habs. unfold ResponseParser._parse_json_response.
    destruct Habs as [Ha|Ha].
    + rewrite (find_char_absent "{" response Ha). reflexivity.
    + rewrite (rfind_char_absent "}" response Ha). simpl.
      rewrite andb_false_r. reflexivity.
  - intros i j Hi Hj. unfold ResponseParser._parse_json_response.
    rewrite (find_char_first "{" response i Hi).
    rewrite (rfind_char_last "}" response j Hj).
    destruct (Z.eqb_spec (Z.of_nat i) (-1)); [lia|].
    destruct (Z.eqb_spec (Z.of_nat j + 1) 0); [lia|]. simpl.
    rewrite slice_between.
    + reflexivity.
    + exact (get_Some_lt _ _ _ (proj1 Hi)).
    + exact (get_Some_lt _ _ _ (proj1 Hj)).
Qed.

(** In the scenario the first opening brace is at position 13 and the last
    closing brace at position 35; a closing brace before any opening brace
    gives the empty substring, hence the raw text. *)
Lemma parse_json_response_between_braces_witness :
  (ResponseParser.first_at "{" ResponseParser.scenario_response 13
   /\ ResponseParser.last_at "}" ResponseParser.scenario_response 35
   /\ ResponseParser._parse_json_response JsonDecoder.json_loads
        ResponseParser.scenario_response
      = match JsonDecoder.json_loads
                (String.substring 13 (35 + 1 - 13) ResponseParser.scenario_response)
        with
        | Some parsed => parsed
        | None => ResponseParser.raw_response ResponseParser.scenario_response
        end)
  /\ ((ResponseParser.absent "{" "no braces here"
       \/ ResponseParser.absent "}" "no braces here")
      /\ ResponseParser._parse_json_response JsonDecoder.json_loads "no braces here"
         = ResponseParser.raw_response "no braces here").
Proof.
  assert (H1 : ResponseParser.first_at "{" ResponseParser.scenario_response 13).
  { split; [reflexivity|]. intros k Hk.
    do 13 (destruct k as [|k]; [discriminate|]). lia. }
  assert (H2 : ResponseParser.last_at "}" ResponseParser.scenario_response 35).
  { split; [reflexivity|]. intros k Hk.
    do 36 (destruct k as [|k]; [lia|]).
    do 7 (destruct k as [|k]; [discriminate|]). discriminate. }
  assert (H3 : ResponseParser.absent "{" "no braces here"
               \/ ResponseParser.absent "}" "no braces here").
  { left. intros k. do 14 (destruct k as [|k]; [discriminate|]). discriminate. }
  pose proof (proj1 parse_json_response_between_braces
                JsonDecoder.json_loads ResponseParser.scenario_response) as Hs.
  pose proof (proj1 parse_json_response_between_braces
                JsonDecoder.json_loads "no braces here") as Hn.
  split.
  - split; [exact H1|]. split; [exact H2|]. exact (proj2 Hs 13%nat 35%nat H1 H2).
  - split; [exact H3|]. exact (proj1 Hn H3).
Defined.

(** ** The prompt catalog *)

(** C8.  [get_prompt] returns the entry of (doc_type, backend) when there is
    one, otherwise the default entry of the backend when there is one,
    otherwise the synthesized template, which embeds doc_type; being total,
    it always returns a template. *)
Theorem get_prompt_resolution_order (prompts : PromptLoader.catalog)
    (doc_type method : string) :
  PromptLoader.get_prompt prompts doc_type method
  = match PromptLoader.exact_entry prompts doc_type method with
    | Some template => template
    | None =>
        match PromptLoader.default_entry prompts method with
        | Some template => template
        | None =>
            "Extract " ++ doc_type ++ " information from: {text}"
            ++ PromptLoader.nl ++ "Return JSON:"
        end
    end.
Proof.
  unfold PromptLoader.get_prompt, PromptLoader.exact_entry,
    PromptLoader.default_entry, PromptLoader.fallback_prompt.
  destruct (default ∅ (PromptLoader.document_types prompts) !! doc_type)
    as [doc_prompts|]; [|reflexivity].
  destruct (doc_prompts !! method); reflexivity.
Qed.

Section FormatFacts.
Import PromptLoader.

Lemma take_all (s : string) :
  forall n, (String.length s <= n)%nat -> Str.take n s = s.
Proof.
  induction s as [|a s' IH]; intros n Hn.
  - destruct n; reflexivity.
  - destruct n; simpl in *; [lia|]. f_equal. apply IH. lia.
Qed.

Lemma take_min_length (s : string) :
  forall n, Str.take (Nat.min n (String.length s)) s = Str.take n s.
Proof.
  induction s as [|a s' IH]; intros n.
  - destruct n; reflexivity.
  - destruct n; simpl; [reflexivity|]. f_equal. apply IH.
Qed.

Lemma length_take (s : string) :
  forall n, (n <= String.length s)%nat -> String.length (Str.take n s) = n.
Proof.
  induction s as [|a s' IH]; intros n Hn.
  - destruct n; simpl in *; [reflexivity|lia].
  - destruct n; simpl in *; [reflexivity|]. f_equal. apply IH. lia.
Qed.

(** [text[:n]] is the substring of the first [n] characters. *)
Lemma slice_prefix (s : string) (n : nat) :
  Str.slice 0 (Z.of_nat n) s = String.substring 0 n s.
Proof.
  unfold Str.slice, Str.clip.
  destruct (Z.ltb_spec (Z.of_nat n) 0); [lia|]. simpl.
  rewrite Nat2Z.id, Nat.sub_0_r.
  replace (Str.drop 0 s) with s by (destruct s; reflexivity).
  rewrite take_min_length. apply (take_drop_substring s 0).
Qed.

Lemma slice_prefix_short (s : string) (n : nat) :
  (String.length s <= n)%nat -> Str.slice 0 (Z.of_nat n) s = s.
Proof.
  intros H. rewrite slice_prefix, <- (take_drop_substring s 0).
  replace (Str.drop 0 s) with s by (destruct s; reflexivity).
  apply take_all. exact H.
Qed.

Lemma format_prompt_fills (str_format : string -> Format.kwargs -> outcome string)
    (prompts : catalog) (doc_type method text : string) :
  format_prompt str_format prompts doc_type method text
  = fill_placeholders str_format (get_prompt prompts doc_type method) text
      (text_preview text).
Proof.
  unfold format_prompt, fill_placeholders, format_vars.
  destruct (str_format _ _) as [s|e]; [reflexivity|].
  destruct (exn_kind_of e); try reflexivity.
  unfold text_preview.
  destruct (Nat.ltb_spec 300 (String.length text)); [reflexivity|].
  change (Str.slice 0 300 text) with (Str.slice 0 (Z.of_nat 300) text).
  rewrite (slice_prefix_short text 300) by assumption. reflexivity.
Qed.
End FormatFacts.

(** C7.  For a text of fewer than 300 characters [format_prompt] fills both
    placeholders with the whole text; for a longer one the preview gets the
    first 300 characters of the text, and exactly that many. *)
Theorem format_prompt_preview_cap :
  forall (str_format : string -> Format.kwargs -> outcome string)
         (prompts : PromptLoader.catalog) (doc_type method text : string),
    ((String.length text < 300)%nat ->
     PromptLoader.text_preview text = text
     /\ PromptLoader.format_prompt str_format prompts doc_type method text
        = PromptLoader.fill_placeholders str_format
            (PromptLoader.get_prompt prompts doc_type method) text text)
    /\ ((300 <= String.length text)%nat ->
        PromptLoader.text_preview text = String.substring 0 300 text
        /\ String.length (String.substring 0 300 text) = 300%nat
        /\ PromptLoader.format_prompt str_format prompts doc_type method text
           = PromptLoader.fill_placeholders str_format
               (PromptLoader.get_prompt prompts doc_type method) text
               (String.substring 0 300 text)).
Proof.
  intros str_format prompts doc_type method text.
  rewrite format_prompt_fills. split.
  - intros Hlt.
    assert (Hp : PromptLoader.text_preview text = text).
    { unfold PromptLoader.text_preview.
      destruct (Nat.ltb_spec 300 (String.length text)); [lia|reflexivity]. }
    rewrite Hp. split; reflexivity.
  - intros Hge.
    assert (Hp : PromptLoader.text_preview text = String.substring 0 300 text).
    { unfold PromptLoader.text_preview.
      destruct (Nat.ltb_spec 300 (String.length text)).
      - apply (slice_prefix text 300).
      - rewrite <- (slice_prefix text 300).
        symmetry. apply (slice_prefix_short text 300). assumption. }
    rewrite Hp. split; [reflexivity|]. split; [|reflexivity].
    rewrite <- (take_drop_substring text 0).
    replace (Str.drop 0 text) with text by (destruct text; reflexivity).
    apply length_take. exact Hge.
Qed.

(** A short invoice text with the built-in catalog, and a text of 320
    characters. *)
Lemma format_prompt_preview_cap_witness :
  ((String.length "Invoice INV-001" < 300)%nat
   /\ PromptLoader.format_prompt Format.py_format
        PromptLoader._get_default_prompts "invoice" "huggingface" "Invoice INV-001"
      = PromptLoader.fill_placeholders Format.py_format
          (PromptLoader.get_prompt PromptLoader._get_default_prompts
             "invoice" "huggingface")
          "Invoice INV-001" "Invoice INV-001")
  /\ ((300 <= String.length Sample.long_text)%nat
      /\ PromptLoader.text_preview Sample.long_text
         = String.substring 0 300 Sample.long_text).
Proof.
  assert (H1 : (String.length "Invoice INV-001" < 300)%nat) by (simpl; lia).
  assert (H2 : (300 <= String.length Sample.long_text)%nat)
    by (apply Nat.leb_le; vm_compute; reflexivity).
  split.
  - split; [exact H1|].
    exact (proj2 (proj1 (format_prompt_preview_cap Format.py_format
                    PromptLoader._get_default_prompts "invoice" "huggingface"
                    "Invoice INV-001") H1)).
  - split; [exact H2|].
    exact (proj1 (proj2 (format_prompt_preview_cap Format.py_format
                    PromptLoader._get_default_prompts "invoice" "huggingface"
                    Sample.long_text) H2)).
Defined.

(** C6, as the code has it.  When formatting succeeds [format_prompt]
    returns its result; when formatting misses a named placeholder (a
    KeyError) it returns the template with the literal names [{text}] and
    [{text_preview}] replaced, the preview being the first 300 characters. *)
Theorem format_prompt_degrades_on_missing_name :
  forall (str_format : string -> Format.kwargs -> outcome string)
         (prompts : PromptLoader.catalog) (doc_type method text : string),
    let template := PromptLoader.get_prompt prompts doc_type method in
    (forall s,
        str_format template (PromptLoader.format_vars text) = Returned s ->
        PromptLoader.format_prompt str_format prompts doc_type method text
        = Returned s)
    /\ (forall e,
           str_format template (PromptLoader.format_vars text) = Raised e ->
           exn_kind_of e = KeyError ->
           PromptLoader.format_prompt str_format prompts doc_type method text
           = Returned
               (Str.replace "{text_preview}" (String.substring 0 300 text)
                  (Str.replace "{text}" text template))).
Proof.
  intros str_format prompts doc_type method text template. split.
  - intros s Hs. unfold PromptLoader.format_prompt. fold template.
    rewrite Hs. reflexivity.
  - intros e He Hk. unfold PromptLoader.format_prompt. fold template.
    rewrite He, Hk.
    change (Str.slice 0 300 text) with (Str.slice 0 (Z.of_nat 300) text).
    rewrite (slice_prefix text 300). reflexivity.
Qed.

(** A template with a name the formatter is not given: the name stays, the
    text is put in by replacement. *)
Lemma format_prompt_degrades_on_missing_name_witness :
  (Format.py_format
     (PromptLoader.get_prompt
        (PromptLoader.catalog_of "ollama" "For {customer}: {text}")
        "invoice" "ollama")
     (PromptLoader.format_vars "INV-001")
   = Raised (mk_exn KeyError "customer")
   /\ PromptLoader.format_prompt Format.py_format
        (PromptLoader.catalog_of "ollama" "For {customer}: {text}")
        "invoice" "ollama" "INV-001"
      = Returned "For {customer}: INV-001")
  /\ (Format.py_format
        (PromptLoader.get_prompt PromptLoader._get_default_prompts
           "invoice" "ollama")
        (PromptLoader.format_vars "INV-001")
      = Returned ("Extract invoice information from: INV-001"
                  ++ PromptLoader.nl ++ "Return JSON:")
      /\ PromptLoader.format_prompt Format.py_format
           PromptLoader._get_default_prompts "invoice" "ollama" "INV-001"
         = Returned ("Extract invoice information from: INV-001"
                     ++ PromptLoader.nl ++ "Return JSON:")).
Proof.
  assert (H1 : Format.py_format
     (PromptLoader.get_prompt
        (PromptLoader.catalog_of "ollama" "For {customer}: {text}")
        "invoice" "ollama")
     (PromptLoader.format_vars "INV-001")
   = Raised (mk_exn KeyError "customer")) by (vm_compute; reflexivity).
  assert (H2 : Format.py_format
        (PromptLoader.get_prompt PromptLoader._get_default_prompts
           "invoice" "ollama")
        (PromptLoader.format_vars "INV-001")
      = Returned ("Extract invoice information from: INV-001"
                  ++ PromptLoader.nl ++ "Return JSON:"))
    by (vm_compute; reflexivity).
  split.
  - split; [exact H1|].
    exact (proj2 (format_prompt_degrades_on_missing_name Format.py_format
                    (PromptLoader.catalog_of "ollama" "For {customer}: {text}")
                    "invoice" "ollama" "INV-001") _ H1 eq_refl).
  - split; [exact H2|].
    exact (proj1 (format_prompt_degrades_on_missing_name Format.py_format
                    PromptLoader._get_default_prompts
                    "invoice" "ollama" "INV-001") _ H2).
Defined.

(** C6 as stated fails: a template with an unnamed placeholder makes
    [str.format] raise IndexError, which [format_prompt] lets through. *)
Lemma format_prompt_raises_on_unnamed_field :
  ~ (forall template text : string,
        returns (PromptLoader.format_prompt Format.py_format
                   (PromptLoader.catalog_of "ollama" template)
                   "invoice" "ollama" text)).
Proof.
  intros H. destruct (H "Summarise {text} as {}" "INV-001") as [s Hs].
  vm_compute in Hs. discriminate Hs.
Qed.

(** ** Text extraction from images *)

Section TextractFacts.
Import Textract.

Lemma lstrip_space_empty (s : string) :
  Str.lstrip_space s = "" <-> whitespace_only s = true.
Proof.
  unfold whitespace_only. induction s as [|c s' IH]; simpl.
  - split; reflexivity.
  - destruct (Str.is_space c); simpl; [exact IH|].
    split; discriminate.
Qed.

Lemma lstrip_space_head (s : string) :
  match Str.lstrip_space s with
  | EmptyString => True
  | String c _ => Str.is_space c = false
  end.
Proof.
  induction s as [|c s' IH]; simpl; [exact I|].
  destruct (Str.is_space c) eqn:E; [exact IH|exact E].
Qed.

(** [text.strip()] is empty exactly for a text made of white space only,
    the empty text included. *)
Lemma strip_empty_iff (s : string) :
  Str.strip s = "" <-> whitespace_only s = true.
Proof.
  unfold Str.strip. rewrite <- lstrip_space_empty.
  pose proof (lstrip_space_head s) as Hh.
  destruct (Str.lstrip_space s) as [|c r]; simpl.
  - split; reflexivity.
  - rewrite Hh. destruct (Str.rstrip_space r); split; discriminate.
Qed.

Lemma image_ext_dispatch (file : file_env) (file_ext : string) :
  file_ext ∈ image_exts ->
  extract_text_from_file file file_ext =
  match as_image file with
  | OcrText text =>
      Returned (if negb (String.eqb (Str.strip text) "") then text
                else no_text_found)
  | OcrImportError =>
      Raised (mk_exn (HTTPException 500)
                "pytesseract/PIL not installed for image processing")
  | OcrFailure error_msg =>
      if corruption_signature error_msg then Returned corrupted_image
      else Returned ("Unable to process this image: " ++ error_msg)
  end.
Proof.
  intros Hin. unfold extract_text_from_file.
  rewrite (bool_decide_eq_true_2 _ Hin).
  unfold image_exts in Hin.
  repeat (apply elem_of_cons in Hin as [->|Hin]; [reflexivity|]).
  inversion Hin.
Qed.
End TextractFacts.

(** C9, as the code has it.  For an image extension, and unless importing
    the OCR libraries fails, text extraction returns a string: the sentinel
    "No text found in image" when the recognised text is empty or white
    space only, the recognised text otherwise, the fixed description of a
    corrupted image when the error message carries one of the two
    corruption signatures, and a message quoting the error otherwise. *)
Theorem image_extraction_returns_text :
  forall (file : Textract.file_env) (file_ext : string),
    file_ext ∈ Textract.image_exts ->
    Textract.as_image file <> Textract.OcrImportError ->
    returns (Textract.extract_text_from_file file file_ext)
    /\ (forall text,
           Textract.as_image file = Textract.OcrText text ->
           (Textract.whitespace_only text = true ->
            Textract.extract_text_from_file file file_ext
            = Returned "No text found in image")
           /\ (Textract.whitespace_only text = false ->
               Textract.extract_text_from_file file file_ext = Returned text))
    /\ (forall error_msg,
           Textract.as_image file = Textract.OcrFailure error_msg ->
           (Str.contains "Corrupt JPEG" error_msg = true
            \/ Str.contains "premature end" error_msg = true ->
            Textract.extract_text_from_file file file_ext
            = Returned Textract.corrupted_image)
           /\ (Str.contains "Corrupt JPEG" error_msg = false ->
               Str.contains "premature end" error_msg = false ->
               Textract.extract_text_from_file file file_ext
               = Returned ("Unable to process this image: " ++ error_msg))).
Proof.
  intros file file_ext Hext Himp.
  rewrite (image_ext_dispatch file file_ext Hext).
  split; [|split].
  - destruct (Textract.as_image file) as [text| |msg].
    + eexists; reflexivity.
    + contradiction.
    + destruct (Textract.corruption_signature msg); eexists; reflexivity.
  - intros text ->. split; intros Hw.
    + apply strip_empty_iff in Hw. rewrite Hw. reflexivity.
    + destruct (String.eqb_spec (Str.strip text) "") as [He|Hne]; [|reflexivity].
      apply strip_empty_iff in He. congruence.
  - intros msg ->. unfold Textract.corruption_signature. split.
    + intros [H|H]; rewrite H; [reflexivity|].
      rewrite orb_true_r. reflexivity.
    + intros H1 H2. rewrite H1, H2. reflexivity.
Qed.

(** A blank scan and a truncated photograph. *)
Lemma image_extraction_returns_text_witness :
  (".png" ∈ Textract.image_exts
   /\ Textract.as_image Sample.blank_scan <> Textract.OcrImportError
   /\ Textract.extract_text_from_file Sample.blank_scan ".png"
      = Returned "No text found in image")
  /\ (".jpg" ∈ Textract.image_exts
      /\ Textract.as_image Sample.truncated_photo <> Textract.OcrImportError
      /\ Textract.extract_text_from_file Sample.truncated_photo ".jpg"
         = Returned Textract.corrupted_image).
Proof.
  assert (E1 : ".png" ∈ Textract.image_exts) by (unfold Textract.image_exts; repeat constructor).
  assert (E2 : ".jpg" ∈ Textract.image_exts) by (unfold Textract.image_exts; repeat constructor).
  assert (N1 : Textract.as_image Sample.blank_scan <> Textract.OcrImportError)
    by discriminate.
  assert (N2 : Textract.as_image Sample.truncated_photo <> Textract.OcrImportError)
    by discriminate.
  split.
  - split; [exact E1|]. split; [exact N1|].
    exact (proj1 (proj1 (proj2 (image_extraction_returns_text
                                  Sample.blank_scan ".png" E1 N1))
                    "   " eq_refl) eq_refl).
  - split; [exact E2|]. split; [exact N2|].
    exact (proj1 (proj2 (proj2 (image_extraction_returns_text
                                  Sample.truncated_photo ".jpg" E2 N2))
                    _ eq_refl) (or_intror eq_refl)).
Defined.

(** C9 as stated fails: when pytesseract or PIL cannot be imported the image
    branch raises an HTTP 500 error for every image. *)
Lemma image_extraction_raises_without_ocr_library :
  ~ (forall (file : Textract.file_env) (file_ext : string),
        file_ext ∈ Textract.image_exts ->
        returns (Textract.extract_text_from_file file file_ext)).
Proof.
  intros H.
  assert (E : ".png" ∈ Textract.image_exts) by (unfold Textract.image_exts; repeat constructor).
  destruct (H Sample.image_without_ocr ".png" E) as [s Hs].
  vm_compute in Hs. discriminate Hs.
Qed.

(** ** Post-processing: what it may touch *)

Section PostProcessFacts.
Import PostProcess.

Variable loads : string -> option json.
Variable to_str : json -> string.

Let pf := process_field loads to_str.
Let holds := holds_array loads.

(** The three things one turn of the loop can do. *)
Lemma process_field_cases (d : gmap string json) (field : string) :
  pf d field = d
  \/ (exists raw v, d !! field = Some (JStr raw) /\ pf d field = <[field := v]> d)
  \/ (holds d field
      /\ exists raw v,
           d !! field = Some (JStr raw)
           /\ pf d field = <[raw_key field := JStr raw]> (<[field := v]> d)).
Proof.
  unfold pf, process_field.
  destruct (d !! field) as [[| | | |raw| |]|] eqn:Hd; try (left; reflexivity).
  destruct (Regex.search_bracketed raw) as [matched|] eqn:Hm; [|left; reflexivity].
  destruct (loads matched) as [[| | | | |[|item items]|]|] eqn:Hl;
    try (left; reflexivity).
  - right; right. split.
    + exists raw, matched, item, items. auto.
    + eexists _, _. split; reflexivity.
  - unfold simple_cleanup.
    destruct (Str.startswith "[" raw && Str.endswith "]" raw);
      [|left; reflexivity].
    match goal with |- context [if ?b then _ else _] => destruct b end;
      [|left; reflexivity].
    right; left. eexists _, _. split; reflexivity.
Qed.

Lemma process_field_frame (d : gmap string json) (field k : string) :
  k ≠ field -> k ≠ raw_key field -> pf d field !! k = d !! k.
Proof.
  intros Hf Hr.
  destruct (process_field_cases d field)
    as [->|[(raw & v & _ & ->)|(_ & raw & v & _ & ->)]].
  - reflexivity.
  - rewrite lookup_insert_ne by congruence. reflexivity.
  - rewrite !lookup_insert_ne by congruence. reflexivity.
Qed.

Lemma process_field_keeps (d : gmap string json) (field k : string) :
  is_Some (d !! k) -> is_Some (pf d field !! k).
Proof.
  intros Hk.
  destruct (process_field_cases d field)
    as [->|[(raw & v & _ & ->)|(_ & raw & v & _ & ->)]].
  - exact Hk.
  - destruct (decide (field = k)) as [->|Hne].
    + rewrite lookup_insert_eq. eauto.
    + rewrite lookup_insert_ne by exact Hne. exact Hk.
  - destruct (decide (raw_key field = k)) as [<-|Hne].
    + rewrite lookup_insert_eq. eauto.
    + rewrite lookup_insert_ne by exact Hne.
      destruct (decide (field = k)) as [->|Hne'].
      * rewrite lookup_insert_eq. eauto.
      * rewrite lookup_insert_ne by exact Hne'. exact Hk.
Qed.

Lemma process_field_absent (d : gmap string json) (field : string) :
  d !! field = None -> pf d field = d.
Proof.
  intros Hd. unfold pf, process_field. rewrite Hd. reflexivity.
Qed.

Lemma length_append (s1 s2 : string) :
  String.length (s1 ++ s2) = (String.length s1 + String.length s2)%nat.
Proof. induction s1 as [|c s1 IH]; simpl; [reflexivity|]. rewrite IH. reflexivity. Qed.

Lemma raw_key_differs (field : string) : field ≠ raw_key field.
Proof.
  unfold raw_key. intros H.
  apply (f_equal String.length) in H. rewrite length_append in H.
  simpl in H. lia.
Qed.

(** The sibling key changes only when the field holds an array, and then to
    the field's original value. *)
Lemma process_field_raw (d : gmap string json) (field : string) :
  pf d field !! raw_key field ≠ d !! raw_key field ->
  holds d field /\ pf d field !! raw_key field = d !! field.
Proof.
  intros Hch.
  destruct (process_field_cases d field)
    as [E|[(raw & v & Hd & E)|(Hh & raw & v & Hd & E)]].
  - rewrite E in Hch. contradiction.
  - exfalso. apply Hch. rewrite E.
    rewrite lookup_insert_ne by apply raw_key_differs. reflexivity.
  - split; [exact Hh|]. rewrite E, lookup_insert_eq, Hd. reflexivity.
Qed.

Lemma holds_array_same (d d' : gmap string json) (field : string) :
  d' !! field = d !! field -> holds d' field -> holds d field.
Proof.
  intros E (raw & m & x & l & Hd & Hm & Hl).
  exists raw, m, x, l. rewrite <- E. auto.
Qed.

Lemma fold_frame (fields : list string) :
  forall d k,
    k ∉ fields -> k ∉ map raw_key fields ->
    fold_left pf fields d !! k = d !! k.
Proof.
  induction fields as [|f rest IH]; intros d k Hk Hr; [reflexivity|].
  simpl. rewrite IH.
  - apply process_field_frame.
    + intros ->. apply Hk. constructor.
    + intros ->. apply Hr. simpl. constructor.
  - intros H. apply Hk. constructor. exact H.
  - intros H. apply Hr. simpl. constructor. exact H.
Qed.

Lemma fold_keeps (fields : list string) :
  forall d k, is_Some (d !! k) -> is_Some (fold_left pf fields d !! k).
Proof.
  induction fields as [|f rest IH]; intros d k Hk; [exact Hk|].
  simpl. apply IH. apply process_field_keeps. exact Hk.
Qed.

Lemma fold_absent_field (fields : list string) :
  forall d field,
    (forall g, g ∈ fields -> field ≠ raw_key g) ->
    d !! field = None -> fold_left pf fields d !! field = None.
Proof.
  induction fields as [|f rest IH]; intros d field Hind Hd; [exact Hd|].
  simpl. apply IH.
  - intros g Hg. apply Hind. constructor. exact Hg.
  - destruct (decide (field = f)) as [->|Hne].
    + rewrite process_field_absent by exact Hd. exact Hd.
    + rewrite process_field_frame; [exact Hd|exact Hne|].
      apply Hind. constructor.
Qed.

Lemma fold_raw_written (fields : list string) :
  forall d field,
    NoDup fields -> NoDup (map raw_key fields) -> independent fields ->
    field ∈ fields ->
    fold_left pf fields d !! raw_key field ≠ d !! raw_key field ->
    holds d field /\ fold_left pf fields d !! raw_key field = d !! field.
Proof.
  induction fields as [|f rest IH]; intros d field Hnd Hndr Hind Hin Hch.
  - inversion Hin.
  - simpl in *. inversion Hnd as [|? ? Hf Hnd']; subst.
    inversion Hndr as [|? ? Hfr Hndr']; subst.
    assert (Hind' : independent rest).
    { intros a b Ha Hb. apply Hind; constructor; assumption. }
    apply elem_of_cons in Hin as [->|Hin].
    + assert (Hfr' : fold_left pf rest (pf d f) !! raw_key f
                     = pf d f !! raw_key f).
      { apply fold_frame; [|exact Hfr].
        intros H. apply (Hind (raw_key f) f); [constructor; exact H|constructor|].
        reflexivity. }
      rewrite Hfr' in *. apply process_field_raw. exact Hch.
    + assert (Hne : field ≠ f) by (intros ->; contradiction).
      assert (Hr1 : raw_key field ≠ f).
      { intros H. apply (Hind f field); [constructor|constructor; exact Hin|].
        symmetry. exact H. }
      assert (Hr2 : raw_key field ≠ raw_key f).
      { intros H. apply Hfr. rewrite <- H.
        apply list_elem_of_fmap. exists field. split; [reflexivity|exact Hin]. }
      assert (Hf1 : field ≠ raw_key f).
      { apply Hind; [constructor; exact Hin|constructor]. }
      assert (E1 : pf d f !! raw_key field = d !! raw_key field)
        by (apply process_field_frame; assumption).
      assert (E2 : pf d f !! field = d !! field)
        by (apply process_field_frame; assumption).
      destruct (IH (pf d f) field Hnd' Hndr' Hind' Hin) as [Hh Hv].
      * rewrite E1. exact Hch.
      * split; [exact (holds_array_same d (pf d f) field E2 Hh)|].
        rewrite Hv. exact E2.
Qed.

Lemma item_fields_NoDup : NoDup item_fields.
Proof. by_decision. Qed.

Lemma item_fields_raw_NoDup : NoDup (map raw_key item_fields).
Proof. by_decision. Qed.

Lemma item_fields_independent : independent item_fields.
Proof.
  intros f g Hf Hg. unfold item_fields in *.
  repeat (apply elem_of_cons in Hf as [->|Hf]);
    repeat (apply elem_of_cons in Hg as [->|Hg]);
    try discriminate; try (inversion Hf); try (inversion Hg).
Qed.
End PostProcessFacts.

(** C10, as the code has it.  Post-processing leaves the value of every key
    that is neither a list-like field nor the [_raw] sibling of one
    unchanged; it never removes a key; a key it adds is the [_raw] sibling of
    a list-like field whose string value holds an embedded array that decodes
    to a non-empty list; and whenever it writes such a sibling, new or
    already present, it writes the field's original value. *)
Theorem post_process_frame :
  forall (loads : string -> option json) (to_str : json -> string)
         (extracted_data : gmap string json),
    let post :=
      PostProcess._post_process_extracted_data loads to_str extracted_data in
    (forall k,
        k ∉ PostProcess.item_fields ->
        k ∉ map PostProcess.raw_key PostProcess.item_fields ->
        post !! k = extracted_data !! k)
    /\ (forall k, is_Some (extracted_data !! k) -> is_Some (post !! k))
    /\ (forall k,
           extracted_data !! k = None -> is_Some (post !! k) ->
           exists field,
             field ∈ PostProcess.item_fields
             /\ k = PostProcess.raw_key field
             /\ PostProcess.holds_array loads extracted_data field)
    /\ (forall field,
           field ∈ PostProcess.item_fields ->
           post !! PostProcess.raw_key field
             ≠ extracted_data !! PostProcess.raw_key field ->
           PostProcess.holds_array loads extracted_data field
           /\ post !! PostProcess.raw_key field = extracted_data !! field).
Proof.
  intros loads to_str d post. unfold post, PostProcess._post_process_extracted_data.
  assert (Hraw : forall field,
             field ∈ PostProcess.item_fields ->
             fold_left (PostProcess.process_field loads to_str)
               PostProcess.item_fields d !! PostProcess.raw_key field
               ≠ d !! PostProcess.raw_key field ->
             PostProcess.holds_array loads d field
             /\ fold_left (PostProcess.process_field loads to_str)
                  PostProcess.item_fields d !! PostProcess.raw_key field
                = d !! field).
  { intros field Hin Hch.
    apply fold_raw_written;
      auto using item_fields_NoDup, item_fields_raw_NoDup,
        item_fields_independent. }
  split; [|split; [|split]].
  - intros k Hk Hr. apply fold_frame; assumption.
  - intros k Hk. apply fold_keeps. exact Hk.
  - intros k Hnone Hsome.
    destruct (decide (k ∈ map PostProcess.raw_key PostProcess.item_fields))
      as [Hr|Hr].
    + apply list_elem_of_fmap in Hr as (field & -> & Hin).
      exists field. split; [exact Hin|]. split; [reflexivity|].
      apply Hraw; [exact Hin|].
      rewrite Hnone. destruct Hsome as [v Hv]. rewrite Hv. discriminate.
    + exfalso. destruct (decide (k ∈ PostProcess.item_fields)) as [Hk|Hk].
      * rewrite (fold_absent_field loads to_str PostProcess.item_fields d k)
          in Hsome.
        -- destruct Hsome as [v Hv]. discriminate.
        -- intros g Hg. apply item_fields_independent; assumption.
        -- exact Hnone.
      * rewrite (fold_frame loads to_str _ d k Hk Hr), Hnone in Hsome.
        destruct Hsome as [v Hv]. discriminate.
  - exact Hraw.
Qed.

(** On the sample data the vendor name is left alone, and the sibling key
    of the item list changes, to the original value of the list. *)
Lemma post_process_frame_witness :
  (("vendor_name" ∉ PostProcess.item_fields)
   /\ ("vendor_name" ∉ map PostProcess.raw_key PostProcess.item_fields)
   /\ PostProcess._post_process_extracted_data JsonDecoder.json_loads
        PyRepr.py_str Sample.data_with_raw_key !! "vendor_name"
      = Sample.data_with_raw_key !! "vendor_name")
  /\ ("items" ∈ PostProcess.item_fields
      /\ PostProcess._post_process_extracted_data JsonDecoder.json_loads
           PyRepr.py_str Sample.data_with_raw_key !! PostProcess.raw_key "items"
         ≠ Sample.data_with_raw_key !! PostProcess.raw_key "items"
      /\ PostProcess._post_process_extracted_data JsonDecoder.json_loads
           PyRepr.py_str Sample.data_with_raw_key !! PostProcess.raw_key "items"
         = Sample.data_with_raw_key !! "items").
Proof.
  assert (H1 : "vendor_name" ∉ PostProcess.item_fields)
    by by_decision.
  assert (H2 : "vendor_name" ∉ map PostProcess.raw_key PostProcess.item_fields)
    by by_decision.
  assert (H3 : "items" ∈ PostProcess.item_fields)
    by (unfold PostProcess.item_fields; repeat constructor).
  assert (H4 : PostProcess._post_process_extracted_data JsonDecoder.json_loads
           PyRepr.py_str Sample.data_with_raw_key !! PostProcess.raw_key "items"
         ≠ Sample.data_with_raw_key !! PostProcess.raw_key "items")
    by (vm_compute; discriminate).
  pose proof (post_process_frame JsonDecoder.json_loads PyRepr.py_str
                Sample.data_with_raw_key) as (Hf & _ & _ & Hw).
  split.
  - split; [exact H1|]. split; [exact H2|]. exact (Hf "vendor_name" H1 H2).
  - split; [exact H3|]. split; [exact H4|]. exact (proj2 (Hw "items" H3 H4)).
Defined.

(** C10 as stated fails: "items_raw" is outside the list-like set, yet its
    value 5 is replaced by the original item string. *)
Lemma post_process_overwrites_raw_sibling :
  ~ (forall (extracted_data : gmap string json) (k : string),
        k ∉ PostProcess.item_fields ->
        PostProcess._post_process_extracted_data JsonDecoder.json_loads
          PyRepr.py_str extracted_data !! k
        = extracted_data !! k).
Proof.
  intros H.
  assert (Hk : "items_raw" ∉ PostProcess.item_fields)
    by by_decision.
  specialize (H Sample.data_with_raw_key "items_raw" Hk).
  vm_compute in H. discriminate H.
Qed.

(** * Further properties of the code *)

(** ** File validation *)

Section FileServiceFacts.
Import FileService.

Lemma validate_file_returns_iff (filename : string) (file_size : N) :
  validate_file filename file_size = Returned tt
  <-> filename ≠ "" /\ effective_ext filename ∈ ALLOWED_TYPES
      /\ (file_size <= MAX_FILE_SIZE)%N.
Proof.
  unfold validate_file.
  destruct (String.eqb_spec filename "") as [->|Hne].
  { split; [discriminate|]. intros [H _]. contradiction. }
  destruct (decide (effective_ext filename ∈ ALLOWED_TYPES)) as [Hin|Hnin].
  - rewrite (bool_decide_eq_true_2 _ Hin). simpl.
    destruct (N.ltb_spec MAX_FILE_SIZE file_size) as [Hlt|Hle].
    + split; [discriminate|]. intros (_ & _ & H). lia.
    + split; auto.
  - rewrite (bool_decide_eq_false_2 _ Hnin). simpl.
    split; [discriminate|]. intros (_ & H & _). contradiction.
Qed.

Lemma validate_file_outcome (filename : string) (file_size : N) :
  validate_file filename file_size = Returned tt
  \/ exists msg, validate_file filename file_size = Raised (mk_exn ValueError msg).
Proof.
  unfold validate_file.
  destruct (String.eqb filename ""); [right; eauto|].
  destruct (negb _); [right; eauto|].
  destruct (_ <? _)%N; [right; eauto|left; reflexivity].
Qed.

Lemma get_drop (s : string) :
  forall n k, String.get k (Str.drop n s) = String.get (n + k) s.
Proof.
  induction s as [|c s' IH]; intros n k.
  - destruct n; simpl; [reflexivity|]. destruct k; reflexivity.
  - destruct n; simpl; [reflexivity|]. apply IH.
Qed.

Lemma absent_drop (c : ascii) (s : string) (n : nat) :
  ResponseParser.absent c s -> ResponseParser.absent c (Str.drop n s).
Proof. intros H k. rewrite get_drop. apply H. Qed.

Lemma rfind_from_absent (c : ascii) (s : string) :
  ResponseParser.absent c s -> Str.rfind_from (String c EmptyString) s 0 = None.
Proof.
  intros Ha. pose proof (rfind_from_char c s 0) as H.
  destruct (Str.rfind_from (String c EmptyString) s 0) as [m|]; [|reflexivity].
  destruct H as (j & _ & Hj & _). exfalso. exact (Ha j Hj).
Qed.

(** A name without a dot has no suffix. *)
Lemma suffix_without_dot (filename : string) :
  ResponseParser.absent "." filename -> suffix filename = "".
Proof.
  intros Ha. unfold suffix.
  destruct (Str.rfind_from "/" filename 0) as [i|].
  - rewrite (rfind_from_absent "." _ (absent_drop "." filename (S i) Ha)).
    reflexivity.
  - rewrite (rfind_from_absent "." _ Ha). reflexivity.
Qed.
End FileServiceFacts.

(** X1.  [analyze_file] returns exactly for a non-empty name whose extension
    (lower-cased, ".jpg" for a camera capture without one) is allowed and for
    a content of at most 10 MiB; otherwise it raises a ValueError.  The
    FileInfo it returns keeps the name, the size of the content, an allowed
    type and the camera flag. *)
Theorem analyze_file_accepts_exactly_valid_uploads :
  forall (file_content filename : string),
    (returns (FileService.analyze_file file_content filename)
     <-> filename ≠ ""
         /\ FileService.effective_ext filename ∈ FileService.ALLOWED_TYPES
         /\ (N.of_nat (String.length file_content) <= FileService.MAX_FILE_SIZE)%N)
    /\ (returns (FileService.analyze_file file_content filename)
        \/ exists msg,
             FileService.analyze_file file_content filename
             = Raised (mk_exn ValueError msg))
    /\ (forall info,
           FileService.analyze_file file_content filename = Returned info ->
           FileService.filename_of info = filename
           /\ FileService.size_bytes info = N.of_nat (String.length file_content)
           /\ FileService.file_type_of info ∈ FileService.ALLOWED_TYPES
           /\ (FileService.size_bytes info <= FileService.MAX_FILE_SIZE)%N
           /\ FileService.is_camera_capture info
              = Str.startswith "captured_image" filename).
Proof.
  intros content filename.
  pose proof (validate_file_returns_iff filename
                (N.of_nat (String.length content))) as Hiff.
  pose proof (validate_file_outcome filename
                (N.of_nat (String.length content))) as Hout.
  unfold FileService.analyze_file.
  destruct Hout as [Hv|[msg Hv]]; rewrite Hv; simpl.
  - apply Hiff in Hv. split; [|split].
    + split; [intros _; exact Hv|intros _; eexists; reflexivity].
    + left. eexists; reflexivity.
    + intros info [= <-]. simpl. destruct Hv as (_ & H2 & H3). auto.
  - split; [|split].
    + split.
      * intros [a Ha]. discriminate Ha.
      * intros H. apply Hiff in H. rewrite Hv in H. discriminate H.
    + right. eexists; reflexivity.
    + intros info H. discriminate H.
Qed.

(** An upper-case extension is accepted; a name without extension is not. *)
Lemma analyze_file_accepts_exactly_valid_uploads_witness :
  FileService.analyze_file "Invoice INV-001" "scan.PDF"
  = Returned (FileService.mk_FileInfo "scan.PDF" 15 ".pdf" false)
  /\ FileService.file_type_of (FileService.mk_FileInfo "scan.PDF" 15 ".pdf" false)
     ∈ FileService.ALLOWED_TYPES.
Proof.
  assert (H : FileService.analyze_file "Invoice INV-001" "scan.PDF"
              = Returned (FileService.mk_FileInfo "scan.PDF" 15 ".pdf" false))
    by (vm_compute; reflexivity).
  split; [exact H|].
  exact (proj1 (proj2 (proj2 (proj2 (proj2
           (analyze_file_accepts_exactly_valid_uploads "Invoice INV-001" "scan.PDF"))
           _ H)))).
Defined.

(** X2.  A camera capture, a name that starts with "captured_image" and has
    no dot, is analysed as a ".jpg" file, whatever its content of at most
    10 MiB. *)
Theorem camera_capture_is_jpg :
  forall (file_content filename : string),
    Str.startswith "captured_image" filename = true ->
    ResponseParser.absent "." filename ->
    (N.of_nat (String.length file_content) <= FileService.MAX_FILE_SIZE)%N ->
    FileService.analyze_file file_content filename
    = Returned (FileService.mk_FileInfo filename
                  (N.of_nat (String.length file_content)) ".jpg" true).
Proof.
  intros content filename Hstart Hdot Hsize.
  assert (Hext : FileService.effective_ext filename = ".jpg").
  { unfold FileService.effective_ext.
    rewrite (suffix_without_dot filename Hdot), Hstart. reflexivity. }
  assert (Hne : filename ≠ "").
  { intros ->. discriminate Hstart. }
  assert (Hv : FileService.validate_file filename
                 (N.of_nat (String.length content)) = Returned tt).
  { apply validate_file_returns_iff. split; [exact Hne|]. split; [|exact Hsize].
    rewrite Hext. unfold FileService.ALLOWED_TYPES. repeat constructor. }
  unfold FileService.analyze_file. rewrite Hv. simpl.
  rewrite Hext, Hstart. reflexivity.
Qed.

Lemma camera_capture_is_jpg_witness :
  Str.startswith "captured_image" "captured_image_17" = true
  /\ ResponseParser.absent "." "captured_image_17"
  /\ FileService.analyze_file "jpeg bytes" "captured_image_17"
     = Returned (FileService.mk_FileInfo "captured_image_17" 10 ".jpg" true).
Proof.
  assert (H1 : Str.startswith "captured_image" "captured_image_17" = true)
    by reflexivity.
  assert (H2 : ResponseParser.absent "." "captured_image_17").
  { intros k. do 17 (destruct k as [|k]; [discriminate|]). discriminate. }
  assert (H3 : (N.of_nat (String.length "jpeg bytes")
                <= FileService.MAX_FILE_SIZE)%N) by (vm_compute; discriminate).
  split; [exact H1|]. split; [exact H2|].
  exact (camera_capture_is_jpg "jpeg bytes" "captured_image_17" H1 H2 H3).
Defined.

(** ** Text extraction: the dispatch on the extension *)

Section DispatchFacts.
Import Textract.

Lemma allowed_types_cases (file_ext : string) :
  file_ext ∈ FileService.ALLOWED_TYPES <->
  file_ext = ".txt" \/ file_ext = ".pdf" \/ file_ext ∈ image_exts.
Proof.
  unfold FileService.ALLOWED_TYPES, image_exts. split.
  - intros H. repeat (apply elem_of_cons in H as [->|H]); auto.
    + right; right. repeat constructor.
    + right; right. repeat constructor.
    + right; right. repeat constructor.
    + inversion H.
  - intros [->|[->|H]].
    + repeat constructor.
    + repeat constructor.
    + repeat (apply elem_of_cons in H as [->|H]); [..|inversion H];
        repeat constructor.
Qed.

Lemma extract_unsupported (file : file_env) (file_ext : string) :
  file_ext ∉ FileService.ALLOWED_TYPES ->
  extract_text_from_file file file_ext
  = Raised (mk_exn (HTTPException 400) ("Unsupported file type: " ++ file_ext)).
Proof.
  intros Hn. unfold extract_text_from_file.
  destruct (String.eqb_spec file_ext ".txt") as [->|_].
  { exfalso. apply Hn. apply allowed_types_cases. auto. }
  destruct (String.eqb_spec file_ext ".pdf") as [->|_].
  { exfalso. apply Hn. apply allowed_types_cases. auto. }
  rewrite bool_decide_eq_false_2; [reflexivity|].
  intros H. apply Hn. apply allowed_types_cases. auto.
Qed.

Lemma extract_supported_readable (file_ext : string) :
  file_ext ∈ FileService.ALLOWED_TYPES ->
  returns (extract_text_from_file Fixtures.readable_file file_ext).
Proof.
  intros H. apply allowed_types_cases in H as [->|[->|H]].
  - eexists; reflexivity.
  - eexists; reflexivity.
  - rewrite (image_ext_dispatch Fixtures.readable_file file_ext H). eexists; reflexivity.
Qed.

Lemma pdf_text_fold (pages : list string) :
  forall acc,
    fold_left (fun text page => text ++ page ++ PyRepr.nl) pages acc
    = acc ++ String.concat "" (map (fun page => page ++ PyRepr.nl) pages).
Proof.
  assert (Happ_nil : forall s : string, s ++ "" = s).
  { induction s as [|c s IH]; [reflexivity|].
    change (String c (s ++ "") = String c s). f_equal. exact IH. }
  assert (Happ_assoc : forall a b c : string, (a ++ b) ++ c = a ++ (b ++ c)).
  { induction a as [|x a IH]; intros b c; [reflexivity|].
    change (String x ((a ++ b) ++ c) = String x (a ++ (b ++ c))).
    f_equal. apply IH. }
  induction pages as [|p rest IH]; intros acc.
  - cbn [fold_left map String.concat]. symmetry. apply Happ_nil.
  - cbn [fold_left]. rewrite IH.
    destruct rest as [|q rest'].
    + cbn [map String.concat]. rewrite Happ_nil. reflexivity.
    + cbn [map String.concat].
      change ("" ++ ?x) with x.
      rewrite !Happ_assoc. reflexivity.
Qed.
End DispatchFacts.

(** X3.  The extensions file validation allows are exactly the ones text
    extraction has a branch for: an allowed extension never ends in the
    "Unsupported file type" error on a readable file, and every other
    extension ends there whatever the file. *)
Theorem allowed_types_match_extractor (file_ext : string) :
  (file_ext ∈ FileService.ALLOWED_TYPES ->
   returns (Textract.extract_text_from_file Fixtures.readable_file file_ext))
  /\ (file_ext ∉ FileService.ALLOWED_TYPES ->
      forall file,
        Textract.extract_text_from_file file file_ext
        = Raised (mk_exn (HTTPException 400)
                    ("Unsupported file type: " ++ file_ext))).
Proof.
  split.
  - apply extract_supported_readable.
  - intros Hn file. apply (extract_unsupported file file_ext Hn).
Qed.

Lemma allowed_types_match_extractor_witness :
  (".jpeg" ∈ FileService.ALLOWED_TYPES
   /\ returns (Textract.extract_text_from_file Fixtures.readable_file ".jpeg"))
  /\ ((".docx" ∉ FileService.ALLOWED_TYPES)
      /\ Textract.extract_text_from_file Sample.blank_scan ".docx"
         = Raised (mk_exn (HTTPException 400) "Unsupported file type: .docx")).
Proof.
  assert (H1 : ".jpeg" ∈ FileService.ALLOWED_TYPES)
    by (unfold FileService.ALLOWED_TYPES; repeat constructor).
  assert (H2 : ".docx" ∉ FileService.ALLOWED_TYPES) by by_decision.
  split.
  - split; [exact H1|]. exact (proj1 (allowed_types_match_extractor ".jpeg") H1).
  - split; [exact H2|].
    exact (proj2 (allowed_types_match_extractor ".docx") H2 Sample.blank_scan).
Defined.

(** X4.  The text of a PDF is the text of its pages in page order, each
    followed by a newline (the empty string for a PDF without pages); a
    failure of the reader becomes an HTTP 500 error that quotes it. *)
Theorem pdf_text_is_pages_in_order :
  forall (file : Textract.file_env),
    (forall pages,
        Textract.as_pdf file = Textract.PdfPages pages ->
        Textract.extract_text_from_file file ".pdf"
        = Returned (String.concat ""
                      (map (fun page => page ++ PyRepr.nl) pages)))
    /\ (forall msg,
           Textract.as_pdf file = Textract.PdfFailure msg ->
           Textract.extract_text_from_file file ".pdf"
           = Raised (mk_exn (HTTPException 500)
                       ("PDF processing error: " ++ msg))).
Proof.
  intros file. split.
  - intros pages H. unfold Textract.extract_text_from_file. simpl. rewrite H.
    rewrite pdf_text_fold. reflexivity.
  - intros msg H. unfold Textract.extract_text_from_file. simpl. rewrite H.
    reflexivity.
Qed.

Lemma pdf_text_is_pages_in_order_witness :
  Textract.as_pdf
    (Textract.mk_file_env (Returned "") (Textract.PdfPages ["Invoice"; ""; "Total"])
       Textract.OcrImportError)
  = Textract.PdfPages ["Invoice"; ""; "Total"]
  /\ Textract.extract_text_from_file
       (Textract.mk_file_env (Returned "") (Textract.PdfPages ["Invoice"; ""; "Total"])
          Textract.OcrImportError) ".pdf"
     = Returned ("Invoice" ++ PyRepr.nl ++ PyRepr.nl ++ "Total" ++ PyRepr.nl).
Proof.
  split; [reflexivity|].
  exact (proj1 (pdf_text_is_pages_in_order
                  (Textract.mk_file_env (Returned "")
                     (Textract.PdfPages ["Invoice"; ""; "Total"])
                     Textract.OcrImportError))
           ["Invoice"; ""; "Total"] eq_refl).
Defined.



(** ** The scorer: bounds *)

Section ScorerBounds.
Import Scorer.

Lemma clamp01_id (x : Q) : (0 <= x)%Q -> (x <= 1)%Q -> (clamp01 x == x)%Q.
Proof.
  intros H0 H1. unfold clamp01.
  rewrite (Q.max_r 0 x H0). apply Q.min_r. exact H1.
Qed.

Lemma clamp01_below (x c : Q) : (c <= 1)%Q -> (0 < c)%Q -> (c <= clamp01 x)%Q -> (c <= x)%Q.
Proof.
  intros Hc1 Hc0 H. unfold clamp01 in H.
  apply Q.min_glb_r in H. apply Q.max_le in H as [H|H]; [|exact H].
  exfalso. apply (Qlt_not_le _ _ Hc0). exact H.
Qed.

Lemma non_empty_le_size (d : gmap string json) :
  (non_empty_fields d <= size d)%nat.
Proof.
  unfold non_empty_fields, values.
  etransitivity; [apply length_filter|].
  rewrite length_fmap, length_map_to_list. reflexivity.
Qed.

Lemma Qnat_le (a b : nat) : (a <= b)%nat -> (Qnat a <= Qnat b)%Q.
Proof.
  intros H. unfold Qnat. rewrite <- Zle_Qle. lia.
Qed.

Lemma Qnat_pos (a : nat) : (0 < a)%nat -> (0 < Qnat a)%Q.
Proof.
  intros H. unfold Qnat. change 0%Q with (inject_Z 0). rewrite <- Zlt_Qlt. lia.
Qed.

Lemma completeness_bounds (d : gmap string json) :
  (0 <= completeness d)%Q /\ (completeness d <= 1)%Q.
Proof.
  unfold completeness. destruct (bool_decide _) eqn:E.
  - split; [unfold Qle; simpl; lia|unfold Qle; simpl; lia].
  - apply bool_decide_eq_false in E.
    assert (Hne : d ≠ ∅) by (intros ->; apply E; left; reflexivity).
    pose proof (Qnat_pos _ (size_pos_of_nonempty d Hne)) as Hpos.
    split.
    + apply Qle_shift_div_l; [exact Hpos|].
      rewrite Qmult_0_l. apply (Qnat_le 0). lia.
    + apply Qle_shift_div_r; [exact Hpos|].
      rewrite Qmult_1_l. apply Qnat_le, non_empty_le_size.
Qed.

Lemma unclipped_confidence (ml : Q) (d : gmap string json) :
  (0 <= ml)%Q -> (ml <= 1)%Q ->
  (_calculate_confidence ml d == 0.4 * ml + 0.6 * completeness d)%Q.
Proof.
  intros H0 H1. destruct (completeness_bounds d) as [Hc0 Hc1].
  unfold _calculate_confidence.
  rewrite (data_completeness_is_completeness d).
  fold (clamp01 (ml * 0.4 + completeness d * 0.6)).
  rewrite clamp01_id; lra.
Qed.

Lemma failed_extraction_facts (ml : Q) (d : gmap string json) :
  "error" ∈ dom d -> (0 <= ml)%Q -> (ml <= 1)%Q ->
  (_calculate_confidence ml d == 0.4 * ml + 0.3)%Q
  /\ (forall threshold,
         _get_confidence_level threshold (_calculate_confidence ml d) ≠ HIGH).
Proof.
  intros Herr H0 H1.
  assert (Hc : (completeness d == 0.5)%Q).
  { unfold completeness.
    rewrite bool_decide_eq_true_2 by (right; exact Herr). reflexivity. }
  assert (E : (_calculate_confidence ml d == 0.4 * ml + 0.3)%Q).
  { rewrite (unclipped_confidence ml d H0 H1), Hc. lra. }
  split; [exact E|].
  intros threshold. unfold _get_confidence_level.
  destruct (Qle_bool 0.8 _) eqn:Hb.
  - apply Qle_bool_iff in Hb. rewrite E in Hb. lra.
  - destruct (Qle_bool threshold _); discriminate.
Qed.
End ScorerBounds.

(** X6.  Completeness lies in the unit interval, so for a classifier
    confidence in the unit interval the clipping never acts: the overall
    confidence is the weighted sum itself, between 0.4 ml and 0.4 ml + 0.6. *)
Theorem confidence_needs_no_clipping :
  forall (ml_confidence : Q) (extracted_data : gmap string json),
    (0 <= ml_confidence)%Q -> (ml_confidence <= 1)%Q ->
    (0 <= Scorer.completeness extracted_data)%Q
    /\ (Scorer.completeness extracted_data <= 1)%Q
    /\ (Scorer._calculate_confidence ml_confidence extracted_data
        == 0.4 * ml_confidence + 0.6 * Scorer.completeness extracted_data)%Q
    /\ (0.4 * ml_confidence
        <= Scorer._calculate_confidence ml_confidence extracted_data)%Q
    /\ (Scorer._calculate_confidence ml_confidence extracted_data
        <= 0.4 * ml_confidence + 0.6)%Q.
Proof.
  intros ml d H0 H1.
  destruct (completeness_bounds d) as [Hc0 Hc1].
  pose proof (unclipped_confidence ml d H0 H1) as E.
  split; [exact Hc0|]. split; [exact Hc1|]. split; [exact E|].
  rewrite E. split; lra.
Qed.

Lemma confidence_needs_no_clipping_witness :
  (0 <= 0.9)%Q /\ (0.9 <= 1)%Q
  /\ (Scorer._calculate_confidence 0.9 Sample.data_with_raw_key
      == 0.4 * 0.9 + 0.6 * Scorer.completeness Sample.data_with_raw_key)%Q.
Proof.
  assert (H0 : (0 <= 0.9)%Q) by (unfold Qle; simpl; lia).
  assert (H1 : (0.9 <= 1)%Q) by (unfold Qle; simpl; lia).
  split; [exact H0|]. split; [exact H1|].
  exact (proj1 (proj2 (proj2 (confidence_needs_no_clipping 0.9
                                Sample.data_with_raw_key H0 H1)))).
Defined.



(** X8.  With a classifier confidence of at most 1, a result is rated high
    only when at least two thirds of its fields are filled: the classifier
    alone cannot lift a result to high. *)
Theorem high_needs_two_thirds_filled :
  forall (threshold ml_confidence : Q) (extracted_data : gmap string json),
    (ml_confidence <= 1)%Q ->
    Scorer._get_confidence_level threshold
      (Scorer._calculate_confidence ml_confidence extracted_data) = HIGH ->
    (2 # 3 <= Scorer.completeness extracted_data)%Q.
Proof.
  intros threshold ml d H1 Hhigh.
  unfold Scorer._get_confidence_level in Hhigh.
  destruct (Qle_bool 0.8 _) eqn:Hb.
  - apply Qle_bool_iff in Hb. unfold Scorer._calculate_confidence in Hb.
    rewrite (data_completeness_is_completeness d) in Hb.
    fold (Scorer.clamp01 (ml * 0.4 + Scorer.completeness d * 0.6)) in Hb.
    apply clamp01_below in Hb; lra.
  - destruct (Qle_bool threshold _); discriminate.
Qed.

Lemma high_needs_two_thirds_filled_witness :
  (1 <= 1)%Q
  /\ Scorer._get_confidence_level Scorer.default_threshold
       (Scorer._calculate_confidence 1
          {[ "vendor_name" := JStr "Acme"; "total" := JInt 12; "date" := JNull ]})
     = HIGH
  /\ (2 # 3 <= Scorer.completeness
                 {[ "vendor_name" := JStr "Acme"; "total" := JInt 12;
                    "date" := JNull ]})%Q.
Proof.
  assert (H1 : (1 <= 1)%Q) by (unfold Qle; simpl; lia).
  assert (H2 : Scorer._get_confidence_level Scorer.default_threshold
       (Scorer._calculate_confidence 1
          {[ "vendor_name" := JStr "Acme"; "total" := JInt 12; "date" := JNull ]})
     = HIGH) by (vm_compute; reflexivity).
  split; [exact H1|]. split; [exact H2|].
  exact (high_needs_two_thirds_filled Scorer.default_threshold 1 _ H1 H2).
Defined.

(** ** Post-processing and the pipeline *)

Section PipelineFacts.
Import PostProcess.

Variable loads : string -> option json.
Variable to_str : json -> string.

Lemma process_field_no_array (d : gmap string json) (field : string) :
  (forall raw, d !! field = Some (JStr raw) -> Regex.search_bracketed raw = None) ->
  process_field loads to_str d field = d.
Proof.
  intros H. unfold process_field.
  destruct (d !! field) as [[| | | |raw| |]|]; try reflexivity.
  rewrite (H raw eq_refl). reflexivity.
Qed.

Lemma fold_no_array (fields : list string) (d : gmap string json) :
  (forall field raw,
      field ∈ fields -> d !! field = Some (JStr raw) ->
      Regex.search_bracketed raw = None) ->
  fold_left (process_field loads to_str) fields d = d.
Proof.
  induction fields as [|f rest IH]; intros H; [reflexivity|].
  simpl. rewrite process_field_no_array.
  - apply IH. intros field raw Hin. apply H. constructor. exact Hin.
  - intros raw. apply H. constructor.
Qed.

Lemma post_process_keeps_error (d : gmap string json) :
  "error" ∈ dom d -> "error" ∈ dom (_post_process_extracted_data loads to_str d).
Proof.
  intros H. apply elem_of_dom. apply elem_of_dom in H.
  unfold _post_process_extracted_data. apply fold_keeps. exact H.
Qed.
End PipelineFacts.

(** X9.  Post-processing returns the mapping as it is when no list-like
    field holds a string with a bracketed part on one line: fields that are
    absent, not strings, or plain text are not rewritten. *)
Theorem post_process_identity_without_arrays :
  forall (loads : string -> option json) (to_str : json -> string)
         (extracted_data : gmap string json),
    (forall field raw_value,
        field ∈ PostProcess.item_fields ->
        extracted_data !! field = Some (JStr raw_value) ->
        Regex.search_bracketed raw_value = None) ->
    PostProcess._post_process_extracted_data loads to_str extracted_data
    = extracted_data.
Proof.
  intros loads to_str d H. unfold PostProcess._post_process_extracted_data.
  apply fold_no_array. exact H.
Qed.

Lemma post_process_identity_without_arrays_witness :
  (forall field raw_value,
      field ∈ PostProcess.item_fields ->
      ({[ "vendor_name" := JStr "Acme"; "items" := JStr "tea, milk";
          "products" := JInt 3 ]} : gmap string json) !! field
      = Some (JStr raw_value) ->
      Regex.search_bracketed raw_value = None)
  /\ PostProcess._post_process_extracted_data JsonDecoder.json_loads PyRepr.py_str
       {[ "vendor_name" := JStr "Acme"; "items" := JStr "tea, milk";
          "products" := JInt 3 ]}
     = {[ "vendor_name" := JStr "Acme"; "items" := JStr "tea, milk";
          "products" := JInt 3 ]}.
Proof.
  assert (H : forall field raw_value,
      field ∈ PostProcess.item_fields ->
      ({[ "vendor_name" := JStr "Acme"; "items" := JStr "tea, milk";
          "products" := JInt 3 ]} : gmap string json) !! field
      = Some (JStr raw_value) ->
      Regex.search_bracketed raw_value = None).
  { intros field raw Hin. unfold PostProcess.item_fields in Hin.
    repeat (apply elem_of_cons in Hin as [->|Hin]); [..|inversion Hin];
      vm_compute; intros [= <-]; reflexivity || discriminate. }
  split; [exact H|].
  exact (post_process_identity_without_arrays JsonDecoder.json_loads
           PyRepr.py_str _ H).
Defined.

(** X10.  When the adapters answer with data that hold the key "error", as
    they do after a failed call, the pipeline still assembles a result: the
    key "error" is still there after post-processing, the overall confidence
    is 0.4 ml + 0.3 and the level is not high. *)
Theorem process_document_after_failed_extraction :
  forall classify ollama huggingface gpt4 loads to_str
         (self : Backend.processor) (text : string),
    "error" ∈ dom (ollama text (classify text).1) ->
    "error" ∈ dom (huggingface text (classify text).1) ->
    "error" ∈ dom (gpt4 text (classify text).1) ->
    (0 <= (classify text).2)%Q -> ((classify text).2 <= 1)%Q ->
    let result :=
      Pipeline.process_document classify ollama huggingface gpt4 loads to_str
        self text in
    "error" ∈ dom (Pipeline.extracted_data result)
    /\ (Pipeline.overall_confidence result == 0.4 * (classify text).2 + 0.3)%Q
    /\ Pipeline.confidence_level result ≠ "high".
Proof.
  intros classify ollama huggingface gpt4 loads to_str self text Ho Hh Hg H0 H1.
  unfold Pipeline.process_document.
  destruct (classify text) as [doc_type ml] eqn:Hc. simpl in *.
  set (d := if String.eqb (Backend.extraction_method self) "ollama"
            then ollama text doc_type
            else if String.eqb (Backend.extraction_method self) "huggingface"
            then huggingface text doc_type
            else if String.eqb (Backend.extraction_method self) "openai"
            then gpt4 text doc_type
            else {[ "error" := JStr "No extraction method available" ]}).
  assert (Hd : "error" ∈ dom d).
  { unfold d. repeat (destruct (String.eqb _ _); [assumption|]).
    apply elem_of_dom. rewrite lookup_singleton_eq. eauto. }
  pose proof (post_process_keeps_error loads to_str d Hd) as Hpost.
  destruct (failed_extraction_facts ml _ Hpost H0 H1) as (E & Hhigh).
  split; [exact Hpost|]. split; [exact E|].
  specialize (Hhigh (Backend.threshold self)).
  destruct (Scorer._get_confidence_level _ _); simpl; congruence.
Qed.

Lemma process_document_after_failed_extraction_witness :
  "error" ∈ dom (Fixtures.failing_adapter "Invoice" (Sample.classifier "Invoice").1)
  /\ (0 <= (Sample.classifier "Invoice").2)%Q
  /\ ((Sample.classifier "Invoice").2 <= 1)%Q
  /\ (Pipeline.overall_confidence
        (Pipeline.process_document Sample.classifier Fixtures.failing_adapter
           Fixtures.failing_adapter Fixtures.failing_adapter
           JsonDecoder.json_loads PyRepr.py_str Sample.processor "Invoice")
      == 0.4 * (Sample.classifier "Invoice").2 + 0.3)%Q.
Proof.
  assert (He : "error" ∈ dom (Fixtures.failing_adapter "Invoice"
                                (Sample.classifier "Invoice").1)) by by_decision.
  assert (H0 : (0 <= (Sample.classifier "Invoice").2)%Q)
    by (unfold Qle; simpl; lia).
  assert (H1 : ((Sample.classifier "Invoice").2 <= 1)%Q)
    by (unfold Qle; simpl; lia).
  split; [exact He|]. split; [exact H0|]. split; [exact H1|].
  exact (proj1 (proj2 (process_document_after_failed_extraction
                         Sample.classifier Fixtures.failing_adapter
                         Fixtures.failing_adapter Fixtures.failing_adapter
                         JsonDecoder.json_loads PyRepr.py_str Sample.processor
                         "Invoice" He He He H0 H1))).
Defined.

Section ConstructedProcessorFacts.

Lemma constructed_method (e : Backend.env) (self : Backend.processor) :
  Backend.__init__ e = Returned self ->
  (Backend.ollama_answer e = true /\ Backend.extraction_method self = "ollama")
  \/ (Backend.ollama_answer e = false /\ Backend.huggingface_answer e = true
      /\ Backend.extraction_method self = "huggingface")
  \/ (Backend.ollama_answer e = false /\ Backend.huggingface_answer e = false
      /\ Backend.openai_answer e = true
      /\ Backend.extraction_method self = "openai").
Proof.
  rewrite init_by_cases. unfold Backend.first_answering.
  destruct (Backend.ollama_answer e).
  { intros [= <-]. left. auto. }
  destruct (Backend.huggingface_answer e).
  { intros [= <-]. right; left. auto. }
  destruct (Backend.openai_answer e).
  { intros [= <-]. right; right. auto. }
  discriminate.
Qed.

Lemma constructed_threshold (e : Backend.env) (self : Backend.processor) :
  Backend.__init__ e = Returned self ->
  Backend.threshold self = Backend.CONFIDENCE_THRESHOLD e.
Proof.
  rewrite init_by_cases.
  destruct (Backend.first_answering e) as [[m ps]|]; [|discriminate].
  intros [= <-]. reflexivity.
Qed.

Lemma level_round_trip (l : ConfidenceLevel) :
  Models.ConfidenceLevel_of (ConfidenceLevel_value l) = Some l.
Proof. destruct l; reflexivity. Qed.

Lemma calculate_confidence_in_unit_interval (ml : Q) (d : gmap string json) :
  Models.in_unit_interval (Scorer._calculate_confidence ml d) = true.
Proof.
  unfold Models.in_unit_interval.
  fold (Scorer.clamp01 (ml * 0.4 + Scorer.data_completeness d * 0.6)).
  destruct (clamp01_bounds (ml * 0.4 + Scorer.data_completeness d * 0.6))
    as [H0 H1].
  apply andb_true_intro. split; apply Qle_bool_iff; assumption.
Qed.
End ConstructedProcessorFacts.

(** X11.  A processor that came out of the constructor sends every document
    to the adapter of the backend it locked, the first one that answered,
    and to no other; the branch "No extraction method available" of the
    pipeline is never taken. *)
Theorem constructed_processor_dispatch :
  forall (e : Backend.env) (self : Backend.processor)
         classify ollama huggingface gpt4 loads to_str (text : string),
    Backend.__init__ e = Returned self ->
    Pipeline.extracted_data
      (Pipeline.process_document classify ollama huggingface gpt4 loads to_str
         self text)
    = PostProcess._post_process_extracted_data loads to_str
        ((if Backend.ollama_answer e then ollama
          else if Backend.huggingface_answer e then huggingface
          else gpt4) text (classify text).1).
Proof.
  intros e self classify ollama huggingface gpt4 loads to_str text Hinit.
  unfold Pipeline.process_document.
  destruct (classify text) as [doc_type ml]. simpl.
  destruct (constructed_method e self Hinit)
    as [(-> & ->)|[(-> & -> & ->)|(-> & -> & _ & ->)]]; reflexivity.
Qed.

Lemma constructed_processor_dispatch_witness :
  Backend.__init__ Fixtures.only_huggingface
  = Returned (Backend.mk_processor "huggingface"
                [Backend.ProbeOllama; Backend.ProbeHuggingface]
                Scorer.default_threshold)
  /\ Pipeline.extracted_data
       (Pipeline.process_document Sample.classifier Fixtures.failing_adapter
          Sample.adapter Fixtures.failing_adapter JsonDecoder.json_loads
          PyRepr.py_str
          (Backend.mk_processor "huggingface"
             [Backend.ProbeOllama; Backend.ProbeHuggingface]
             Scorer.default_threshold) "Invoice")
     = PostProcess._post_process_extracted_data JsonDecoder.json_loads
         PyRepr.py_str (Sample.adapter "Invoice" "invoice").
Proof.
  assert (H : Backend.__init__ Fixtures.only_huggingface
              = Returned (Backend.mk_processor "huggingface"
                            [Backend.ProbeOllama; Backend.ProbeHuggingface]
                            Scorer.default_threshold)) by reflexivity.
  split; [exact H|].
  exact (constructed_processor_dispatch Fixtures.only_huggingface _
           Sample.classifier Fixtures.failing_adapter Sample.adapter
           Fixtures.failing_adapter JsonDecoder.json_loads PyRepr.py_str
           "Invoice" H).
Defined.

(** X12.  For a constructed processor, a classifier label that names a
    document type and a classifier confidence in the unit interval, the
    conversion of the pipeline's dictionary into a [ProcessingResult] passes
    validation: the record carries that document type, the locked backend, an
    overall confidence in the unit interval, and asks for review exactly when
    its level is low.  A label that names no document type makes the
    conversion raise a ValueError. *)
Theorem pipeline_result_passes_validation :
  forall (e : Backend.env) (self : Backend.processor)
         classify ollama huggingface gpt4 loads to_str
         (model_display_name processing_time text : string)
         (file_info : FileService.FileInfo),
    Backend.__init__ e = Returned self ->
    (0 <= (classify text).2)%Q -> ((classify text).2 <= 1)%Q ->
    let raw :=
      Pipeline.process_document classify ollama huggingface gpt4 loads to_str
        self text in
    (forall doc_type,
        Models.DocumentType_of (classify text).1 = Some doc_type ->
        exists result,
          DocumentService._convert_to_processing_result model_display_name
            processing_time raw file_info = Returned result
          /\ Models.document_type result = doc_type
          /\ ExtractionMethod_value (Models.extraction_method result)
             = Backend.extraction_method self
          /\ Models.confidence_level result
             = Scorer._get_confidence_level (Backend.CONFIDENCE_THRESHOLD e)
                 (Models.overall_confidence result)
          /\ (0 <= Models.overall_confidence result)%Q
          /\ (Models.overall_confidence result <= 1)%Q
          /\ (Models.needs_human_review result = true
              <-> Models.confidence_level result = LOW)
          /\ Models.uploaded_file result
             = Some (FileService.filename_of file_info))
    /\ (Models.DocumentType_of (classify text).1 = None ->
        exists msg,
          DocumentService._convert_to_processing_result model_display_name
            processing_time raw file_info = Raised (mk_exn ValueError msg)).
Proof.
  intros e self classify ollama huggingface gpt4 loads to_str name time text
    info Hinit H0 H1 raw.
  unfold raw, DocumentService._convert_to_processing_result,
    Pipeline.process_document.
  destruct (classify text) as [label ml]. simpl in *.
  rewrite (constructed_threshold e self Hinit).
  split.
  - intros doc_type ->. unfold Models.new_ProcessingResult.
    assert (Hml : Models.in_unit_interval ml = true).
    { unfold Models.in_unit_interval. apply andb_true_intro.
      split; apply Qle_bool_iff; assumption. }
    rewrite Hml, calculate_confidence_in_unit_interval, level_round_trip. simpl.
    match goal with
    | |- context [Scorer._calculate_confidence ml ?d] =>
        set (score := Scorer._calculate_confidence ml d)
    end.
    assert (Hb : (0 <= score)%Q /\ (score <= 1)%Q).
    { unfold score, Scorer._calculate_confidence. apply clamp01_bounds. }
    destruct (constructed_method e self Hinit)
      as [(_ & Hm)|[(_ & _ & Hm)|(_ & _ & _ & Hm)]]; rewrite Hm; simpl;
      (eexists; split; [reflexivity|]; simpl;
       repeat (split; [first [reflexivity | apply Hb]|]);
       split; [apply level_eqb_low|reflexivity]).
  - intros ->. eexists. reflexivity.
Qed.

Lemma pipeline_result_passes_validation_witness :
  Backend.__init__ Fixtures.only_huggingface
  = Returned (Backend.mk_processor "huggingface"
                [Backend.ProbeOllama; Backend.ProbeHuggingface]
                Scorer.default_threshold)
  /\ (0 <= (Sample.classifier "Invoice").2)%Q
  /\ ((Sample.classifier "Invoice").2 <= 1)%Q
  /\ Models.DocumentType_of (Sample.classifier "Invoice").1 = Some INVOICE
  /\ exists result,
       DocumentService._convert_to_processing_result "DialoGPT Small" "0.42s"
         (Pipeline.process_document Sample.classifier Sample.adapter
            Sample.adapter Sample.adapter JsonDecoder.json_loads PyRepr.py_str
            (Backend.mk_processor "huggingface"
               [Backend.ProbeOllama; Backend.ProbeHuggingface]
               Scorer.default_threshold) "Invoice")
         Fixtures.txt_info = Returned result
       /\ Models.document_type result = INVOICE.
Proof.
  assert (Hi : Backend.__init__ Fixtures.only_huggingface
              = Returned (Backend.mk_processor "huggingface"
                            [Backend.ProbeOllama; Backend.ProbeHuggingface]
                            Scorer.default_threshold)) by reflexivity.
  assert (H0 : (0 <= (Sample.classifier "Invoice").2)%Q)
    by (unfold Qle; simpl; lia).
  assert (H1 : ((Sample.classifier "Invoice").2 <= 1)%Q)
    by (unfold Qle; simpl; lia).
  assert (Hd : Models.DocumentType_of (Sample.classifier "Invoice").1
               = Some INVOICE) by reflexivity.
  split; [exact Hi|]. split; [exact H0|]. split; [exact H1|]. split; [exact Hd|].
  destruct (proj1 (pipeline_result_passes_validation Fixtures.only_huggingface _
                     Sample.classifier Sample.adapter Sample.adapter
                     Sample.adapter JsonDecoder.json_loads PyRepr.py_str
                     "DialoGPT Small" "0.42s" "Invoice" Fixtures.txt_info
                     Hi H0 H1) INVOICE Hd) as (result & Hr & Ht & _).
  exists result. split; [exact Hr|exact Ht].
Defined.

(** ** Batches *)

Section BatchSuccessFacts.
Import Models DocumentService.

Variable save_temp_file : string -> string -> outcome unit.
Variable extract_text : string -> string -> outcome string.
Variable process_document : string -> Pipeline.raw_result.
Variable model_display_name processing_time : string.
Variable assign_batch_index : outcome unit.

Let single :=
  process_single_document save_temp_file extract_text process_document
    model_display_name processing_time.
Let loop :=
  batch_loop save_temp_file extract_text process_document
    model_display_name processing_time assign_batch_index.

Lemma batch_loop_all_return (files_data : list (string * string)) :
  forall results i acc,
    Forall2 (fun cf r => single cf.1 cf.2 = Returned r) files_data results ->
    (files_data = [] \/ assign_batch_index = Returned tt) ->
    loop i files_data acc = Returned (acc ++ results)%list.
Proof.
  induction files_data as [|[content filename] rest IH];
    intros results i acc Hall Hassign.
  - inversion Hall; subst. simpl. rewrite List.app_nil_r. reflexivity.
  - inversion Hall as [|? r ? results' Hhd Htl]; subst. simpl in Hhd.
    destruct Hassign as [Hnil|Ha]; [discriminate|].
    simpl. fold single. rewrite Hhd. simpl. rewrite Ha. simpl.
    fold loop. rewrite (IH results' (S i) (acc ++ [r])%list Htl).
    + rewrite <- List.app_assoc. reflexivity.
    + right. exact Ha.
Qed.

Lemma all_return_or_one_raises (files_data : list (string * string)) :
  Forall (fun cf => returns (single cf.1 cf.2)) files_data
  \/ Exists (fun cf => ~ returns (single cf.1 cf.2)) files_data.
Proof.
  induction files_data as [|[content filename] rest IH]; [left; constructor|].
  destruct (single content filename) as [r|e] eqn:Hs.
  - destruct IH as [IH|IH].
    + left. constructor; [simpl; rewrite Hs; eexists; reflexivity|exact IH].
    + right. apply Exists_cons_tl. exact IH.
  - right. apply Exists_cons_hd. simpl. rewrite Hs. intros [a Ha]. discriminate.
Qed.

Lemma error_partition (results : list ProcessingResult) :
  (length (filter (fun r => has_error r = false) results)
   + length (filter (fun r => has_error r = true) results))%nat
  = length results.
Proof.
  induction results as [|r rest IH]; [reflexivity|].
  rewrite !filter_cons. destruct (has_error r) eqn:E.
  - destruct (decide (true = false)) as [H|_]; [discriminate|].
    destruct (decide (true = true)) as [_|H]; [|contradiction].
    simpl. lia.
  - destruct (decide (false = false)) as [_|H]; [|contradiction].
    destruct (decide (false = true)) as [H|_]; [discriminate|].
    simpl. lia.
Qed.
End BatchSuccessFacts.

(** X13.  [process_batch_documents] returns only when every document of the
    batch was processed without raising.  When all are, and the result
    object takes the assignment of [batch_index], it returns their results
    in the order of the input, with total_documents the number of inputs and
    successful + failed equal to it. *)
Theorem batch_returns_results_in_order :
  forall save_temp_file extract_text process_document model_display_name
         processing_time assign_batch_index
         (files_data : list (string * string)),
    let single :=
      DocumentService.process_single_document save_temp_file extract_text
        process_document model_display_name processing_time in
    let batch :=
      DocumentService.process_batch_documents save_temp_file extract_text
        process_document model_display_name processing_time
        assign_batch_index files_data in
    (returns batch -> Forall (fun cf => returns (single cf.1 cf.2)) files_data)
    /\ (forall results,
           Forall2 (fun cf r => single cf.1 cf.2 = Returned r) files_data results ->
           files_data = [] \/ assign_batch_index = Returned tt ->
           exists b,
             batch = Returned b
             /\ Models.results b = results
             /\ Models.total_documents b = length files_data
             /\ (Models.successful b + Models.failed b)%nat = length files_data
             /\ Models.failed b
                = length (filter (fun r => DocumentService.has_error r = true)
                            results)).
Proof.
  intros save extract process name time assign files single batch. split.
  - intros [b Hb].
    destruct (all_return_or_one_raises save extract process name time files)
      as [H|H]; [exact H|].
    unfold batch, DocumentService.process_batch_documents in Hb.
    rewrite (batch_loop_aborts save extract process name time assign files
               0 [] H) in Hb.
    discriminate Hb.
  - intros results Hall Hassign.
    unfold batch, DocumentService.process_batch_documents.
    rewrite (batch_loop_all_return save extract process name time assign files
               results 0 [] Hall Hassign).
    simpl. eexists. split; [reflexivity|]. simpl.
    split; [reflexivity|]. split; [reflexivity|]. split; [|reflexivity].
    rewrite error_partition. symmetry. exact (Forall2_length _ _ _ Hall).
Qed.

Lemma batch_returns_results_in_order_witness :
  exists b,
    DocumentService.process_batch_documents Sample.save_temp_file
      Sample.extract_text Sample.process_document "Llama 2" "0.42s"
      (Returned tt) Fixtures.two_texts = Returned b
    /\ Models.total_documents b = 2%nat
    /\ (Models.successful b + Models.failed b)%nat = 2%nat.
Proof.
  assert (E1 : returns (DocumentService.process_single_document
                          Sample.save_temp_file Sample.extract_text
                          Sample.process_document "Llama 2" "0.42s"
                          "Invoice INV-001 Total $1500" "invoice.txt"))
    by (eexists; vm_compute; reflexivity).
  assert (E2 : returns (DocumentService.process_single_document
                          Sample.save_temp_file Sample.extract_text
                          Sample.process_document "Llama 2" "0.42s"
                          "Receipt Total $15.67" "receipt.txt"))
    by (eexists; vm_compute; reflexivity).
  destruct E1 as [r1 E1]. destruct E2 as [r2 E2].
  assert (HF : Forall2
                 (fun cf r =>
                    DocumentService.process_single_document
                      Sample.save_temp_file Sample.extract_text
                      Sample.process_document "Llama 2" "0.42s" cf.1 cf.2
                    = Returned r) Fixtures.two_texts [r1; r2]).
  { unfold Fixtures.two_texts. repeat constructor; assumption. }
  destruct (proj2 (batch_returns_results_in_order Sample.save_temp_file
                     Sample.extract_text Sample.process_document "Llama 2"
                     "0.42s" (Returned tt) Fixtures.two_texts)
              [r1; r2] HF (or_intror eq_refl))
    as (b & Hb & _ & Ht & Hs & _).
  exists b. split; [exact Hb|]. split; [exact Ht|exact Hs].
Defined.

(** X14.  [format_for_pipeline] never returns: it builds the
    [ProcessingMetadata] without the required field processing_time, so the
    model class rejects it for every result. *)
Theorem format_for_pipeline_always_raises :
  forall (uuid1 uuid2 now : string) (result : Models.ProcessingResult),
    ~ returns (PipelineModels.format_for_pipeline uuid1 uuid2 now result)
    /\ exists msg,
         PipelineModels.format_for_pipeline uuid1 uuid2 now result
         = Raised (mk_exn ValidationError msg).
Proof.
  intros uuid1 uuid2 now result. split.
  - intros [pd H]. discriminate H.
  - eexists. reflexivity.
Qed.

Section BackendBatchFacts.
Import Models BackendDocumentService.

Variable quick_scan : string -> string -> outcome ProcessingResult.
Variable storage : ServiceManager.StorageClient.
Variable new_document_id : nat -> string.
Variable has_batch_index : bool.
Variable assign_batch_index : outcome unit.

Let scan_loop := quick_scan_loop quick_scan has_batch_index assign_batch_index.
Let tag := tag_batch_index has_batch_index assign_batch_index.
Let entry_of (i : nat) (cf : string * string) : workflow_entry :=
  match document_workflow quick_scan storage new_document_id i cf.1 cf.2 with
  | Returned (document_id, processing_result, location, url) =>
      StoredEntry document_id processing_result location url i
  | Raised e => ErrorEntry i cf.2 (exn_message e)
  end.

Lemma quick_scan_loop_aborts (files_data : list (string * string)) :
  forall i acc,
    Exists (fun cf => ~ returns (quick_scan cf.1 cf.2)) files_data ->
    scan_loop i files_data acc = Raised (validation_error "extraction_method").
Proof.
  induction files_data as [|[content filename] rest IH]; intros i acc Hex.
  - inversion Hex.
  - simpl. destruct (quick_scan content filename) as [r|e] eqn:Hs; simpl.
    + destruct (tag_batch_index has_batch_index assign_batch_index) as [[]|e'];
        simpl; [|reflexivity].
      apply IH. inversion Hex as [? ? Hhd|? ? Htl]; subst; [|exact Htl].
      exfalso. apply Hhd. simpl. rewrite Hs. eexists; reflexivity.
    + reflexivity.
Qed.

Lemma quick_scan_loop_all_return (files_data : list (string * string)) :
  forall results i acc,
    Forall2 (fun cf r => quick_scan cf.1 cf.2 = Returned r) files_data results ->
    (files_data = [] \/ tag = Returned tt) ->
    scan_loop i files_data acc = Returned (acc ++ results)%list.
Proof.
  induction files_data as [|[content filename] rest IH];
    intros results i acc Hall Htag.
  - inversion Hall; subst. simpl. rewrite List.app_nil_r. reflexivity.
  - inversion Hall as [|? r ? results' Hhd Htl]; subst. simpl in Hhd.
    destruct Htag as [Hnil|Ht]; [discriminate|].
    simpl. rewrite Hhd. simpl. fold tag. rewrite Ht. simpl.
    fold scan_loop. rewrite (IH results' (S i) (acc ++ [r])%list Htl).
    + rewrite <- List.app_assoc. reflexivity.
    + right. exact Ht.
Qed.

Lemma workflow_loop_entries (files_data : list (string * string)) :
  forall i acc,
    workflow_loop quick_scan storage new_document_id i files_data acc
    = (acc ++ imap (fun j cf => entry_of (i + j) cf) files_data)%list.
Proof.
  induction files_data as [|[content filename] rest IH]; intros i acc.
  - simpl. rewrite List.app_nil_r. reflexivity.
  - cbn [workflow_loop imap]. rewrite IH, <- List.app_assoc. simpl.
    f_equal. f_equal.
    + unfold entry_of. simpl. rewrite Nat.add_0_r. reflexivity.
    + apply imap_ext. intros j cf _. simpl. f_equal. lia.
Qed.

Lemma entry_of_index (i : nat) (cf : string * string) :
  entry_index (entry_of i cf) = i.
Proof.
  unfold entry_of.
  destruct (document_workflow _ _ _ _ _ _) as [[[[? ?] ?] ?]|?]; reflexivity.
Qed.

Lemma entry_of_error (i : nat) (cf : string * string) :
  has_error_key (entry_of i cf) = true <-> ~ returns (quick_scan cf.1 cf.2).
Proof.
  unfold entry_of, document_workflow.
  destruct (quick_scan cf.1 cf.2) as [r|e]; simpl.
  - split; [discriminate|]. intros H. exfalso. apply H. eexists; reflexivity.
  - split; [|reflexivity]. intros _ [a Ha]. discriminate.
Qed.

Lemma entry_partition (results : list workflow_entry) :
  (length (filter (fun r => has_error_key r = false) results)
   + length (filter (fun r => has_error_key r = true) results))%nat
  = length results.
Proof.
  induction results as [|r rest IH]; [reflexivity|].
  rewrite !filter_cons. destruct (has_error_key r) eqn:E.
  - destruct (decide (true = false)) as [H|_]; [discriminate|].
    destruct (decide (true = true)) as [_|H]; [|contradiction].
    simpl. lia.
  - destruct (decide (false = false)) as [_|H]; [|contradiction].
    destruct (decide (false = true)) as [H|_]; [discriminate|].
    simpl. lia.
Qed.
End BackendBatchFacts.

(** X15.  [batch_quick_scan] of the backend service behaves like the batch
    of the older service: one document that raises makes the whole batch
    raise the validation error of the handler's own result, and a batch
    whose documents all pass returns their results in order with successful
    + failed equal to the number of inputs. *)
Theorem batch_quick_scan_all_or_nothing :
  forall (quick_scan : string -> string -> outcome Models.ProcessingResult)
         (has_batch_index : bool) (assign_batch_index : outcome unit)
         (files_data : list (string * string)),
    let batch :=
      BackendDocumentService.batch_quick_scan quick_scan has_batch_index
        assign_batch_index files_data in
    (Exists (fun cf => ~ returns (quick_scan cf.1 cf.2)) files_data ->
     batch = Raised (Models.validation_error "extraction_method"))
    /\ (forall results,
           Forall2 (fun cf r => quick_scan cf.1 cf.2 = Returned r)
             files_data results ->
           has_batch_index = false \/ assign_batch_index = Returned tt ->
           exists b,
             batch = Returned b
             /\ Models.results b = results
             /\ Models.total_documents b = length files_data
             /\ (Models.successful b + Models.failed b)%nat = length files_data).
Proof.
  intros quick_scan has_index assign files batch. split.
  - intros Hex. unfold batch, BackendDocumentService.batch_quick_scan.
    rewrite (quick_scan_loop_aborts quick_scan has_index assign files 0 [] Hex).
    reflexivity.
  - intros results Hall Htag.
    assert (Ht : BackendDocumentService.tag_batch_index has_index assign
                 = Returned tt).
    { unfold BackendDocumentService.tag_batch_index.
      destruct Htag as [-> | ->]; [reflexivity|].
      destruct has_index; reflexivity. }
    unfold batch, BackendDocumentService.batch_quick_scan.
    rewrite (quick_scan_loop_all_return quick_scan has_index assign files
               results 0 [] Hall (or_intror Ht)).
    simpl. eexists. split; [reflexivity|]. simpl.
    split; [reflexivity|]. split; [reflexivity|].
    rewrite error_partition. symmetry. exact (Forall2_length _ _ _ Hall).
Qed.

Lemma batch_quick_scan_all_or_nothing_witness :
  Exists (fun cf =>
            ~ returns (DocumentService.process_single_document
                         Sample.save_temp_file Sample.extract_text
                         Sample.process_document "Llama 2" "0.42s" cf.1 cf.2))
    Sample.files_data
  /\ BackendDocumentService.batch_quick_scan
       (DocumentService.process_single_document Sample.save_temp_file
          Sample.extract_text Sample.process_document "Llama 2" "0.42s")
       false (Returned tt) Sample.files_data
     = Raised (Models.validation_error "extraction_method").
Proof.
  assert (H : Exists (fun cf =>
            ~ returns (DocumentService.process_single_document
                         Sample.save_temp_file Sample.extract_text
                         Sample.process_document "Llama 2" "0.42s" cf.1 cf.2))
            Sample.files_data).
  { apply Exists_cons_tl, Exists_cons_hd. intros [r Hr]. vm_compute in Hr.
    discriminate Hr. }
  split; [exact H|].
  exact (proj1 (batch_quick_scan_all_or_nothing
                  (DocumentService.process_single_document
                     Sample.save_temp_file Sample.extract_text
                     Sample.process_document "Llama 2" "0.42s")
                  false (Returned tt) Sample.files_data) H).
Defined.

(** X16.  [batch_document_workflow] isolates failures: it has one entry for
    each input, in the order of the input and numbered by position; the
    entry of a document holds the key "error" exactly when processing that
    document raised; and successful + failed is the number of inputs. *)
Theorem batch_document_workflow_isolates_failures :
  forall (quick_scan : string -> string -> outcome Models.ProcessingResult)
         (storage : ServiceManager.StorageClient)
         (new_document_id : nat -> string)
         (files_data : list (string * string)),
    let summary :=
      BackendDocumentService.batch_document_workflow quick_scan storage
        new_document_id files_data in
    BackendDocumentService.bs_total_documents summary = length files_data
    /\ length (BackendDocumentService.bs_results summary) = length files_data
    /\ (BackendDocumentService.bs_successful summary
        + BackendDocumentService.bs_failed summary)%nat = length files_data
    /\ (forall i cf,
           files_data !! i = Some cf ->
           exists r,
             BackendDocumentService.bs_results summary !! i = Some r
             /\ BackendDocumentService.entry_index r = i
             /\ (BackendDocumentService.has_error_key r = true
                 <-> ~ returns (quick_scan cf.1 cf.2))).
Proof.
  intros quick_scan storage new_id files summary.
  unfold summary, BackendDocumentService.batch_document_workflow.
  rewrite (workflow_loop_entries quick_scan storage new_id files 0 []).
  cbn [BackendDocumentService.bs_total_documents
         BackendDocumentService.bs_results
         BackendDocumentService.bs_successful
         BackendDocumentService.bs_failed app].
  split; [reflexivity|]. split; [apply length_imap|]. split.
  - rewrite entry_partition. apply length_imap.
  - intros i cf Hi. eexists. split.
    + rewrite list_lookup_imap, Hi. reflexivity.
    + simpl. split; [apply entry_of_index|apply entry_of_error].
Qed.

Lemma batch_document_workflow_isolates_failures_witness :
  Sample.files_data !! 1%nat = Some ("meeting notes", "notes.docx")
  /\ exists r,
       BackendDocumentService.bs_results
         (BackendDocumentService.batch_document_workflow
            (DocumentService.process_single_document Sample.save_temp_file
               Sample.extract_text Sample.process_document "Llama 2" "0.42s")
            ServiceManager.new_StorageClient (fun n => pretty n)
            Sample.files_data) !! 1%nat = Some r
       /\ BackendDocumentService.entry_index r = 1%nat.
Proof.
  assert (H : Sample.files_data !! 1%nat = Some ("meeting notes", "notes.docx"))
    by reflexivity.
  split; [exact H|].
  destruct (proj2 (proj2 (proj2 (batch_document_workflow_isolates_failures
              (DocumentService.process_single_document Sample.save_temp_file
                 Sample.extract_text Sample.process_document "Llama 2" "0.42s")
              ServiceManager.new_StorageClient (fun n => pretty n)
              Sample.files_data))) 1%nat _ H) as (r & Hr & Hi & _).
  exists r. split; [exact Hr|exact Hi].
Defined.

(** ** The response parser: text around the object *)

Section SurroundingTextFacts.

Lemma get_app_r (p s : string) (k : nat) :
  String.get (String.length p + k) (p ++ s) = String.get k s.
Proof. induction p as [|c p IH]; [reflexivity|]. simpl. exact IH. Qed.

Lemma get_app_l (p s : string) :
  forall k, (k < String.length p)%nat -> String.get k (p ++ s) = String.get k p.
Proof.
  induction p as [|c p IH]; intros k Hk; simpl in Hk; [lia|].
  destruct k; [reflexivity|]. simpl. apply IH. lia.
Qed.

Lemma substring_app_skip (p s : string) (n : nat) :
  String.substring (String.length p) n (p ++ s) = String.substring 0 n s.
Proof. induction p as [|c p IH]; [reflexivity|]. simpl. exact IH. Qed.

Lemma substring_app_prefix (b s : string) :
  String.substring 0 (String.length b) (b ++ s) = b.
Proof.
  induction b as [|c b IH]; simpl.
  - destruct s; reflexivity.
  - f_equal. exact IH.
Qed.

Lemma str_app_assoc (a b c : string) : (a ++ b) ++ c = a ++ (b ++ c).
Proof.
  induction a as [|x a IH]; [reflexivity|].
  change (String x ((a ++ b) ++ c) = String x (a ++ (b ++ c))).
  f_equal. exact IH.
Qed.

Lemma drop_app_skip (p s : string) :
  Str.drop (String.length p) (p ++ s) = s.
Proof.
  induction p as [|c p IH]; simpl; [destruct s; reflexivity|exact IH].
Qed.

(** Where the braces of [prefix {inner} suffix] are. *)
Lemma braces_located (prefix inner suffix : string) :
  ResponseParser.absent "{" prefix -> ResponseParser.absent "}" suffix ->
  ResponseParser.first_at "{" (prefix ++ "{" ++ inner ++ "}" ++ suffix)
    (String.length prefix)
  /\ ResponseParser.last_at "}" (prefix ++ "{" ++ inner ++ "}" ++ suffix)
       (String.length prefix + S (String.length inner)).
Proof.
  intros Hp Hs.
  assert (H0 : forall (a b : string), String.get (String.length a) (a ++ b)
                                      = String.get 0 b).
  { intros a b. rewrite <- (get_app_r a b 0). f_equal. lia. }
  split; split.
  - rewrite H0. reflexivity.
  - intros k Hk. rewrite get_app_l by exact Hk. apply Hp.
  - rewrite get_app_r.
    change (String.get (String.length inner) (inner ++ "}" ++ suffix)
            = Some "}"%char).
    rewrite H0. reflexivity.
  - intros k Hk.
    replace k with (String.length prefix
                    + S (String.length inner + S (k - String.length prefix
                                                  - String.length inner - 2)))
      by lia.
    rewrite get_app_r.
    change (String.get
              (String.length inner
               + S (k - String.length prefix - String.length inner - 2))
              (inner ++ "}" ++ suffix) <> Some "}"%char).
    rewrite get_app_r. apply Hs.
Qed.
End SurroundingTextFacts.

(** X17.  Text around the object does not matter: for a response made of a
    prefix without opening brace, an object in braces and a suffix without
    closing brace, the parser decodes the object alone, whatever is inside
    it, and returns the raw text of the whole response when the object does
    not decode. *)
Theorem parse_json_response_ignores_surrounding_text :
  forall (loads : string -> option json) (prefix inner suffix : string),
    ResponseParser.absent "{" prefix ->
    ResponseParser.absent "}" suffix ->
    ResponseParser._parse_json_response loads
      (prefix ++ "{" ++ inner ++ "}" ++ suffix)
    = match loads ("{" ++ inner ++ "}") with
      | Some parsed => parsed
      | None =>
          ResponseParser.raw_response (prefix ++ "{" ++ inner ++ "}" ++ suffix)
      end.
Proof.
  intros loads prefix inner suffix Hp Hs.
  destruct (braces_located prefix inner suffix Hp Hs) as [Hfirst Hlast].
  unfold ResponseParser._parse_json_response.
  rewrite (find_char_first "{" _ _ Hfirst), (rfind_char_last "}" _ _ Hlast).
  destruct (Z.eqb_spec (Z.of_nat (String.length prefix)) (-1)); [lia|].
  destruct (Z.eqb_spec
              (Z.of_nat (String.length prefix + S (String.length inner)) + 1) 0);
    [lia|].
  simpl negb. cbn [andb].
  rewrite slice_between.
  - replace (String.length prefix + S (String.length inner) + 1
             - String.length prefix)%nat
      with (String.length ("{" ++ inner ++ "}")).
    + rewrite substring_app_skip.
      change ("{" ++ inner ++ "}" ++ suffix)
        with (String "{" (inner ++ String "}" suffix)).
      replace (String "{" (inner ++ String "}" suffix))
        with (("{" ++ inner ++ "}") ++ suffix).
      * rewrite substring_app_prefix. reflexivity.
      * change (String "{" ((inner ++ "}") ++ suffix)
                = String "{" (inner ++ "}" ++ suffix)).
        f_equal. apply str_app_assoc.
    + change (String.length ("{" ++ inner ++ "}"))
        with (S (String.length (inner ++ "}"))).
      rewrite length_append.
      change (String.length "}") with 1%nat. lia.
  - exact (get_Some_lt _ _ _ (proj1 Hfirst)).
  - exact (get_Some_lt _ _ _ (proj1 Hlast)).
Qed.

Lemma parse_json_response_ignores_surrounding_text_witness :
  ResponseParser.absent "{" "Sure! "
  /\ ResponseParser.absent "}" " Hope it helps."
  /\ ResponseParser._parse_json_response JsonDecoder.json_loads
       ("Sure! " ++ "{" ++ " [1, 2} " ++ "}" ++ " Hope it helps.")
     = ResponseParser.raw_response
         ("Sure! " ++ "{" ++ " [1, 2} " ++ "}" ++ " Hope it helps.").
Proof.
  assert (H1 : ResponseParser.absent "{" "Sure! ").
  { intros k. do 6 (destruct k as [|k]; [discriminate|]). discriminate. }
  assert (H2 : ResponseParser.absent "}" " Hope it helps.").
  { intros k. do 15 (destruct k as [|k]; [discriminate|]). discriminate. }
  split; [exact H1|]. split; [exact H2|].
  exact (parse_json_response_ignores_surrounding_text JsonDecoder.json_loads
           "Sure! " " [1, 2} " " Hope it helps." H1 H2).
Defined.

(** ** The prompt catalog and the methods it lists *)

Section CatalogFacts.
Import PromptLoader PromptCatalog.

Lemma unlisted_method_lookups (prompts : catalog) (method : string) :
  method ∉ get_available_methods prompts ->
  default_entry prompts method = None
  /\ forall doc_type, exact_entry prompts doc_type method = None.
Proof.
  unfold get_available_methods, default_entry, exact_entry.
  intros H. apply not_elem_of_union in H as [Hd Hm]. split.
  - apply not_elem_of_dom. exact Hm.
  - intros doc_type.
    destruct (default ∅ (document_types prompts) !! doc_type)
      as [doc_prompts|] eqn:E; [|reflexivity].
    destruct (doc_prompts !! method) as [t|] eqn:Et; [|reflexivity].
    exfalso. apply Hd. apply elem_of_union_list.
    exists (dom doc_prompts). split.
    + apply list_elem_of_fmap. exists doc_prompts. split; [reflexivity|].
      apply list_elem_of_fmap. exists (doc_type, doc_prompts).
      split; [reflexivity|]. apply elem_of_map_to_list. exact E.
    + apply elem_of_dom. exists t. exact Et.
Qed.

Lemma get_prompt_by_entries (prompts : catalog) (doc_type method : string) :
  get_prompt prompts doc_type method
  = match exact_entry prompts doc_type method with
    | Some t => t
    | None =>
        match default_entry prompts method with
        | Some t => t
        | None => fallback_prompt doc_type
        end
    end.
Proof.
  unfold get_prompt, exact_entry, default_entry.
  destruct (default ∅ (document_types prompts) !! doc_type); reflexivity.
Qed.

(** The prompt of the built-in catalog, for a method it has under both
    keys. *)
Lemma builtin_get_prompt (doc_type method t_invoice t_default : string) :
  exact_entry _get_default_prompts "invoice" method = Some t_invoice ->
  default_entry _get_default_prompts method = Some t_default ->
  get_prompt _get_default_prompts doc_type method
  = if String.eqb doc_type "invoice" then t_invoice else t_default.
Proof.
  intros Hi Hd. rewrite get_prompt_by_entries.
  destruct (String.eqb_spec doc_type "invoice") as [->|Hne].
  - rewrite Hi. reflexivity.
  - assert (E : exact_entry _get_default_prompts doc_type method = None).
    { unfold exact_entry.
      assert (E : default (∅ : gmap string (gmap string string))
                    (document_types _get_default_prompts) !! doc_type = None).
      { apply lookup_singleton_ne. congruence. }
      rewrite E. reflexivity. }
    rewrite E, Hd. reflexivity.
Qed.
End CatalogFacts.

(** X18.  A method the catalog does not list gets the built-in fallback
    prompt, whatever the document type. *)
Theorem unlisted_method_gets_fallback_prompt :
  forall (prompts : PromptLoader.catalog) (doc_type method : string),
    method ∉ PromptCatalog.get_available_methods prompts ->
    PromptLoader.get_prompt prompts doc_type method
    = PromptLoader.fallback_prompt doc_type.
Proof.
  intros prompts doc_type method H.
  destruct (unlisted_method_lookups prompts method H) as [Hd Hx].
  rewrite get_prompt_by_entries, Hx, Hd. reflexivity.
Qed.

Lemma unlisted_method_gets_fallback_prompt_witness :
  ("claude" ∉ PromptCatalog.get_available_methods
                PromptLoader._get_default_prompts)
  /\ PromptLoader.get_prompt PromptLoader._get_default_prompts "invoice" "claude"
     = PromptLoader.fallback_prompt "invoice".
Proof.
  assert (H : "claude" ∉ PromptCatalog.get_available_methods
                           PromptLoader._get_default_prompts) by by_decision.
  split; [exact H|].
  exact (unlisted_method_gets_fallback_prompt
           PromptLoader._get_default_prompts "invoice" "claude" H).
Defined.

(** X19.  Every method the catalog lists has a template in the catalog:
    for some document type [get_prompt] answers with an entry of the
    catalog, the one of that type or the default one. *)
Theorem listed_method_has_catalog_prompt :
  forall (prompts : PromptLoader.catalog) (method : string),
    method ∈ PromptCatalog.get_available_methods prompts ->
    exists doc_type t,
      PromptLoader.get_prompt prompts doc_type method = t
      /\ (PromptLoader.exact_entry prompts doc_type method = Some t
          \/ PromptLoader.default_entry prompts method = Some t).
Proof.
  intros prompts method H. unfold PromptCatalog.get_available_methods in H.
  apply elem_of_union in H as [H|H].
  - apply elem_of_union_list in H as (X & HX & Hm).
    apply list_elem_of_fmap in HX as (doc_prompts & -> & HX).
    apply list_elem_of_fmap in HX as ([doc_type dp] & Heq & HX).
    simpl in Heq. subst dp. apply elem_of_map_to_list in HX.
    apply elem_of_dom in Hm as [t Ht].
    assert (E : PromptLoader.exact_entry prompts doc_type method = Some t).
    { unfold PromptLoader.exact_entry. rewrite HX. exact Ht. }
    exists doc_type, t. rewrite get_prompt_by_entries, E.
    split; [reflexivity|left; reflexivity].
  - apply elem_of_dom in H as [t Ht].
    exists "invoice". rewrite get_prompt_by_entries.
    destruct (PromptLoader.exact_entry prompts "invoice" method) as [t'|] eqn:E.
    + exists t'. split; [reflexivity|left; reflexivity].
    + exists t. unfold PromptLoader.default_entry. rewrite Ht.
      split; [reflexivity|right; reflexivity].
Qed.

Lemma listed_method_has_catalog_prompt_witness :
  ("huggingface" ∈ PromptCatalog.get_available_methods
                     (PromptLoader.catalog_of "huggingface" "Read: {text}"))
  /\ exists doc_type t,
       PromptLoader.get_prompt
         (PromptLoader.catalog_of "huggingface" "Read: {text}")
         doc_type "huggingface" = t
       /\ (PromptLoader.exact_entry
             (PromptLoader.catalog_of "huggingface" "Read: {text}")
             doc_type "huggingface" = Some t
           \/ PromptLoader.default_entry
                (PromptLoader.catalog_of "huggingface" "Read: {text}")
                "huggingface" = Some t).
Proof.
  assert (H : "huggingface" ∈ PromptCatalog.get_available_methods
                (PromptLoader.catalog_of "huggingface" "Read: {text}"))
    by by_decision.
  split; [exact H|].
  exact (listed_method_has_catalog_prompt
           (PromptLoader.catalog_of "huggingface" "Read: {text}")
           "huggingface" H).
Defined.

(** X20.  When the prompts file is missing or is not valid YAML, the loader
    works with the built-in catalog, and with it [format_prompt] returns
    for every document type and every text, for each of the three
    backends: the text (the preview, for the local model) stands in the
    prompt as it is, braces included. *)
Theorem builtin_prompts_always_format :
  forall (attempt : PromptCatalog.load_attempt) (doc_type text : string),
    attempt = PromptCatalog.FileNotFound \/ attempt = PromptCatalog.YamlError ->
    exists prompts,
      PromptCatalog._load_prompts attempt = Returned prompts
      /\ PromptLoader.format_prompt Format.py_format prompts doc_type "ollama" text
         = Returned
             ("Extract "
              ++ (if String.eqb doc_type "invoice" then "invoice " else "")
              ++ "information from: " ++ text ++ PromptLoader.nl
              ++ "Return JSON:")
      /\ PromptLoader.format_prompt Format.py_format prompts doc_type "openai" text
         = Returned
             ("Extract "
              ++ (if String.eqb doc_type "invoice" then "invoice " else "")
              ++ "information from: " ++ text ++ PromptLoader.nl
              ++ "Return JSON:")
      /\ PromptLoader.format_prompt Format.py_format prompts doc_type
           "huggingface" text
         = Returned
             ("Extract "
              ++ (if String.eqb doc_type "invoice" then "invoice " else "")
              ++ "from: " ++ PromptLoader.text_preview text ++ "..."
              ++ PromptLoader.nl ++ "JSON:").
Proof.
  intros attempt doc_type text Hattempt.
  exists PromptLoader._get_default_prompts. split.
  { destruct Hattempt as [-> | ->]; reflexivity. }
  unfold PromptLoader.format_prompt, PromptLoader.format_vars.
  rewrite (builtin_get_prompt doc_type "ollama" _ _ eq_refl eq_refl).
  rewrite (builtin_get_prompt doc_type "openai" _ _ eq_refl eq_refl).
  rewrite (builtin_get_prompt doc_type "huggingface" _ _ eq_refl eq_refl).
  generalize (PromptLoader.text_preview text). intros preview.
  destruct (String.eqb doc_type "invoice");
    (split; [|split]); vm_compute; reflexivity.
Qed.

Lemma builtin_prompts_always_format_witness :
  exists prompts,
    PromptCatalog._load_prompts PromptCatalog.FileNotFound = Returned prompts
    /\ PromptLoader.format_prompt Format.py_format prompts "receipt" "ollama"
         "Total {15.67}"
       = Returned
           ("Extract information from: Total {15.67}" ++ PromptLoader.nl
            ++ "Return JSON:").
Proof.
  destruct (builtin_prompts_always_format PromptCatalog.FileNotFound
              "receipt" "Total {15.67}" (or_introl eq_refl))
    as (prompts & Hload & Hollama & _).
  exists prompts. split; [exact Hload|]. exact Hollama.
Defined.

(** ** The life cycle of the services *)

(** X21.  The health check agrees with the two accessors: the services are
    healthy exactly when both accessors return.  After
    [initialize_services] they are healthy exactly when the processor could
    be built or they were healthy before: a construction that raises is
    re-raised and leaves both instances as they were.  After
    [cleanup_services] they are not healthy and both accessors raise an
    HTTP error 503. *)
Theorem services_health_follows_life_cycle :
  forall (Processor : Type) (new_Processor : outcome Processor)
         (st : ServiceManager.services Processor),
    (ServiceManager.is_healthy st = true
     <-> exists p c, ServiceManager.get_processor st = Returned p
                     /\ ServiceManager.get_storage_client st = Returned c)
    /\ (ServiceManager.is_healthy
          (snd (ServiceManager.initialize_services new_Processor st)) = true
        <-> returns new_Processor \/ ServiceManager.is_healthy st = true)
    /\ match new_Processor with
       | Returned p =>
           fst (ServiceManager.initialize_services new_Processor st)
           = Returned tt
           /\ ServiceManager.get_processor
                (snd (ServiceManager.initialize_services new_Processor st))
              = Returned p
       | Raised e =>
           ServiceManager.initialize_services new_Processor st = (Raised e, st)
       end
    /\ ServiceManager.is_healthy (ServiceManager.cleanup_services st) = false
    /\ ServiceManager.get_processor (ServiceManager.cleanup_services st)
       = Raised (mk_exn (HTTPException 503) "Processor not initialized")
    /\ ServiceManager.get_storage_client (ServiceManager.cleanup_services st)
       = Raised (mk_exn (HTTPException 503) "Storage client not initialized").
Proof.
  intros Processor new_Processor [p c].
  unfold ServiceManager.is_healthy, ServiceManager.get_processor,
    ServiceManager.get_storage_client, ServiceManager.initialize_services,
    ServiceManager.cleanup_services, returns.
  repeat split.
  - cbn. intros H. destruct p as [p|]; [|discriminate].
    destruct c as [c|]; [|discriminate]. exists p, c. split; reflexivity.
  - cbn. intros (p' & c' & Hp & Hc).
    destruct p; [|discriminate]. destruct c; [reflexivity|discriminate].
  - destruct new_Processor as [q|e]; cbn; intros H.
    + left. exists q. reflexivity.
    + right. exact H.
  - destruct new_Processor as [q|e]; cbn; intros [[q' H]|H];
      try reflexivity; try discriminate; exact H.
  - destruct new_Processor as [q|e]; cbn; [split|]; reflexivity.
Qed.

Lemma services_health_follows_life_cycle_witness :
  returns (Backend.__init__ Fixtures.only_huggingface)
  /\ ServiceManager.is_healthy
       (snd (ServiceManager.initialize_services
               (Backend.__init__ Fixtures.only_huggingface)
               ServiceManager.not_started)) = true.
Proof.
  assert (H : returns (Backend.__init__ Fixtures.only_huggingface)).
  { exists (Backend.mk_processor "huggingface"
              [Backend.ProbeOllama; Backend.ProbeHuggingface]
              Scorer.default_threshold). reflexivity. }
  split; [exact H|].
  exact (proj2 (proj1 (proj2 (services_health_follows_life_cycle
                                Backend.processor
                                (Backend.__init__ Fixtures.only_huggingface)
                                ServiceManager.not_started)))
           (or_introl H)).
Defined.

(** ** Workflow tracking *)

(** X22.  [process_and_forward] leaves no workflow in the state
    [processing]: when the document operation returns, the call returns
    its payload under the workflow's identifier and the status is
    [completed]; when it raises, the call raises the same exception and
    the status is [failed].  The webhook cannot make the call fail: the
    flag [forwarded] is true exactly when a non-empty URL was given and
    the POST answered 200.  The status of every other workflow is what it
    was. *)
Theorem process_and_forward_settles_status :
  forall (P : Type) (workflow_id : string) (processing : outcome P)
         (webhook_url : option string) (post_status : option nat)
         (active_workflows : gmap string WorkflowService.WorkflowStatus),
    match processing with
    | Returned data =>
        (exists f,
           fst (WorkflowService.process_and_forward P workflow_id processing
                  webhook_url post_status active_workflows)
           = Returned (WorkflowService.mk_response workflow_id data f)
           /\ (f = true
               <-> exists url, webhook_url = Some url /\ url <> ""
                               /\ post_status = Some 200%nat))
        /\ WorkflowService.get_workflow_status
             (snd (WorkflowService.process_and_forward P workflow_id processing
                     webhook_url post_status active_workflows))
             workflow_id
           = Some (workflow_id, "completed", "2025-01-01T00:00:00Z")
    | Raised e =>
        fst (WorkflowService.process_and_forward P workflow_id processing
               webhook_url post_status active_workflows)
        = Raised e
        /\ WorkflowService.get_workflow_status
             (snd (WorkflowService.process_and_forward P workflow_id processing
                     webhook_url post_status active_workflows))
             workflow_id
           = Some (workflow_id, "failed", "2025-01-01T00:00:00Z")
    end
    /\ forall other,
         other <> workflow_id ->
         WorkflowService.get_workflow_status
           (snd (WorkflowService.process_and_forward P workflow_id processing
                   webhook_url post_status active_workflows))
           other
         = WorkflowService.get_workflow_status active_workflows other.
Proof.
  intros P workflow_id processing webhook_url post_status active_workflows.
  unfold WorkflowService.process_and_forward,
    WorkflowService.get_workflow_status.
  split.
  - destruct processing as [data|e]; cbn [fst snd].
    + split.
      * eexists. split; [reflexivity|].
        unfold WorkflowService._forward_to_webhook.
        destruct webhook_url as [url|].
        -- destruct (String.eqb_spec url "") as [->|Hne]; cbn [negb].
           ++ split; [discriminate|]. intros (u & Hu & Hn & _).
              injection Hu as <-. contradiction.
           ++ destruct post_status as [status|].
              ** destruct (Nat.eqb_spec status 200) as [->|Hs].
                 --- split; [|reflexivity]. intros _. exists url.
                     repeat split; [exact Hne].
                 --- split; [discriminate|]. intros (u & _ & _ & Hp).
                     injection Hp as Hp. contradiction.
              ** split; [discriminate|]. intros (u & _ & _ & Hp).
                 discriminate.
        -- split; [discriminate|]. intros (u & Hu & _). discriminate.
      * rewrite lookup_insert_eq. reflexivity.
    + split; [reflexivity|]. rewrite lookup_insert_eq. reflexivity.
  - intros other Hother.
    destruct processing as [data|e]; cbn [snd];
      rewrite !lookup_insert_ne by congruence; reflexivity.
Qed.

Lemma process_and_forward_settles_status_witness :
  "wf-2" <> "wf-1"
  /\ WorkflowService.get_workflow_status
       (snd (WorkflowService.process_and_forward string "wf-1"
               (Raised (mk_exn (HTTPException 400) "Unsupported file type"))
               (Some "https://example.org/hook") (Some 200%nat)
               {[ "wf-2" := WorkflowService.COMPLETED ]}))
       "wf-2"
     = WorkflowService.get_workflow_status
         {[ "wf-2" := WorkflowService.COMPLETED ]} "wf-2".
Proof.
  assert (H : "wf-2" <> "wf-1") by discriminate.
  split; [exact H|].
  exact (proj2 (process_and_forward_settles_status string "wf-1"
                  (Raised (mk_exn (HTTPException 400) "Unsupported file type"))
                  (Some "https://example.org/hook") (Some 200%nat)
                  {[ "wf-2" := WorkflowService.COMPLETED ]}) "wf-2" H).
Defined.

(** ** The display name of the model *)

Section DisplayNameFacts.

Lemma last_segment_without_slash (name : string) :
  ResponseParser.absent "/" name -> DisplayName.last_segment name = name.
Proof.
  intros Habs. unfold DisplayName.last_segment.
  pose proof (rfind_from_char "/" name 0) as H.
  destruct (Str.rfind_from "/" name 0) as [m|]; [|reflexivity].
  destruct H as (j & _ & Hj & _). exfalso. exact (Habs j Hj).
Qed.

Lemma last_segment_of_path (org name : string) :
  ResponseParser.absent "/" name ->
  DisplayName.last_segment (org ++ "/" ++ name) = name.
Proof.
  intros Habs. unfold DisplayName.last_segment.
  assert (Hlast : ResponseParser.last_at "/" (org ++ "/" ++ name)
                    (String.length org)).
  { split.
    - rewrite <- (Nat.add_0_r (String.length org)), get_app_r. reflexivity.
    - intros k Hk.
      replace k with (String.length org + S (k - String.length org - 1))%nat
        by lia.
      rewrite get_app_r. apply Habs. }
  pose proof (rfind_from_char "/" (org ++ "/" ++ name) 0) as H.
  destruct (Str.rfind_from "/" (org ++ "/" ++ name) 0) as [m|].
  - destruct H as (j & -> & Hj).
    rewrite <- (last_at_unique _ _ _ _ Hlast Hj). cbn [Nat.add].
    rewrite <- (str_app_assoc org "/" name).
    replace (S (String.length org)) with (String.length (org ++ "/")).
    + apply drop_app_skip.
    + rewrite length_append. cbn. lia.
  - exfalso. exact (H _ (proj1 Hlast)).
Qed.
End DisplayNameFacts.

(** X23.  For the local model the display name is read off the last
    segment of the configured model path alone: an organisation in front
    of a name without slash changes nothing. *)
Theorem huggingface_display_name_ignores_organisation :
  forall (title : string -> string)
         (ollama_model org name MODEL_NAME : string),
    ResponseParser.absent "/" name ->
    DisplayName._get_model_display_name title "huggingface" ollama_model
      (org ++ "/" ++ name) MODEL_NAME
    = DisplayName._get_model_display_name title "huggingface" ollama_model
        name MODEL_NAME
    /\ DisplayName._get_model_display_name title "huggingface" ollama_model
         (org ++ "/" ++ name) MODEL_NAME
       = DisplayName.get_or DisplayName.hf_names name name.
Proof.
  intros title ollama_model org name MODEL_NAME Habs.
  unfold DisplayName._get_model_display_name. cbn [String.eqb Ascii.eqb].
  change (String.eqb "huggingface" "ollama") with false.
  change (String.eqb "huggingface" "huggingface") with true.
  cbv iota.
  rewrite (last_segment_of_path org name Habs),
    (last_segment_without_slash name Habs).
  split; reflexivity.
Qed.

Lemma huggingface_display_name_ignores_organisation_witness :
  ResponseParser.absent "/" "DialoGPT-small"
  /\ DisplayName._get_model_display_name (fun s => s) "huggingface" "llama2"
       ("microsoft" ++ "/" ++ "DialoGPT-small") "gpt-4"
     = "DialoGPT Small".
Proof.
  assert (H : ResponseParser.absent "/" "DialoGPT-small").
  { intros k. do 14 (destruct k as [|k]; [discriminate|]). discriminate. }
  split; [exact H|].
  exact (proj2 (huggingface_display_name_ignores_organisation (fun s => s)
                  "llama2" "microsoft" "DialoGPT-small" "gpt-4" H)).
Defined.

(** ** The processing endpoints *)

(** X24.  The endpoint [POST /api/process] answers every failure of the
    document service with the status 500, and hands a result on as it is.
    An upload the validation rejects (no name, an extension that is not
    supported, more than 10 MB) is no exception: the client sees a 500
    whose detail is the validation message. *)
Theorem process_route_answers_500_on_every_failure :
  forall save_temp_file extract_text pipeline model_display_name
         processing_time (file_content filename : string),
    match ApiRoutes.process_document save_temp_file extract_text pipeline
            model_display_name processing_time file_content filename with
    | Returned r =>
        DocumentService.process_single_document save_temp_file extract_text
          pipeline model_display_name processing_time file_content filename
        = Returned r
    | Raised e => exn_kind_of e = HTTPException 500
    end
    /\ forall e,
         FileService.validate_file filename
           (N.of_nat (String.length file_content)) = Raised e ->
         ApiRoutes.process_document save_temp_file extract_text pipeline
           model_display_name processing_time file_content filename
         = Raised (mk_exn (HTTPException 500) (exn_message e)).
Proof.
  intros save extract pipeline name time content filename.
  unfold ApiRoutes.process_document, ApiRoutes.as_http_500. split.
  - destruct (DocumentService.process_single_document save extract pipeline
                name time content filename); reflexivity.
  - intros e He. unfold DocumentService.process_single_document,
      FileService.analyze_file. rewrite He. reflexivity.
Qed.

Lemma process_route_answers_500_on_every_failure_witness :
  FileService.validate_file "notes.docx"
    (N.of_nat (String.length "meeting notes"))
  = Raised (mk_exn ValueError
              "File type .docx not supported. Use: .txt, .pdf, .png, .jpg, .jpeg")
  /\ ApiRoutes.process_document Sample.save_temp_file Sample.extract_text
       Sample.process_document "Llama 2" "0.42s" "meeting notes" "notes.docx"
     = Raised (mk_exn (HTTPException 500)
                 "File type .docx not supported. Use: .txt, .pdf, .png, .jpg, .jpeg").
Proof.
  assert (H : FileService.validate_file "notes.docx"
                (N.of_nat (String.length "meeting notes"))
              = Raised (mk_exn ValueError
                  "File type .docx not supported. Use: .txt, .pdf, .png, .jpg, .jpeg"))
    by (vm_compute; reflexivity).
  split; [exact H|].
  exact (proj2 (process_route_answers_500_on_every_failure
                  Sample.save_temp_file Sample.extract_text
                  Sample.process_document "Llama 2" "0.42s" "meeting notes"
                  "notes.docx") _ H).
Defined.

(** X25.  The endpoint [POST /api/batch-process] answers the whole request
    with the status 500 as soon as one document of the batch fails: the
    service's failure record is rejected by the model's validation, and the
    endpoint turns that error into its 500. *)
Theorem batch_route_answers_500_when_a_document_fails :
  forall save_temp_file extract_text pipeline model_display_name
         processing_time assign_batch_index
         (files_data : list (string * string)),
    Exists (fun cf =>
              ~ returns (DocumentService.process_single_document save_temp_file
                           extract_text pipeline model_display_name
                           processing_time cf.1 cf.2)) files_data ->
    ApiRoutes.batch_process save_temp_file extract_text pipeline
      model_display_name processing_time assign_batch_index files_data
    = Raised (mk_exn (HTTPException 500)
                (exn_message (Models.validation_error "extraction_method"))).
Proof.
  intros save extract pipeline name time assign files Hex.
  unfold ApiRoutes.batch_process, DocumentService.process_batch_documents.
  rewrite (batch_loop_aborts save extract pipeline name time assign files 0 []
             Hex).
  reflexivity.
Qed.

Lemma batch_route_answers_500_when_a_document_fails_witness :
  Exists (fun cf =>
            ~ returns (DocumentService.process_single_document
                         Sample.save_temp_file Sample.extract_text
                         Sample.process_document "Llama 2" "0.42s" cf.1 cf.2))
    Sample.files_data
  /\ ApiRoutes.batch_process Sample.save_temp_file Sample.extract_text
       Sample.process_document "Llama 2" "0.42s" (Returned tt)
       Sample.files_data
     = Raised (mk_exn (HTTPException 500)
                 (exn_message (Models.validation_error "extraction_method"))).
Proof.
  assert (H : Exists (fun cf =>
            ~ returns (DocumentService.process_single_document
                         Sample.save_temp_file Sample.extract_text
                         Sample.process_document "Llama 2" "0.42s" cf.1 cf.2))
            Sample.files_data).
  { apply Exists_cons_tl, Exists_cons_hd. intros [r Hr]. vm_compute in Hr.
    discriminate Hr. }
  split; [exact H|].
  exact (batch_route_answers_500_when_a_document_fails Sample.save_temp_file
           Sample.extract_text Sample.process_document "Llama 2" "0.42s"
           (Returned tt) Sample.files_data H).
Defined.

(** ** The authentication middleware *)

Section AuthFacts.

Lemma slash_paths_skip_auth (path : string) :
  Str.startswith "/" path = true -> AuthMiddleware.skips_auth path = true.
Proof.
  intros H. unfold AuthMiddleware.skips_auth. apply existsb_exists.
  exists "/". split; [|exact H].
  unfold AuthMiddleware.skip_paths. simpl. auto 10.
Qed.

Lemma api_paths_start_with_slash (path : string) :
  Str.startswith "/api" path = true -> Str.startswith "/" path = true.
Proof.
  unfold Str.startswith. destruct path as [|c rest]; [discriminate|].
  cbn -[ascii_dec]. destruct (ascii_dec "/" c); [|discriminate].
  intros _. destruct rest; reflexivity.
Qed.
End AuthFacts.

(** X26.  The credential check of the authentication middleware is never
    reached: the list of paths that skip authentication ends with the
    root path, which every path under [/api] starts with, so for such a
    request the middleware reads no header and answers what the
    application answers. *)
Theorem api_requests_skip_credential_check :
  forall (R : Type) (call_next : outcome R) (path : string),
    Str.startswith "/api" path = true ->
    AuthMiddleware.skips_auth path = true
    /\ AuthMiddleware.auth_middleware call_next path = ([], call_next).
Proof.
  intros R call_next path H.
  pose proof (slash_paths_skip_auth path (api_paths_start_with_slash path H))
    as Hskip.
  split; [exact Hskip|].
  unfold AuthMiddleware.auth_middleware. rewrite Hskip. reflexivity.
Qed.

Lemma api_requests_skip_credential_check_witness :
  Str.startswith "/api" "/api/documents/42" = true
  /\ AuthMiddleware.auth_middleware (Returned "stored document")
       "/api/documents/42"
     = ([], Returned "stored document").
Proof.
  assert (H : Str.startswith "/api" "/api/documents/42" = true) by reflexivity.
  split; [exact H|].
  exact (proj2 (api_requests_skip_credential_check string
                  (Returned "stored document") "/api/documents/42" H)).
Defined.
